(** * statement_vtab: a shallow embedding of [statement_vtab.c]

    The development follows the C source function by function.  C [int]
    values are integers of [Z] with the wrap-around of the platform's [int]
    written out, [size_t] and [sqlite3_uint64] likewise; [char] buffers are
    lists of [Z] accessed through bounds-checked [load] and [store] (an access
    outside the buffer has no defined result and is [None]); the SQLite
    library itself is a collaborator whose answers are parameters. *)

From Stdlib Require Import ZArith Lia Ascii String.
From stdpp Require Import base option list gmap strings pretty.

Local Open Scope Z_scope.

(** ** Platform parameters *)

(** [INT_BITS] is [sizeof(int) * CHAR_BIT]; [SIZE_MAX] is the one of
    [<stdint.h>].  The first two bounds are the minima of the C standard; the
    third says that [size_t] holds every non-negative [int], so that the
    conversion [(size_t)out_constraints] keeps the value. *)
Class Platform := {
  INT_BITS : Z;
  SIZE_MAX : Z;
  INT_BITS_min : 16 <= INT_BITS;
  SIZE_MAX_min : 65535 <= SIZE_MAX;
  INT_MAX_le_SIZE_MAX : 2 ^ (INT_BITS - 1) - 1 <= SIZE_MAX
}.

(** The common 64-bit platform: 32-bit [int], 64-bit [size_t]. *)
#[refine]
Instance LP64 : Platform := {| INT_BITS := 32; SIZE_MAX := 2 ^ 64 - 1 |}.
Proof. all: vm_compute; discriminate. Defined.

(** A 32-bit platform. *)
#[refine]
Instance ILP32 : Platform := {| INT_BITS := 32; SIZE_MAX := 2 ^ 32 - 1 |}.
Proof. all: vm_compute; discriminate. Defined.

(** The smallest platform the C standard allows: 16-bit [int] and [size_t]. *)
#[refine]
Instance IP16 : Platform := {| INT_BITS := 16; SIZE_MAX := 65535 |}.
Proof. all: vm_compute; discriminate. Defined.

Section Integers.
Context `{Platform}.

Definition INT_MAX : Z := 2 ^ (INT_BITS - 1) - 1.
Definition INT_MIN : Z := - 2 ^ (INT_BITS - 1).

(** Arithmetic of the C type [int]: the result reduced to the two's
    complement range.  (C leaves signed overflow undefined; the theorems below
    say where the reduction is the identity.) *)
Definition int_wrap (z : Z) : Z :=
  (z + 2 ^ (INT_BITS - 1)) mod 2 ^ INT_BITS - 2 ^ (INT_BITS - 1).

(** Arithmetic of [size_t] and of [sqlite3_uint64]. *)
Definition size_wrap (z : Z) : Z := z mod (SIZE_MAX + 1).
Definition u64_wrap (z : Z) : Z := z mod 2 ^ 64.

(** [const static size_t param_idx_size = (sizeof(int)*CHAR_BIT+5)/6;] *)
Definition param_idx_size : Z := (INT_BITS + 5) / 6.

End Integers.

(** ** Result codes and constraint operators of [sqlite3.h] *)

Definition SQLITE_OK : Z := 0.
Definition SQLITE_ERROR : Z := 1.
Definition SQLITE_NOMEM : Z := 7.
Definition SQLITE_TOOBIG : Z := 18.
Definition SQLITE_CONSTRAINT : Z := 19.
Definition SQLITE_MISUSE : Z := 21.
Definition SQLITE_RANGE : Z := 25.
Definition SQLITE_ROW : Z := 100.
Definition SQLITE_DONE : Z := 101.

Definition SQLITE_INDEX_CONSTRAINT_EQ : Z := 2.
Definition SQLITE_INDEX_CONSTRAINT_GT : Z := 4.
Definition SQLITE_INDEX_CONSTRAINT_LT : Z := 16.
Definition SQLITE_INDEX_CONSTRAINT_LIMIT : Z := 73.
Definition SQLITE_INDEX_CONSTRAINT_OFFSET : Z := 74.

(** ** Character buffers *)

(** [buf[k] = v]; [None] when [k] is outside the buffer. *)
Definition store (buf : list Z) (k v : Z) : option (list Z) :=
  if decide (0 <= k < Z.of_nat (length buf))
  then Some (<[Z.to_nat k := v]> buf) else None.

(** [buf[k]]; [None] when [k] is outside the buffer. *)
Definition load (buf : list Z) (k : Z) : option Z :=
  if decide (0 <= k) then buf !! Z.to_nat k else None.

(** ** The parameter map codec ([encode_param_idx], [decode_param_idx]) *)

Section Codec.
Context `{Platform}.

(** The body of the [for] loop of [encode_param_idx], [n] iterations from
    [j] on:
    [param_map[i*param_idx_size+j] = ((param_idx >> 6*j) & 63) + 33;] *)
Fixpoint encode_loop (n : nat) (j i : Z) (param_map : list Z) (param_idx : Z)
  : option (list Z) :=
  match n with
  | O => Some param_map
  | S n' =>
      param_map' ← store param_map (size_wrap (i * param_idx_size + j))
                     (Z.land (param_idx ≫ (6 * j)) 63 + 33);
      encode_loop n' (j + 1) i param_map' param_idx
  end.

(** [encode_param_idx]; [None] also when [assert(param_idx >= 0)] fails. *)
Definition encode_param_idx (i : Z) (param_map : list Z) (param_idx : Z)
  : option (list Z) :=
  if param_idx <? 0 then None
  else encode_loop (Z.to_nat param_idx_size) 0 i param_map param_idx.

(** The loop of [decode_param_idx]:
    [param_idx |= (param_map[i*param_idx_size+j] - 33) << 6*j;] *)
Fixpoint decode_loop (n : nat) (j i : Z) (param_map : list Z) (param_idx : Z)
  : option Z :=
  match n with
  | O => Some param_idx
  | S n' =>
      c ← load param_map (size_wrap (i * param_idx_size + j));
      decode_loop n' (j + 1) i param_map
        (Z.lor param_idx (int_wrap ((c - 33) ≪ (6 * j))))
  end.

Definition decode_param_idx (i : Z) (param_map : list Z) : option Z :=
  decode_loop (Z.to_nat param_idx_size) 0 i param_map 0.

End Codec.

(** ** The planner ([statement_vtab_best_index]) *)

(** [struct statement_vtab]: [base.zErrMsg] and the fields the module adds
    (the connection handle [db] carries no data of its own here). *)
Record statement_vtab := {
  zErrMsg : option string;
  sql : string;
  sql_len : Z;
  num_inputs : Z;
  num_outputs : Z
}.

(** [struct sqlite3_index_constraint] and [sqlite3_index_constraint_usage]
    of [sqlite3.h]. *)
Record sqlite3_index_constraint := {
  iColumn : Z;
  op : Z;
  usable : bool
}.

Record sqlite3_index_constraint_usage := {
  argvIndex : Z;
  omit : Z
}.

(** [sqlite3_index_info]: [nConstraint] is the length of [aConstraint];
    [idxStr] is [None] for a null pointer. *)
Record sqlite3_index_info := {
  aConstraint : list sqlite3_index_constraint;
  aConstraintUsage : list sqlite3_index_constraint_usage;
  idxStr : option (list Z);
  needToFreeIdxStr : Z;
  orderByConsumed : Z;
  estimatedCost : Z;
  estimatedRows : Z
}.

(** The locals of the first loop. *)
Record scan := {
  col_max : Z;
  used_cols : Z;
  out_constraints : Z
}.

(** How a loop ends: it runs to its end, or the function returns from
    inside it. *)
Inductive loop_exit :=
| Fallthrough
| Return (ret : Z).

(** The memory allocator of the library: [sqlite3_malloc64] answers a
    request of [n] bytes with a null pointer or with [n] bytes of arbitrary
    content; [sqlite3_mprintf] is given here the text it formats and answers
    with a null pointer or that text; [malloc_vtab] says whether the
    allocation of a [struct statement_vtab] succeeds. *)
Class Allocator := {
  sqlite3_malloc64 : Z -> option (list Z);
  sqlite3_mprintf : string -> option string;
  malloc_vtab : bool;
  sqlite3_malloc64_length :
    forall n buf, sqlite3_malloc64 n = Some buf -> Z.of_nat (length buf) = n
}.

Section Planner.
Context `{Platform} `{Allocator}.

(** The first test of the loop body: a LIMIT or OFFSET constraint, or one
    on an output column, is passed over. *)
Definition passed_over (num_outputs : Z) (c : sqlite3_index_constraint) : bool :=
  (op c =? SQLITE_INDEX_CONSTRAINT_LIMIT)
  || (op c =? SQLITE_INDEX_CONSTRAINT_OFFSET)
  || (iColumn c <? num_outputs).

(** The second test: the constraint has no exact value to bind. *)
Definition unbindable (c : sqlite3_index_constraint) : bool :=
  negb (usable c) || negb (op c =? SQLITE_INDEX_CONSTRAINT_EQ).

(** The first loop, over [aConstraint[i]] and [aConstraintUsage[i]] side by
    side.  [None]: [aConstraintUsage] is shorter than [nConstraint]. *)
Fixpoint scan_constraints (num_outputs : Z)
    (cs : list sqlite3_index_constraint)
    (us : list sqlite3_index_constraint_usage) (st : scan)
  : option (loop_exit * scan * list sqlite3_index_constraint_usage) :=
  match cs, us with
  | [], _ => Some (Fallthrough, st, us)
  | c :: cs', u :: us' =>
      if passed_over num_outputs c then
        '(e, st', us'') ← scan_constraints num_outputs cs' us' st;
        Some (e, st', u :: us'')
      else if unbindable c then
        Some (Return SQLITE_CONSTRAINT, st, u :: us')
      else
        let col_index := int_wrap (iColumn c - num_outputs) in
        let u' := {| argvIndex := int_wrap (col_index + 1); omit := 1 |} in
        let col_max' :=
          if int_wrap (col_index + 1) >? col_max st
          then int_wrap (col_index + 1) else col_max st in
        let used_cols' :=
          if col_index <? 64
          then Z.lor (used_cols st) (u64_wrap (1 ≪ col_index))
          else used_cols st in
        let st' := {| col_max := col_max'; used_cols := used_cols';
                      out_constraints := int_wrap (out_constraints st + 1) |} in
        '(e, st'', us'') ← scan_constraints num_outputs cs' us' st';
        Some (e, st'', u' :: us'')
  | _ :: _, [] => None
  end.

(** [required_cols = (col_max < 64 ? 1ull << col_max : 0ull)-1] *)
Definition required_cols (col_max : Z) : Z :=
  u64_wrap ((if col_max <? 64 then u64_wrap (1 ≪ col_max) else 0) - 1).

(** The test that ends the function with the argument order of the first
    loop left as it is. *)
Definition contiguous_test (st : scan) : bool :=
  (out_constraints st =? 0)
  || ((col_max st <=? 64)
      && (used_cols st =? required_cols (col_max st))
      && (out_constraints st =? col_max st)).

(** The second loop, [n] iterations over [aConstraintUsage], with its local
    [constraint_idx] and the buffer [idxStr]. *)
Fixpoint map_constraints (n : nat) (us : list sqlite3_index_constraint_usage)
    (constraint_idx : Z) (param_map : list Z)
  : option (list sqlite3_index_constraint_usage * list Z) :=
  match n, us with
  | O, _ => Some (us, param_map)
  | S n', u :: us' =>
      if argvIndex u =? 0 then
        '(us'', param_map') ← map_constraints n' us' constraint_idx param_map;
        Some (u :: us'', param_map')
      else
        param_map' ← encode_param_idx constraint_idx param_map (argvIndex u);
        let constraint_idx' := int_wrap (constraint_idx + 1) in
        '(us'', param_map'') ←
          map_constraints n' us' constraint_idx' param_map';
        Some ({| argvIndex := constraint_idx'; omit := omit u |} :: us'',
              param_map'')
  | S _, [] => None
  end.

Definition set_usage (info : sqlite3_index_info)
    (us : list sqlite3_index_constraint_usage) : sqlite3_index_info :=
  {| aConstraint := aConstraint info; aConstraintUsage := us;
     idxStr := idxStr info; needToFreeIdxStr := needToFreeIdxStr info;
     orderByConsumed := orderByConsumed info;
     estimatedCost := estimatedCost info;
     estimatedRows := estimatedRows info |}.

Definition set_idxStr (info : sqlite3_index_info) (s : option (list Z))
    (need_free : Z) : sqlite3_index_info :=
  {| aConstraint := aConstraint info;
     aConstraintUsage := aConstraintUsage info;
     idxStr := s; needToFreeIdxStr := need_free;
     orderByConsumed := orderByConsumed info;
     estimatedCost := estimatedCost info;
     estimatedRows := estimatedRows info |}.

Definition set_estimates (info : sqlite3_index_info) : sqlite3_index_info :=
  {| aConstraint := aConstraint info;
     aConstraintUsage := aConstraintUsage info;
     idxStr := idxStr info; needToFreeIdxStr := needToFreeIdxStr info;
     orderByConsumed := 0; estimatedCost := 1; estimatedRows := 1 |}.

Definition set_zErrMsg (vtab : statement_vtab) (msg : option string)
  : statement_vtab :=
  {| zErrMsg := msg; sql := sql vtab; sql_len := sql_len vtab;
     num_inputs := num_inputs vtab; num_outputs := num_outputs vtab |}.

(** [statement_vtab_best_index]: the return code, the table (its [zErrMsg]
    may change) and [*index_info] after the call.  [None]: an access outside
    an array. *)
Definition statement_vtab_best_index (vtab : statement_vtab)
    (index_info : sqlite3_index_info)
  : option (Z * statement_vtab * sqlite3_index_info) :=
  let info := set_estimates index_info in
  '(e, st, us) ←
    scan_constraints (num_outputs vtab) (aConstraint info)
      (aConstraintUsage info)
      {| col_max := 0; used_cols := 0; out_constraints := 0 |};
  let info := set_usage info us in
  match e with
  | Return ret => Some (ret, vtab, info)
  | Fallthrough =>
      if contiguous_test st then Some (SQLITE_OK, vtab, info)
      else if size_wrap (out_constraints st) >? (SIZE_MAX - 1) / param_idx_size
      then
        match sqlite3_mprintf
                ("Too many constraints to index: "
                 +:+ pretty (out_constraints st)) with
        | None => Some (SQLITE_NOMEM, set_zErrMsg vtab None, info)
        | Some msg => Some (SQLITE_ERROR, set_zErrMsg vtab (Some msg), info)
        end
      else
        match sqlite3_malloc64
                (size_wrap (size_wrap (out_constraints st) * param_idx_size + 1))
        with
        | None => Some (SQLITE_NOMEM, vtab, set_idxStr info None
                                              (needToFreeIdxStr info))
        | Some buf =>
            '(us', param_map) ←
              map_constraints (length (aConstraint info)) us 0 buf;
            param_map' ←
              store param_map
                (size_wrap (size_wrap (out_constraints st) * param_idx_size)) 0;
            Some (SQLITE_OK, vtab,
                  set_idxStr (set_usage info us') (Some param_map') 1)
        end
  end.

End Planner.

(** ** The cursor ([statement_vtab_filter], [_next], [_column], ...) *)

Section Cursor.
Context {sqlite3_value : Type}.

(** The calls the module makes on a cursor's [sqlite3_stmt]. *)
Inductive stmt_call :=
| Call_reset
| Call_clear_bindings
| Call_bind_value (param_idx : Z) (v : sqlite3_value)
| Call_step.

(** A statement handle is represented by the calls made on it so far, the
    latest first.  The library answers as a function of that history: the
    result code of [sqlite3_bind_value] and of [sqlite3_step], the value
    [sqlite3_column_value] reads and what [sqlite3_stmt_busy] says. *)
Class Engine := {
  sqlite3_bind_value : list stmt_call -> Z -> sqlite3_value -> Z;
  sqlite3_step : list stmt_call -> Z;
  sqlite3_column_value : list stmt_call -> Z -> sqlite3_value;
  sqlite3_stmt_busy : list stmt_call -> bool
}.

(** [struct statement_cursor], with [base.pVtab].  [param_argv] is the
    array allocated by [statement_vtab_open]. *)
Record statement_cursor := {
  pVtab : statement_vtab;
  stmt : list stmt_call;
  rowid : Z;
  param_argc : Z;
  param_argv : list sqlite3_value
}.

Context `{Platform} `{Engine}.

(** The loop of [statement_vtab_filter] from index [i] on, over the
    remaining arguments.  It ends with the code of the first failing
    [sqlite3_bind_value], or falls through. *)
Fixpoint bind_arguments (idxStr : option (list Z)) (i : Z)
    (argv : list sqlite3_value) (s : list stmt_call)
  : option (loop_exit * list stmt_call) :=
  match argv with
  | [] => Some (Fallthrough, s)
  | v :: argv' =>
      param_idx ← match idxStr with
                  | Some param_map => decode_param_idx i param_map
                  | None => Some (int_wrap (i + 1))
                  end;
      let ret := sqlite3_bind_value s param_idx v in
      let s' := Call_bind_value param_idx v :: s in
      if negb (ret =? SQLITE_OK) then Some (Return ret, s')
      else bind_arguments idxStr (int_wrap (i + 1)) argv' s'
  end.

(** [memcpy(stmtcur->param_argv,argv,sizeof(...)*argc)]; [None] when the
    array is too short. *)
Definition copy_arguments (dst src : list sqlite3_value)
  : option (list sqlite3_value) :=
  if decide (length src <= length dst)%nat
  then Some (src ++ drop (length src) dst) else None.

Definition set_cursor (cur : statement_cursor) (s : list stmt_call)
    (row : Z) : statement_cursor :=
  {| pVtab := pVtab cur; stmt := s; rowid := row;
     param_argc := param_argc cur; param_argv := param_argv cur |}.

(** [statement_vtab_filter]; [argc] is the length of [argv] and [idxNum] is
    not read.  [None]: the assertion [num_inputs >= argc] fails, or an access
    is outside an array. *)
Definition statement_vtab_filter (cur : statement_cursor)
    (idxStr : option (list Z)) (argv : list sqlite3_value)
  : option (Z * statement_cursor) :=
  let argc := Z.of_nat (length argv) in
  let s := Call_clear_bindings :: Call_reset :: stmt cur in
  '(e, s) ← bind_arguments idxStr 0 argv s;
  match e with
  | Return ret => Some (ret, set_cursor cur s 1)
  | Fallthrough =>
      let ret := sqlite3_step s in
      let s := Call_step :: s in
      if negb ((ret =? SQLITE_ROW) || (ret =? SQLITE_DONE))
      then Some (ret, set_cursor cur s 1)
      else if argc =? 0
      then Some (SQLITE_OK,
                 {| pVtab := pVtab cur; stmt := s; rowid := 1;
                    param_argc := 0; param_argv := param_argv cur |})
      else if negb (argc <=? num_inputs (pVtab cur)) then None
      else
        args ← copy_arguments (param_argv cur) argv;
        Some (SQLITE_OK,
              {| pVtab := pVtab cur; stmt := s; rowid := 1;
                 param_argc := argc; param_argv := args |})
  end.

(** [statement_vtab_next] *)
Definition statement_vtab_next (cur : statement_cursor)
  : Z * statement_cursor :=
  let ret := sqlite3_step (stmt cur) in
  let s := Call_step :: stmt cur in
  if ret =? SQLITE_ROW
  then (SQLITE_OK, set_cursor cur s (int_wrap (rowid cur + 1)))
  else (if ret =? SQLITE_DONE then SQLITE_OK else ret,
        set_cursor cur s (rowid cur)).

(** [statement_vtab_rowid]: the code and [*pRowid]. *)
Definition statement_vtab_rowid (cur : statement_cursor) : Z * Z :=
  (SQLITE_OK, rowid cur).

(** [statement_vtab_eof] *)
Definition statement_vtab_eof (cur : statement_cursor) : bool :=
  negb (sqlite3_stmt_busy (stmt cur)).

(** [statement_vtab_column]: the code and the value handed to
    [sqlite3_result_value], [None] when the function sets no result.  The
    outer [None]: a read outside [param_argv]. *)
Definition statement_vtab_column (cur : statement_cursor) (i : Z)
  : option (Z * option sqlite3_value) :=
  let num_outputs := num_outputs (pVtab cur) in
  if i <? num_outputs
  then Some (SQLITE_OK, Some (sqlite3_column_value (stmt cur) i))
  else if int_wrap (i - num_outputs) <? param_argc cur
  then
    if decide (0 <= int_wrap (i - num_outputs))
    then v ← param_argv cur !! Z.to_nat (int_wrap (i - num_outputs));
         Some (SQLITE_OK, Some v)
    else None
  else Some (SQLITE_OK, None).

(** What the library documents about bindings: [sqlite3_clear_bindings]
    unbinds every parameter, a [sqlite3_bind_value] that returns [SQLITE_OK]
    binds the value at its position, and neither [sqlite3_reset] nor
    [sqlite3_step] changes a binding. *)
Fixpoint bindings (s : list stmt_call) : gmap Z sqlite3_value :=
  match s with
  | [] => ∅
  | Call_clear_bindings :: _ => ∅
  | Call_bind_value param_idx v :: s' =>
      if sqlite3_bind_value s' param_idx v =? SQLITE_OK
      then <[param_idx := v]> (bindings s') else bindings s'
  | _ :: s' => bindings s'
  end.

End Cursor.

Arguments stmt_call : clear implicits.
Arguments Engine : clear implicits.
Arguments statement_cursor : clear implicits.

(** ** The declared schema ([build_create_statement]) *)

(** What the library reports about a compiled statement:
    [sqlite3_column_count], [sqlite3_column_name], [sqlite3_column_decltype],
    [sqlite3_bind_parameter_count], [sqlite3_bind_parameter_name] and
    [sqlite3_stmt_readonly]; [None] is a null pointer. *)
Record sqlite3_stmt := {
  sqlite3_column_count : Z;
  sqlite3_column_name : Z -> option string;
  sqlite3_column_decltype : Z -> option string;
  sqlite3_bind_parameter_count : Z;
  sqlite3_bind_parameter_name : Z -> option string;
  sqlite3_stmt_readonly : bool
}.

(** The conversion [%Q] of the library's [printf]: the text between single
    quotes, each single quote inside it doubled. *)
Fixpoint double_quotes (s : string) : string :=
  match s with
  | EmptyString => EmptyString
  | String c s' =>
      if Ascii.eqb c "'"%char
      then String "'" (String "'" (double_quotes s'))
      else String c (double_quotes s')
  end.

Definition fmt_Q (s : string) : string := "'" +:+ double_quotes s +:+ "'".

(** [name+1]: the text after the first character. *)
Definition skip_char (s : string) : string :=
  match s with
  | EmptyString => EmptyString
  | String _ s' => s'
  end.

(** [sqlite3_str_value(sql)[k] = c] *)
Fixpoint set_char (s : string) (k : nat) (c : ascii) : string :=
  match s, k with
  | EmptyString, _ => EmptyString
  | String _ s', O => String c s'
  | String d s', S k' => String d (set_char s' k' c)
  end.

(** The string builder of the library ([sqlite3_str]).  Whether the
    builder gets the memory it asks for is the library's answer:
    [str_new_ok] for [sqlite3_str_new], and [str_append_ok s t] for the append
    of the text [t] to the content [s] (a failure is a lack of memory or a
    text beyond the length limit). *)
Class Builder := {
  str_new_ok : bool;
  str_append_ok : string -> string -> bool
}.

(** A builder is its content, or [None] once an error has occurred: the
    library then drops the content, and every later append does nothing. *)
Definition sqlite3_str : Type := option string.

Section StringBuilder.
Context `{Builder}.

(** [sqlite3_str_new]: a new builder, already in error without memory. *)
Definition sqlite3_str_new : sqlite3_str :=
  if str_new_ok then Some EmptyString else None.

(** [sqlite3_str_appendall], and [sqlite3_str_appendf] with the text it
    formats. *)
Definition sqlite3_str_appendall (p : sqlite3_str) (text : string)
  : sqlite3_str :=
  match p with
  | Some s => if str_append_ok s text then Some (s +:+ text) else None
  | None => None
  end.

(** [sqlite3_str_length]: 0 for a builder in error. *)
Definition sqlite3_str_length (p : sqlite3_str) : nat :=
  match p with
  | Some s => String.length s
  | None => O
  end.

(** [sqlite3_str_finish]: the text, or a null pointer for a builder in
    error and for an empty text. *)
Definition sqlite3_str_finish (p : sqlite3_str) : option string :=
  match p with
  | Some s => if (String.length s =? 0)%nat then None else Some s
  | None => None
  end.

(** The first loop of [build_create_statement], [n] iterations from [i]
    on; [None] is its [return NULL]. *)
Fixpoint append_outputs (stmt : sqlite3_stmt) (n : nat) (i : Z)
    (sql : sqlite3_str) : option sqlite3_str :=
  match n with
  | O => Some sql
  | S n' =>
      match sqlite3_column_name stmt i with
      | None => None
      | Some name =>
          let type := sqlite3_column_decltype stmt i in
          append_outputs stmt n' (i + 1)
            (sqlite3_str_appendall sql
               (fmt_Q name +:+ " " +:+ default "" type +:+ ","))
      end
  end.

(** The second loop. *)
Fixpoint append_inputs (stmt : sqlite3_stmt) (n : nat) (i : Z)
    (sql : sqlite3_str) : sqlite3_str :=
  match n with
  | O => sql
  | S n' =>
      append_inputs stmt n' (i + 1)
        match sqlite3_bind_parameter_name stmt (i + 1) with
        | Some name =>
            sqlite3_str_appendall sql (fmt_Q (skip_char name) +:+ " hidden,")
        | None =>
            sqlite3_str_appendall sql ("'" +:+ pretty (i + 1) +:+ "' hidden,")
        end
  end.

(** [build_create_statement]; [None] is a null pointer: a result column
    without a name, or a builder in error. *)
Definition build_create_statement (stmt : sqlite3_stmt) : option string :=
  let sql := sqlite3_str_appendall sqlite3_str_new "CREATE TABLE x( " in
  sql ← append_outputs stmt (Z.to_nat (sqlite3_column_count stmt)) 0 sql;
  let sql :=
    append_inputs stmt (Z.to_nat (sqlite3_bind_parameter_count stmt)) 0 sql in
  let sql :=
    if (sqlite3_str_length sql =? 0)%nat then sql
    else (fun s => set_char s (String.length s - 1) ")") <$> sql in
  sqlite3_str_finish sql.

End StringBuilder.

(** ** Table creation ([statement_vtab_create]) *)

(** What one call of [statement_vtab_create] holds until it is released. *)
Inductive resource :=
| The_vtab
| The_sql
| The_stmt
| The_create
| The_mutex.

Global Instance resource_eq_dec : EqDecision resource.
Proof. solve_decision. Defined.

Definition release (r : resource) (held : list resource) : list resource :=
  filter (fun r' => r' <> r) held.

(** The connection as [statement_vtab_create] uses it:
    [sqlite3_prepare_v2] on a text and a byte count answers with a code and a
    statement handle (null when [None]); [sqlite3_declare_vtab] answers with a
    code; [sqlite3_errmsg] is the message of the connection after the call
    that failed with the given code. *)
Class Connection := {
  sqlite3_prepare_v2 : string -> Z -> Z * option sqlite3_stmt;
  sqlite3_declare_vtab : string -> Z;
  sqlite3_errmsg : Z -> string
}.

(** What the library's functions answer on a null statement handle. *)
Definition null_stmt : sqlite3_stmt :=
  {| sqlite3_column_count := 0;
     sqlite3_column_name := fun _ => None;
     sqlite3_column_decltype := fun _ => None;
     sqlite3_bind_parameter_count := 0;
     sqlite3_bind_parameter_name := fun _ => None;
     sqlite3_stmt_readonly := true |}.

(** The outcome of [statement_vtab_create]: the returned code, [*ppVtab],
    [*pzErr], and what is still held at the return. *)
Record create_result := {
  created_ret : Z;
  created_vtab : option statement_vtab;
  created_err : option string;
  created_held : list resource
}.

Section Create.
Context `{Platform} `{Allocator} `{Connection} `{Builder}.

(** [statement_vtab_destroy]: both the text and the table are freed. *)
Definition statement_vtab_destroy (held : list resource) : Z * list resource :=
  (SQLITE_OK, release The_vtab (release The_sql held)).

(** The early returns: the message is allocated and, when that succeeds,
    the code is [SQLITE_MISUSE]. *)
Definition misuse (msg : string) (ppVtab : option statement_vtab)
  : create_result :=
  match sqlite3_mprintf msg with
  | None => {| created_ret := SQLITE_NOMEM; created_vtab := ppVtab;
               created_err := None; created_held := [] |}
  | Some m => {| created_ret := SQLITE_MISUSE; created_vtab := ppVtab;
                 created_err := Some m; created_held := [] |}
  end.

(** From the label [error:] on. *)
Definition create_error (ret : Z) (err : option string)
    (held : list resource) : create_result :=
  let held := release The_create held in
  let held := release The_stmt held in
  let held := snd (statement_vtab_destroy held) in
  {| created_ret := ret; created_vtab := None; created_err := err;
     created_held := held |}.

(** From the label [sqlite_error:] on. *)
Definition create_sqlite_error (ret : Z) (held : list resource)
  : create_result :=
  let err := sqlite3_mprintf (sqlite3_errmsg ret) in
  let ret := if err is None then SQLITE_NOMEM else ret in
  create_error ret err (release The_mutex held).

(** [statement_vtab_create]: [argc] is the length of [argv]; [ppVtab] is
    what [*ppVtab] holds before the call. *)
Definition statement_vtab_create (argv : list string)
    (ppVtab : option statement_vtab) : create_result :=
  let argc := Z.of_nat (length argv) in
  match (if argc <? 4 then None else argv !! 3%nat) with
  | None => misuse "no statement provided" ppVtab
  | Some arg =>
  let len := Z.of_nat (String.length arg) in
  if len <? 3 then misuse "no statement provided" ppVtab
  else if negb (bool_decide (String.get 0 arg = Some "("%char))
          || negb (bool_decide
                     (String.get (Z.to_nat (len - 1)) arg = Some ")"%char))
  then misuse "statement must be parenthesized" ppVtab
  else if negb malloc_vtab then
    {| created_ret := SQLITE_NOMEM; created_vtab := ppVtab;
       created_err := None; created_held := [] |}
  else
  let held := [The_vtab] in
  let sql_len := size_wrap (len - 2) in
  match sqlite3_mprintf (substring 1 (Z.to_nat sql_len) arg) with
  | None => create_error SQLITE_NOMEM None held
  | Some text =>
  let held := The_sql :: held in
  let held := The_mutex :: held in
  let '(ret, prepared) := sqlite3_prepare_v2 text (int_wrap sql_len) in
  let held := if prepared is None then held else The_stmt :: held in
  if negb (ret =? SQLITE_OK) then create_sqlite_error ret held
  else
  let held := release The_mutex held in
  let stmt := default null_stmt prepared in
  if negb (sqlite3_stmt_readonly stmt) then
    let err := sqlite3_mprintf "Statement must be read only." in
    create_error (if err is None then SQLITE_NOMEM else SQLITE_ERROR) err held
  else
  let vtab := {| zErrMsg := None; sql := text; sql_len := sql_len;
                 num_inputs := sqlite3_bind_parameter_count stmt;
                 num_outputs := sqlite3_column_count stmt |} in
  match build_create_statement stmt with
  | None => create_error SQLITE_NOMEM None held
  | Some create =>
  let held := The_create :: held in
  let held := The_mutex :: held in
  let ret := sqlite3_declare_vtab create in
  if negb (ret =? SQLITE_OK) then create_sqlite_error ret held
  else
  let held := release The_mutex held in
  let held := release The_create held in
  let held := release The_stmt held in
  {| created_ret := SQLITE_OK; created_vtab := Some vtab;
     created_err := None; created_held := held |}
  end end end.

(** [statement_vtab_connect] *)
Definition statement_vtab_connect (argv : list string)
    (ppVtab : option statement_vtab) : create_result :=
  statement_vtab_create argv ppVtab.

End Create.

(** ** Opening and closing a cursor ([statement_vtab_open],
    [statement_vtab_close]) *)

(** What a cursor owns. *)
Inductive cursor_resource :=
| The_cursor
| The_param_argv
| The_cursor_stmt.

Global Instance cursor_resource_eq_dec : EqDecision cursor_resource.
Proof. solve_decision. Defined.

Definition free (r : cursor_resource) (held : list cursor_resource)
  : list cursor_resource :=
  filter (fun r' => r' <> r) held.

(** The memory of a cursor.  [malloc_cursor] is
    [sqlite3_malloc64(sizeof(struct statement_cursor))]: a null pointer, or
    memory of arbitrary content, of which the two [int] fields [rowid] and
    [param_argc] are given.  [sqlite3_malloc] answers a request of [n] bytes
    for the array [param_argv] with a null pointer (always when [n] is not
    positive) or with as many entries, of arbitrary content, as fit in [n]
    bytes; [sizeof_pointer] is the size of one entry, a pointer. *)
Class CursorMemory (sqlite3_value : Type) := {
  sizeof_pointer : Z;
  malloc_cursor : option (Z * Z);
  sqlite3_malloc : Z -> option (list sqlite3_value);
  sizeof_pointer_pos : 0 < sizeof_pointer;
  sqlite3_malloc_length :
    forall n l, sqlite3_malloc n = Some l ->
      0 < n /\ Z.of_nat (length l) = n / sizeof_pointer
}.

(** The outcome of [statement_vtab_open]: the returned code; the cursor
    stored in [*ppCursor] ([None]: [*ppCursor] is not written); whether the
    cursor's statement handle is a compiled statement or null; and what the
    call still holds at its return.  The cursor is stored before the
    statement is compiled, so it is there also when the compilation fails;
    its [stmt] is then the null handle, on which no call is modelled, and
    [opened_compiled] is [false]. *)
Record open_result (sqlite3_value : Type) := {
  opened_ret : Z;
  opened : option (statement_cursor sqlite3_value);
  opened_compiled : bool;
  opened_held : list cursor_resource
}.

Arguments opened_ret {_} _.
Arguments opened {_} _.
Arguments opened_compiled {_} _.
Arguments opened_held {_} _.

Section Open.
Context {sqlite3_value : Type}.
Context `{Platform} `{Connection} `{CursorMemory sqlite3_value}.

(** [statement_vtab_open].  The result of [sqlite3_malloc] is not tested,
    and nothing is freed when [sqlite3_prepare_v2] fails.  The fields [rowid]
    and [param_argc] are not written: they hold what the memory held.
    ([base.pVtab] is set by the library after the call.) *)
Definition statement_vtab_open (vtab : statement_vtab)
  : open_result sqlite3_value :=
  match malloc_cursor with
  | None => {| opened_ret := SQLITE_NOMEM; opened := None;
               opened_compiled := false; opened_held := [] |}
  | Some (rowid0, param_argc0) =>
      let held := [The_cursor] in
      let argv :=
        sqlite3_malloc
          (int_wrap (size_wrap (sizeof_pointer * size_wrap (num_inputs vtab))))
      in
      let held := if argv is None then held else The_param_argv :: held in
      let '(ret, prepared) :=
        sqlite3_prepare_v2 (sql vtab) (int_wrap (sql_len vtab)) in
      let held := if prepared is None then held else The_cursor_stmt :: held in
      {| opened_ret := ret;
         opened :=
           Some {| pVtab := vtab; stmt := []; rowid := rowid0;
                   param_argc := param_argc0;
                   param_argv := default [] argv |};
         opened_compiled := if prepared is None then false else true;
         opened_held := held |}
  end.

(** [statement_vtab_close]: the statement is finalized, the array and the
    cursor are freed. *)
Definition statement_vtab_close (held : list cursor_resource)
  : Z * list cursor_resource :=
  (SQLITE_OK, free The_cursor (free The_param_argv (free The_cursor_stmt held))).

End Open.

(** * Notions used in the statements *)

(** ** The planner *)

(** The 0-based parameter indices of the constraints that are not passed
    over, in the order of the constraints. *)
Fixpoint accepted_cols (num_outputs : Z) (cs : list sqlite3_index_constraint)
  : list Z :=
  match cs with
  | [] => []
  | c :: cs' =>
      if passed_over num_outputs c then accepted_cols num_outputs cs'
      else (iColumn c - num_outputs) :: accepted_cols num_outputs cs'
  end.

(** Some constraint that is not passed over has no exact value to bind. *)
Definition rejected (num_outputs : Z) (cs : list sqlite3_index_constraint)
  : bool :=
  existsb (fun c => negb (passed_over num_outputs c) && unbindable c) cs.

(** The number of accepted constraints before constraint [i]. *)
Definition rank (num_outputs : Z) (cs : list sqlite3_index_constraint)
    (i : nat) : Z :=
  Z.of_nat (length (accepted_cols num_outputs (take i cs))).

(** The usage array after the first loop. *)
Definition direct_usage (num_outputs : Z) (cs : list sqlite3_index_constraint)
    (us : list sqlite3_index_constraint_usage)
  : list sqlite3_index_constraint_usage :=
  zip_with
    (fun c u =>
       if passed_over num_outputs c then u
       else {| argvIndex := iColumn c - num_outputs + 1; omit := 1 |})
    cs us.

(** The locals after one more accepted column, and after a list of them. *)
Definition track_col (st : scan) (c : Z) : scan :=
  {| col_max := Z.max (col_max st) (c + 1);
     used_cols := if c <? 64 then Z.lor (used_cols st) (1 ≪ c)
                  else used_cols st;
     out_constraints := out_constraints st + 1 |}.

Definition track_cols (st : scan) (cols : list Z) : scan :=
  foldl track_col st cols.

(** [max(col_index)+1], and 0 when there is none. *)
Definition col_max_of (cols : list Z) : Z :=
  foldr (fun c m => Z.max (c + 1) m) 0 cols.

(** The accepted parameter indices are exactly [0], ..., [col_max-1], each
    once, and all below 64. *)
Definition contiguous (cols : list Z) : Prop :=
  cols <> []
  /\ (forall n, n ∈ cols <-> 0 <= n < col_max_of cols)
  /\ Z.of_nat (length cols) = col_max_of cols
  /\ col_max_of cols <= 64.

Section PlannerInput.
Context `{Platform}.

(** [*index_info] as the library hands it to [xBestIndex] for a table
    with [num_outputs + num_inputs] columns: each constraint is on a column
    of the table (or on the rowid, -1), both arrays have [nConstraint]
    entries, [nConstraint] is an [int], and the output fields are zeroed. *)
Record planner_input (vtab : statement_vtab) (info : sqlite3_index_info)
  : Prop := {
  input_outputs : 0 <= num_outputs vtab;
  input_inputs : num_inputs vtab <= INT_MAX;
  input_columns :
    Forall (fun c => iColumn c < num_outputs vtab + num_inputs vtab)
      (aConstraint info);
  input_count : Z.of_nat (length (aConstraint info)) <= INT_MAX;
  input_usage_length :
    length (aConstraintUsage info) = length (aConstraint info);
  input_usage_zero :
    Forall (fun u => argvIndex u = 0) (aConstraintUsage info);
  input_idxStr : idxStr info = None
}.

End PlannerInput.

(** The [argvIndex] values the second loop finds set, in order. *)
Fixpoint marked (us : list sqlite3_index_constraint_usage) : list Z :=
  match us with
  | [] => []
  | u :: us' =>
      if argvIndex u =? 0 then marked us' else argvIndex u :: marked us'
  end.

(** The usage array after the second loop started with
    [constraint_idx = k]. *)
Fixpoint renumber (k : Z) (us : list sqlite3_index_constraint_usage)
  : list sqlite3_index_constraint_usage :=
  match us with
  | [] => []
  | u :: us' =>
      if argvIndex u =? 0 then u :: renumber k us'
      else {| argvIndex := k + 1; omit := omit u |} :: renumber (k + 1) us'
  end.

Section SlotNotions.
Context `{Platform}.

(** Slot [s] of the buffer holds the encoding of [x]. *)
Definition holds (buf : list Z) (s x : Z) : Prop :=
  forall j, 0 <= j < param_idx_size ->
    buf !! Z.to_nat (s * param_idx_size + j)
    = Some (Z.land (x ≫ (6 * j)) 63 + 33).

End SlotNotions.

Definition scan_start : scan :=
  {| col_max := 0; used_cols := 0; out_constraints := 0 |}.

(** [*index_info] after the first loop. *)
Definition scanned_info (vtab : statement_vtab) (info : sqlite3_index_info)
  : sqlite3_index_info :=
  set_usage (set_estimates info)
    (direct_usage (num_outputs vtab) (aConstraint info)
       (aConstraintUsage info)).

(** The text of the message for too many constraints. *)
Definition too_many (n : Z) : string :=
  "Too many constraints to index: " +:+ pretty n.

(** ** The cursor *)

Section CursorNotions.
Context {sqlite3_value : Type} `{Platform} `{Engine sqlite3_value}.

Abbreviation cursor := (statement_cursor sqlite3_value).
Abbreviation call := (stmt_call sqlite3_value).

(** The parameter position argument [i] is bound at: [i+1] without a
    payload, the position decoded from slot [i] with one. *)
Definition target (idxStr : option (list Z)) (i : Z) : option Z :=
  match idxStr with
  | None => Some (i + 1)
  | Some param_map => decode_param_idx i param_map
  end.

(** The library answers [SQLITE_OK] to the binds of [vs] at [ps], made one
    after the other on the statement [s]. *)
Fixpoint binds_accepted (s : list call) (ps : list Z)
    (vs : list sqlite3_value) : Prop :=
  match ps, vs with
  | p :: ps', v :: vs' =>
      sqlite3_bind_value s p v = SQLITE_OK
      /\ binds_accepted (Call_bind_value p v :: s) ps' vs'
  | _, _ => True
  end.

(** The arguments the cursor retains: the first [param_argc] entries of
    [param_argv]. *)
Definition bound_arguments (cur : cursor) : list sqlite3_value :=
  take (Z.to_nat (param_argc cur)) (param_argv cur).

(** The bind calls of [vs] at [ps], the latest first. *)
Definition bind_calls (ps : list Z) (vs : list sqlite3_value) : list call :=
  reverse (zip_with Call_bind_value ps vs).

(** The statement after [sqlite3_reset] and [sqlite3_clear_bindings]. *)
Definition cleared (cur : cursor) : list (stmt_call sqlite3_value) :=
  Call_clear_bindings :: Call_reset :: stmt cur.

End CursorNotions.

(** What the library documents about the arguments of [xFilter]: there are
    as many as the plan numbered, and the value of the constraint with
    [argvIndex = k] is [argv[k-1]].  [rhs] holds the values the constraints
    compare with, by constraint. *)
Definition passes_arguments {sqlite3_value : Type}
    (us : list sqlite3_index_constraint_usage)
    (rhs argv : list sqlite3_value) : Prop :=
  length argv = length (marked us)
  /\ forall i u v,
       us !! i = Some u -> argvIndex u <> 0 -> rhs !! i = Some v ->
       argv !! Z.to_nat (argvIndex u - 1) = Some v.

(** The parameter positions a plan has the arguments bound at: argument
    [j] at [j+1] without a payload, at the parameter of the [j]-th accepted
    constraint with one. *)
Definition plan_positions (idxStr : option (list Z)) (cols : list Z)
  : list Z :=
  match idxStr with
  | None => seqZ 1 (Z.of_nat (length cols))
  | Some _ => (fun c => c + 1) <$> cols
  end.

(** [n] calls of [statement_vtab_next], one after the other. *)
Fixpoint nexts {sqlite3_value : Type} `{Platform} `{Engine sqlite3_value}
    (n : nat) (cur : statement_cursor sqlite3_value)
  : statement_cursor sqlite3_value :=
  match n with
  | O => cur
  | S n' => (statement_vtab_next (nexts n' cur)).2
  end.

(** ** The declared schema *)

(** A column of the declared schema. *)
Record column_decl := {
  decl_name : string;
  decl_type : string;
  decl_hidden : bool
}.

(** Result column [i] (from 0): its name and its declared type, the empty
    text when it has none. *)
Definition output_decl (stmt : sqlite3_stmt) (i : Z) : column_decl :=
  {| decl_name := default "" (sqlite3_column_name stmt i);
     decl_type := default "" (sqlite3_column_decltype stmt i);
     decl_hidden := false |}.

(** Bind parameter [j] (from 1): its name without the leading marker, or
    its position in decimal when it has no name. *)
Definition input_decl (stmt : sqlite3_stmt) (j : Z) : column_decl :=
  {| decl_name := match sqlite3_bind_parameter_name stmt j with
                  | Some name => skip_char name
                  | None => pretty j
                  end;
     decl_type := "";
     decl_hidden := true |}.

(** All result columns in statement order, then all parameters in
    parameter order. *)
Definition declared_columns (stmt : sqlite3_stmt) : list column_decl :=
  (output_decl stmt <$> seqZ 0 (sqlite3_column_count stmt))
  ++ (input_decl stmt <$> seqZ 1 (sqlite3_bind_parameter_count stmt)).

(** The text of one column in [CREATE TABLE]: the quoted name, then the
    type or the keyword [hidden], then a comma. *)
Definition render_column (d : column_decl) : string :=
  fmt_Q (decl_name d) +:+ " "
  +:+ (if decl_hidden d then "hidden" else decl_type d) +:+ ",".

Fixpoint render_columns (ds : list column_decl) : string :=
  match ds with
  | [] => ""
  | d :: ds' => render_column d +:+ render_columns ds'
  end.

(** The statement declared for a list of columns: the last character, the
    comma after the last column, is replaced by the closing parenthesis. *)
Definition render_schema (ds : list column_decl) : string :=
  let text := "CREATE TABLE x( " +:+ render_columns ds in
  set_char text (String.length text - 1) ")".

(** The builder takes the texts [ts], appended one after the other to the
    content [s]. *)
Fixpoint accepts `{Builder} (s : string) (ts : list string) : bool :=
  match ts with
  | [] => true
  | t :: ts' => str_append_ok s t && accepts (s +:+ t) ts'
  end.

(** The builder does not fail while [build_create_statement] works on
    [stmt]: there is memory for the builder, for the opening text and for
    each column in turn. *)
Definition builds `{Builder} (stmt : sqlite3_stmt) : bool :=
  str_new_ok
  && accepts "" ("CREATE TABLE x( "
                 :: (render_column <$> declared_columns stmt)).

(** The text of one column without the comma after it. *)
Definition column_text (d : column_decl) : string :=
  fmt_Q (decl_name d) +:+ " "
  +:+ (if decl_hidden d then "hidden" else decl_type d).

(** The columns between the parentheses of [CREATE TABLE], separated by
    commas. *)
Definition column_list (ds : list column_decl) : string :=
  String.concat "," (column_text <$> ds).

(** ** Table creation *)

(** The argument is at least three characters long and stands between
    parentheses. *)
Definition parenthesized (arg : string) : Prop :=
  (3 <= String.length arg)%nat
  /\ String.get 0 arg = Some "("%char
  /\ String.get (String.length arg - 1) arg = Some ")"%char.

(** * Instances to run the model with *)

(** Every request succeeds; fresh memory holds the byte 170. *)
#[refine]
Instance plentiful : Allocator :=
  {| sqlite3_malloc64 :=
       fun n => if decide (0 <= n)
                then Some (replicate (Z.to_nat n) 170) else None;
     sqlite3_mprintf := Some;
     malloc_vtab := true |}.
Proof.
  intros n buf. case_decide; [|done]. intros [= <-].
  rewrite length_replicate. lia.
Defined.

(** Every request fails. *)
#[refine]
Instance exhausted : Allocator :=
  {| sqlite3_malloc64 := fun _ => None;
     sqlite3_mprintf := fun _ => None;
     malloc_vtab := false |}.
Proof. done. Defined.

(** [*index_info] for the constraints [cs] as the library prepares it. *)
Definition fresh_index_info (cs : list sqlite3_index_constraint)
  : sqlite3_index_info :=
  {| aConstraint := cs;
     aConstraintUsage := replicate (length cs) {| argvIndex := 0; omit := 0 |};
     idxStr := None; needToFreeIdxStr := 0; orderByConsumed := 0;
     estimatedCost := 5 * 10 ^ 98; estimatedRows := 25 |}.

Definition equality (col : Z) : sqlite3_index_constraint :=
  {| iColumn := col; op := SQLITE_INDEX_CONSTRAINT_EQ; usable := true |}.

Definition less_than (col : Z) : sqlite3_index_constraint :=
  {| iColumn := col; op := SQLITE_INDEX_CONSTRAINT_LT; usable := true |}.

(** A table over [select abs(:a) + :b + :c as r]: one output column
    (column 0) and three hidden columns (columns 1 to 3). *)
Definition sum_table : statement_vtab :=
  {| zErrMsg := None; sql := "select abs(:a) + :b + :c as r"; sql_len := 29;
     num_inputs := 3; num_outputs := 1 |}.

(** A table over [select :a as r]: the output column 0 and the hidden
    column 1. *)
Definition echo_table : statement_vtab :=
  {| zErrMsg := None; sql := "select :a as r"; sql_len := 14;
     num_inputs := 1; num_outputs := 1 |}.

(** Values: NULL, integers and texts. *)
Inductive value :=
| Null
| Int (z : Z)
| Text (s : string).

Fixpoint steps_since_reset (s : list (stmt_call value)) : nat :=
  match s with
  | [] => O
  | Call_reset :: _ => O
  | Call_step :: s' => S (steps_since_reset s')
  | _ :: s' => steps_since_reset s'
  end.

(** The answer to a bind on a statement with three parameters, with the
    length limit of the connection lowered to eight characters. *)
Definition abs_sum_bind (param_idx : Z) (v : value) : Z :=
  if negb ((1 <=? param_idx) && (param_idx <=? 3)) then SQLITE_RANGE
  else match v with
       | Text s => if (8 <? String.length s)%nat then SQLITE_TOOBIG
                   else SQLITE_OK
       | _ => SQLITE_OK
       end.

Fixpoint abs_sum_bound (s : list (stmt_call value)) (k : Z) : value :=
  match s with
  | [] => Null
  | Call_clear_bindings :: _ => Null
  | Call_bind_value param_idx v :: s' =>
      if (abs_sum_bind param_idx v =? SQLITE_OK) && (param_idx =? k) then v
      else abs_sum_bound s' k
  | _ :: s' => abs_sum_bound s' k
  end.

(** Arithmetic on values: NULL is absorbing and a text counts as 0. *)
Definition number (v : value) : option Z :=
  match v with
  | Null => None
  | Int z => Some z
  | Text _ => Some 0
  end.

Definition abs_sum_row (s : list (stmt_call value)) : value :=
  match number (abs_sum_bound s 1), number (abs_sum_bound s 2),
        number (abs_sum_bound s 3) with
  | Some a, Some b, Some c => Int (Z.abs a + b + c)
  | _, _, _ => Null
  end.

(** The engine of [select abs(:a) + :b + :c as r]: the first step after a
    reset gives the one row and the next is done; [abs] of the least 64-bit
    integer is an error. *)
Instance abs_sum_engine : Engine value :=
  {| sqlite3_bind_value := fun _ param_idx v => abs_sum_bind param_idx v;
     sqlite3_step := fun s =>
       match abs_sum_bound s 1 with
       | Int z => if z =? - 2 ^ 63 then SQLITE_ERROR
                  else if (steps_since_reset s =? 0)%nat then SQLITE_ROW
                  else SQLITE_DONE
       | _ => if (steps_since_reset s =? 0)%nat then SQLITE_ROW
              else SQLITE_DONE
       end;
     sqlite3_column_value := fun s i =>
       if i =? 0 then abs_sum_row s else Null;
     sqlite3_stmt_busy := fun s => (steps_since_reset s =? 1)%nat |}.

(** A cursor on [sum_table] before its first scan (the fields that
    [statement_vtab_open] leaves uninitialised are 0 here), and the cursor
    after a first scan with the three arguments 1, 2 and 3. *)
Definition opened_cursor : statement_cursor value :=
  {| pVtab := sum_table; stmt := []; rowid := 0; param_argc := 0;
     param_argv := [Null; Null; Null] |}.

Definition scanned_cursor : statement_cursor value :=
  {| pVtab := sum_table;
     stmt := [Call_step; Call_bind_value 3 (Int 3); Call_bind_value 2 (Int 2);
              Call_bind_value 1 (Int 1); Call_clear_bindings; Call_reset];
     rowid := 1; param_argc := 3;
     param_argv := [Int 1; Int 2; Int 3] |}.

(** A builder that never fails, and one that fails as soon as its content
    would exceed 24 characters. *)
Instance sturdy : Builder :=
  {| str_new_ok := true; str_append_ok := fun _ _ => true |}.

Definition cramped : Builder :=
  {| str_new_ok := true;
     str_append_ok := fun s t =>
       (String.length s + String.length t <=? 24)%nat |}.

(** A builder for which there is no memory. *)
Definition no_room : Builder :=
  {| str_new_ok := false; str_append_ok := fun _ _ => false |}.

(** The statement of the two result columns [a] and [b], without declared
    types, and the two parameters [:x] and [:y]. *)
Definition two_by_two : sqlite3_stmt :=
  {| sqlite3_column_count := 2;
     sqlite3_column_name := fun i =>
       if i =? 0 then Some "a" else if i =? 1 then Some "b" else None;
     sqlite3_column_decltype := fun _ => None;
     sqlite3_bind_parameter_count := 2;
     sqlite3_bind_parameter_name := fun j =>
       if j =? 1 then Some ":x" else if j =? 2 then Some ":y" else None;
     sqlite3_stmt_readonly := true |}.

(** A compiled statement that writes. *)
Definition writing_stmt : sqlite3_stmt :=
  {| sqlite3_column_count := 0;
     sqlite3_column_name := fun _ => None;
     sqlite3_column_decltype := fun _ => None;
     sqlite3_bind_parameter_count := 0;
     sqlite3_bind_parameter_name := fun _ => None;
     sqlite3_stmt_readonly := false |}.

(** A connection that compiles a text starting with [select] to
    [two_by_two] and one starting with [delete] to [writing_stmt], refuses
    every other text, and accepts every declared schema. *)
Instance script_connection : Connection :=
  {| sqlite3_prepare_v2 := fun text _ =>
       if String.prefix "select" text then (SQLITE_OK, Some two_by_two)
       else if String.prefix "delete" text then (SQLITE_OK, Some writing_stmt)
       else (SQLITE_ERROR, None);
     sqlite3_declare_vtab := fun _ => SQLITE_OK;
     sqlite3_errmsg := fun _ => "syntax error" |}.

(** Memory for the cursor and for arrays of at most a thousand entries;
    pointers of eight bytes. *)
#[refine]
Instance roomy : CursorMemory value :=
  {| sizeof_pointer := 8;
     malloc_cursor := Some (0, 0);
     sqlite3_malloc := fun n =>
       if decide (0 < n <= 8000) then Some (replicate (Z.to_nat (n / 8)) Null)
       else None |}.
Proof.
  - done.
  - intros n l. case_decide; [|done]. intros [= <-].
    rewrite length_replicate. split; [lia|]. apply Z2Nat.id.
    apply Z.div_pos; lia.
Defined.

(** Memory for the cursor, but for no array. *)
#[refine]
Instance no_array : CursorMemory value :=
  {| sizeof_pointer := 8;
     malloc_cursor := Some (0, 0);
     sqlite3_malloc := fun _ => None |}.
Proof. all: done. Defined.

(** The compiled statement of [sum_table], and a connection that compiles
    the text of [sum_table] to it, finds no statement in a single space, and
    refuses every other text; it refuses the schema without columns. *)
Definition abs_sum_stmt : sqlite3_stmt :=
  {| sqlite3_column_count := 1;
     sqlite3_column_name := fun i => if i =? 0 then Some "r" else None;
     sqlite3_column_decltype := fun _ => None;
     sqlite3_bind_parameter_count := 3;
     sqlite3_bind_parameter_name := fun j =>
       if j =? 1 then Some ":a" else if j =? 2 then Some ":b"
       else if j =? 3 then Some ":c" else None;
     sqlite3_stmt_readonly := true |}.

Definition abs_sum_connection : Connection :=
  {| sqlite3_prepare_v2 := fun text _ =>
       if String.eqb text (sql sum_table) then (SQLITE_OK, Some abs_sum_stmt)
       else if String.eqb text " " then (SQLITE_OK, None)
       else (SQLITE_ERROR, None);
     sqlite3_declare_vtab := fun create =>
       if String.eqb create "CREATE TABLE x()" then SQLITE_ERROR
       else SQLITE_OK;
     sqlite3_errmsg := fun _ => "syntax error" |}.

(** The payload of the plan for hidden columns 0 and 2, and of the plan for
    two constraints on hidden column 0, on [LP64]. *)
Definition payload_0_2 : list Z :=
  [34; 33; 33; 33; 33; 33; 36; 33; 33; 33; 33; 33; 0].

Definition payload_0_0 : list Z :=
  [34; 33; 33; 33; 33; 33; 34; 33; 33; 33; 33; 33; 0].

Definition payload_0_0_1_2 : list Z :=
  [34; 33; 33; 33; 33; 33; 34; 33; 33; 33; 33; 33;
   35; 33; 33; 33; 33; 33; 36; 33; 33; 33; 33; 33; 0].

(** A table over [select value from generate_series(1, :n)] and its engine:
    the statement gives as many rows as the integer bound to its parameter
    says.  [series_cursor] is a cursor on it after a filter call with the
    argument 3: it stands on the first row. *)
Definition series_table : statement_vtab :=
  {| zErrMsg := None; sql := "select value from generate_series(1, :n)";
     sql_len := 40; num_inputs := 1; num_outputs := 1 |}.

Definition series_engine : Engine value :=
  {| sqlite3_bind_value := fun _ param_idx _ =>
       if param_idx =? 1 then SQLITE_OK else SQLITE_RANGE;
     sqlite3_step := fun s =>
       match abs_sum_bound s 1 with
       | Int n => if Z.of_nat (steps_since_reset s) <? n then SQLITE_ROW
                  else SQLITE_DONE
       | _ => SQLITE_DONE
       end;
     sqlite3_column_value := fun s _ => Int (Z.of_nat (steps_since_reset s));
     sqlite3_stmt_busy := fun s =>
       match abs_sum_bound s 1 with
       | Int n => (0 <? Z.of_nat (steps_since_reset s))
                  && (Z.of_nat (steps_since_reset s) <=? n)
       | _ => false
       end |}.

Definition series_cursor : statement_cursor value :=
  {| pVtab := series_table;
     stmt := [Call_step; Call_bind_value 1 (Int 3); Call_clear_bindings;
              Call_reset];
     rowid := 1; param_argc := 1; param_argv := [Int 3] |}.

(** A cursor on [echo_table] before its first scan: the statement has had
    no call, and [param_argv] has room for the one parameter. *)
Definition echo_cursor : statement_cursor value :=
  {| pVtab := echo_table; stmt := []; rowid := 0; param_argc := 0;
     param_argv := [Null] |}.

(** * Properties *)

(** ** Integer arithmetic *)

Section IntegerFacts.
Context `{Platform}.

Lemma INT_BITS_pos : 0 < INT_BITS - 1.
Proof. pose proof INT_BITS_min. lia. Qed.

Lemma INT_MAX_pos : 32767 <= INT_MAX.
Proof.
  unfold INT_MAX. pose proof INT_BITS_min.
  assert (2 ^ 15 <= 2 ^ (INT_BITS - 1)) by (apply Z.pow_le_mono_r; lia).
  change (2 ^ 15) with 32768 in *. lia.
Qed.

Lemma int_wrap_small z : INT_MIN <= z <= INT_MAX -> int_wrap z = z.
Proof.
  unfold INT_MIN, INT_MAX, int_wrap. intros Hz.
  pose proof INT_BITS_pos.
  assert (E : 2 ^ INT_BITS = 2 * 2 ^ (INT_BITS - 1)).
  { rewrite <- Z.pow_succ_r by lia. f_equal. lia. }
  rewrite E, Z.mod_small; lia.
Qed.

Lemma int_wrap_range z : INT_MIN <= int_wrap z <= INT_MAX.
Proof.
  unfold INT_MIN, INT_MAX, int_wrap.
  pose proof INT_BITS_pos.
  assert (E : 2 ^ INT_BITS = 2 * 2 ^ (INT_BITS - 1)).
  { rewrite <- Z.pow_succ_r by lia. f_equal. lia. }
  assert (0 < 2 ^ (INT_BITS - 1)) by (apply Z.pow_pos_nonneg; lia).
  pose proof (Z.mod_pos_bound (z + 2 ^ (INT_BITS - 1)) (2 ^ INT_BITS)).
  lia.
Qed.

Lemma size_wrap_small z : 0 <= z <= SIZE_MAX -> size_wrap z = z.
Proof. intros. unfold size_wrap. apply Z.mod_small. lia. Qed.

Lemma u64_wrap_small z : 0 <= z < 2 ^ 64 -> u64_wrap z = z.
Proof. intros. unfold u64_wrap. by apply Z.mod_small. Qed.

Lemma param_idx_size_pos : 3 <= param_idx_size.
Proof.
  unfold param_idx_size. pose proof INT_BITS_min.
  apply Z.div_le_lower_bound; lia.
Qed.

(** The groups of six bits cover an [int], and the last one starts inside
    it: every shift count of the codec is below the width of [int]. *)
Lemma param_idx_size_covers :
  INT_BITS <= 6 * param_idx_size /\ 6 * (param_idx_size - 1) < INT_BITS.
Proof.
  unfold param_idx_size.
  pose proof (Z.div_mod (INT_BITS + 5) 6 ltac:(lia)).
  pose proof (Z.mod_pos_bound (INT_BITS + 5) 6 ltac:(lia)). lia.
Qed.

End IntegerFacts.

(** ** Six-bit groups *)

Lemma sextet_range x j : 33 <= Z.land (x ≫ (6 * j)) 63 + 33 <= 96.
Proof.
  change 63 with (Z.ones 6). rewrite Z.land_ones by lia.
  pose proof (Z.mod_pos_bound (x ≫ (6 * j)) (2 ^ 6) ltac:(lia)).
  change (2 ^ 6) with 64 in *. lia.
Qed.

Lemma sextet_shift_le x j :
  0 <= x -> 0 <= j -> 0 <= Z.land (x ≫ (6 * j)) 63 ≪ (6 * j) <= x.
Proof.
  intros Hx Hj.
  change 63 with (Z.ones 6). rewrite Z.land_ones by lia.
  rewrite Z.shiftl_mul_pow2, Z.shiftr_div_pow2 by lia.
  assert (0 < 2 ^ (6 * j)) by (apply Z.pow_pos_nonneg; lia).
  pose proof (Z.mod_pos_bound (x / 2 ^ (6 * j)) (2 ^ 6) ltac:(lia)).
  assert (0 <= x / 2 ^ (6 * j)) by (apply Z.div_pos; lia).
  assert ((x / 2 ^ (6 * j)) mod 2 ^ 6 <= x / 2 ^ (6 * j))
    by (apply Z.mod_le; lia).
  pose proof (Z.mul_div_le x (2 ^ (6 * j)) ltac:(lia)).
  split; [nia | nia].
Qed.

Lemma sextet_accumulate x j :
  0 <= x -> 0 <= j ->
  Z.lor (x mod 2 ^ (6 * j)) (Z.land (x ≫ (6 * j)) 63 ≪ (6 * j))
  = x mod 2 ^ (6 * (j + 1)).
Proof.
  intros Hx Hj. apply Z.bits_inj'. intros n Hn.
  rewrite Z.lor_spec, !Z.testbit_mod_pow2 by lia.
  rewrite Z.shiftl_spec by lia.
  destruct (Z.ltb_spec n (6 * j)) as [Hlt|Hge].
  - rewrite (Z.testbit_neg_r _ (n - 6 * j)) by lia.
    replace (n <? 6 * (j + 1)) with true by (symmetry; apply Z.ltb_lt; lia).
    by rewrite orb_false_r.
  - change 63 with (Z.ones 6). rewrite Z.land_ones by lia.
    rewrite Z.testbit_mod_pow2, Z.shiftr_spec by lia.
    replace (n - 6 * j + 6 * j) with n by lia.
    simpl. f_equal.
    destruct (Z.ltb_spec (n - 6 * j) 6), (Z.ltb_spec n (6 * (j + 1))); lia.
Qed.

(** ** The codec *)

Lemma store_inside buf k v :
  0 <= k < Z.of_nat (length buf) ->
  store buf k v = Some (<[Z.to_nat k := v]> buf).
Proof. intros. unfold store. by rewrite decide_True. Qed.

Lemma load_inside buf k : 0 <= k -> load buf k = buf !! Z.to_nat k.
Proof. intros. unfold load. by rewrite decide_True. Qed.

Section CodecFacts.
Context `{Platform}.

(** The encoder's loop writes the groups [j], ..., [j+n-1] of slot [i] and
    nothing else, provided the slot lies inside the buffer. *)
Lemma encode_loop_spec x i n : forall j buf,
  0 <= i -> 0 <= j ->
  i * param_idx_size + j + Z.of_nat n <= Z.of_nat (length buf) ->
  Z.of_nat (length buf) <= SIZE_MAX ->
  exists buf',
    encode_loop n j i buf x = Some buf'
    /\ length buf' = length buf
    /\ (forall k, j <= k < j + Z.of_nat n ->
          buf' !! Z.to_nat (i * param_idx_size + k)
          = Some (Z.land (x ≫ (6 * k)) 63 + 33))
    /\ (forall m : nat,
          ~ (i * param_idx_size + j <= Z.of_nat m
             < i * param_idx_size + j + Z.of_nat n) ->
          buf' !! m = buf !! m).
Proof.
  pose proof param_idx_size_pos as Hsz.
  induction n as [|n IH]; intros j buf Hi Hj Hlen Hmax.
  - exists buf. simpl. split; [done|]. split; [done|]. split; [intros; lia|done].
  - cbn [encode_loop].
    assert (0 <= i * param_idx_size) by nia.
    rewrite size_wrap_small by lia.
    rewrite store_inside by lia. cbn [mbind option_bind].
    set (buf1 := <[Z.to_nat (i * param_idx_size + j) := _]> buf).
    destruct (IH (j + 1) buf1) as (buf' & E & L & W & O).
    { done. } { lia. }
    { subst buf1. rewrite length_insert. lia. }
    { subst buf1. by rewrite length_insert. }
    exists buf'. split; [done|]. split.
    { rewrite L. subst buf1. by rewrite length_insert. }
    split.
    + intros k Hk. destruct (decide (k = j)) as [->|Hne].
      * rewrite O by lia. subst buf1.
        apply list_lookup_insert_eq. lia.
      * apply W. lia.
    + intros m Hm. rewrite O by lia. subst buf1.
      apply list_lookup_insert_ne. lia.
Qed.

(** The decoder's loop over groups that hold the sextets of [x]. *)
Lemma decode_loop_spec x i buf n : forall j,
  0 <= x <= INT_MAX -> 0 <= i -> 0 <= j ->
  Z.of_nat (length buf) <= SIZE_MAX ->
  (forall k, j <= k < j + Z.of_nat n ->
     buf !! Z.to_nat (i * param_idx_size + k)
     = Some (Z.land (x ≫ (6 * k)) 63 + 33)) ->
  decode_loop n j i buf (x mod 2 ^ (6 * j))
  = Some (x mod 2 ^ (6 * (j + Z.of_nat n))).
Proof.
  pose proof param_idx_size_pos as Hsz.
  induction n as [|n IH]; intros j Hx Hi Hj Hmax Hbuf.
  - simpl. do 3 f_equal. lia.
  - cbn [decode_loop].
    assert (0 <= i * param_idx_size) by nia.
    pose proof (Hbuf j ltac:(lia)) as Hc.
    pose proof (lookup_lt_Some _ _ _ Hc) as Hin.
    rewrite size_wrap_small by lia.
    rewrite load_inside, Hc by lia. cbn [mbind option_bind].
    replace (Z.land (x ≫ (6 * j)) 63 + 33 - 33)
      with (Z.land (x ≫ (6 * j)) 63) by lia.
    pose proof (sextet_shift_le x j ltac:(lia) Hj).
    pose proof INT_MAX_pos.
    rewrite int_wrap_small by (unfold INT_MIN, INT_MAX in *; lia).
    rewrite sextet_accumulate by lia.
    rewrite IH; [|done|done|lia|done|].
    + do 3 f_equal. lia.
    + intros k Hk. apply Hbuf. lia.
Qed.

Lemma int_below_groups x :
  0 <= x <= INT_MAX -> x mod 2 ^ (6 * param_idx_size) = x.
Proof.
  intros Hx. apply Z.mod_small. split; [lia|].
  destruct param_idx_size_covers as [Hc _].
  pose proof INT_BITS_pos.
  assert (2 ^ (INT_BITS - 1) <= 2 ^ (6 * param_idx_size))
    by (apply Z.pow_le_mono_r; lia).
  unfold INT_MAX in Hx. lia.
Qed.

(** [encode_param_idx] on a slot inside the buffer. *)
Lemma encode_param_idx_spec x i buf :
  0 <= x ->
  0 <= i ->
  (i + 1) * param_idx_size <= Z.of_nat (length buf) ->
  Z.of_nat (length buf) <= SIZE_MAX ->
  exists buf',
    encode_param_idx i buf x = Some buf'
    /\ length buf' = length buf
    /\ (forall k, 0 <= k < param_idx_size ->
          buf' !! Z.to_nat (i * param_idx_size + k)
          = Some (Z.land (x ≫ (6 * k)) 63 + 33))
    /\ (forall m : nat,
          ~ (i * param_idx_size <= Z.of_nat m < (i + 1) * param_idx_size) ->
          buf' !! m = buf !! m).
Proof.
  intros Hx Hi Hlen Hmax. pose proof param_idx_size_pos.
  destruct (encode_loop_spec x i (Z.to_nat param_idx_size) 0 buf)
    as (buf' & E & L & W & O); [done|done|lia|done|].
  unfold encode_param_idx. destruct (Z.ltb_spec x 0); [lia|].
  exists buf'. repeat split; [done|done| |].
  - intros k Hk. apply W. lia.
  - intros m Hm. apply O. lia.
Qed.

(** [decode_param_idx] on a slot that holds the sextets of [x]. *)
Lemma decode_param_idx_spec x i buf :
  0 <= x <= INT_MAX -> 0 <= i ->
  Z.of_nat (length buf) <= SIZE_MAX ->
  (forall k, 0 <= k < param_idx_size ->
     buf !! Z.to_nat (i * param_idx_size + k)
     = Some (Z.land (x ≫ (6 * k)) 63 + 33)) ->
  decode_param_idx i buf = Some x.
Proof.
  intros Hx Hi Hmax Hbuf. pose proof param_idx_size_pos.
  unfold decode_param_idx.
  assert (E : 0 = x mod 2 ^ (6 * 0)) by (by rewrite Z.mul_0_r, Z.mod_1_r).
  rewrite E at 2.
  rewrite (decode_loop_spec x); [|done|done|done|done|].
  - rewrite Z.add_0_l, Z2Nat.id by lia. by rewrite int_below_groups.
  - intros k Hk. apply Hbuf. lia.
Qed.

End CodecFacts.

(** ** The planner: what the first loop computes *)

Lemma accepted_cols_nonneg no cs : Forall (fun c => 0 <= c) (accepted_cols no cs).
Proof.
  induction cs as [|c cs IH]; simpl; [constructor|].
  destruct (passed_over no c) eqn:E; [done|].
  constructor; [|done].
  unfold passed_over in E. rewrite !orb_false_iff in E.
  destruct E as [_ E]. apply Z.ltb_ge in E. lia.
Qed.

Lemma accepted_cols_length no cs :
  (length (accepted_cols no cs) <= length cs)%nat.
Proof.
  induction cs as [|c cs IH]; simpl; [done|].
  destruct (passed_over no c); simpl; lia.
Qed.

Lemma accepted_cols_app no cs1 cs2 :
  accepted_cols no (cs1 ++ cs2) = accepted_cols no cs1 ++ accepted_cols no cs2.
Proof.
  induction cs1 as [|c cs1 IH]; simpl; [done|].
  destruct (passed_over no c); simpl; by rewrite IH.
Qed.

Lemma accepted_cols_bound no lim cs :
  Forall (fun c => iColumn c < no + lim) cs ->
  Forall (fun c => c < lim) (accepted_cols no cs).
Proof.
  induction 1 as [|c cs Hc Hcs IH]; simpl; [constructor|].
  destruct (passed_over no c); [done|]. constructor; [lia|done].
Qed.

Section ScanFacts.
Context `{Platform}.

(** A constraint that cannot be bound makes the first loop return
    [SQLITE_CONSTRAINT]. *)
Lemma scan_constraints_rejects no cs : forall us st,
  length us = length cs ->
  rejected no cs = true ->
  exists st' us',
    scan_constraints no cs us st = Some (Return SQLITE_CONSTRAINT, st', us').
Proof.
  induction cs as [|c cs IH]; intros us st Hlen Hrej; [done|].
  destruct us as [|u us]; [done|]. simpl in Hlen, Hrej.
  cbn [scan_constraints].
  destruct (passed_over no c) eqn:Ep; simpl in Hrej.
  - destruct (IH us st) as (st' & us' & E); [lia|done|].
    rewrite E. simpl. eauto.
  - destruct (unbindable c) eqn:Eu; simpl in Hrej; [eauto|].
    edestruct IH as (st' & us' & E); [|done|rewrite E; simpl; eauto]. lia.
Qed.

(** Otherwise the loop runs to its end; no [int] wraps around. *)
Lemma scan_constraints_accepts no lim cs : forall us st,
  length us = length cs ->
  rejected no cs = false ->
  lim <= INT_MAX ->
  Forall (fun c => iColumn c < no + lim) cs ->
  0 <= out_constraints st ->
  out_constraints st + Z.of_nat (length cs) <= INT_MAX ->
  scan_constraints no cs us st
  = Some (Fallthrough, track_cols st (accepted_cols no cs),
          direct_usage no cs us).
Proof.
  pose proof INT_MAX_pos as Hmax.
  assert (Hmin : INT_MIN <= 0) by (unfold INT_MIN, INT_MAX in *; lia).
  induction cs as [|c cs IH]; intros us st Hlen Hrej Hlim Hcols Hout Hcnt.
  - destruct us; [done|]. simpl in Hlen. lia.
  - destruct us as [|u us]; [done|]. simpl in Hlen, Hrej.
    apply Forall_cons in Hcols as [Hc Hcols].
    cbn [scan_constraints accepted_cols direct_usage zip_with].
    destruct (passed_over no c) eqn:Ep; simpl in Hrej.
    + rewrite (IH us st); [done|lia|done|done|done|done|].
      rewrite length_cons in Hcnt. lia.
    + destruct (unbindable c) eqn:Eu; [done|]. simpl in Hrej.
      assert (no <= iColumn c) as Hge.
      { unfold passed_over in Ep. rewrite !orb_false_iff in Ep.
        destruct Ep as [_ Ep]. by apply Z.ltb_ge in Ep. }
      rewrite length_cons in Hcnt.
      rewrite (int_wrap_small (iColumn c - no)) by lia.
      rewrite (int_wrap_small (iColumn c - no + 1)) by lia.
      rewrite (int_wrap_small (out_constraints st + 1)) by lia.
      assert (Em : (if iColumn c - no + 1 >? col_max st
                    then iColumn c - no + 1 else col_max st)
                   = Z.max (col_max st) (iColumn c - no + 1)).
      { destruct (Z.gtb_spec (iColumn c - no + 1) (col_max st)); lia. }
      assert (Eu64 : (if iColumn c - no <? 64
                      then Z.lor (used_cols st)
                             (u64_wrap (1 ≪ (iColumn c - no)))
                      else used_cols st)
                     = (if iColumn c - no <? 64
                        then Z.lor (used_cols st) (1 ≪ (iColumn c - no))
                        else used_cols st)).
      { destruct (iColumn c - no <? 64) eqn:E64; [|done].
        apply Z.ltb_lt in E64. f_equal. apply u64_wrap_small.
        rewrite Z.shiftl_1_l. split; [apply Z.pow_nonneg; lia|].
        apply Z.pow_lt_mono_r; lia. }
      rewrite Em, Eu64.
      rewrite IH; [done|lia|done|done|done|simpl; lia|simpl; lia].
Qed.

End ScanFacts.

(** ** The planner: the contiguity test *)

Lemma col_max_of_nonneg cols : 0 <= col_max_of cols.
Proof. induction cols; simpl; lia. Qed.

Lemma col_max_of_above cols n : n ∈ cols -> n + 1 <= col_max_of cols.
Proof.
  induction cols as [|c cols IH]; [by intros ?%elem_of_nil|].
  intros [->|Hin]%elem_of_cons; simpl; [lia|]. specialize (IH Hin). lia.
Qed.

Lemma col_max_of_positive cols :
  cols <> [] -> Forall (fun c => 0 <= c) cols -> 0 < col_max_of cols.
Proof.
  destruct cols as [|c cols]; [done|]. intros _ [Hc _]%Forall_cons. simpl. lia.
Qed.

Lemma track_cols_out st cols :
  out_constraints (track_cols st cols)
  = out_constraints st + Z.of_nat (length cols).
Proof.
  revert st. induction cols as [|c cols IH]; intros st; simpl; [lia|].
  unfold track_cols in IH. rewrite IH. simpl. lia.
Qed.

Lemma track_cols_col_max st cols :
  0 <= col_max st ->
  col_max (track_cols st cols) = Z.max (col_max st) (col_max_of cols).
Proof.
  revert st. induction cols as [|c cols IH]; intros st Hst; simpl; [lia|].
  unfold track_cols in IH. rewrite IH; simpl; lia.
Qed.

Lemma track_cols_used st cols n :
  0 <= n -> Forall (fun c => 0 <= c) cols ->
  Z.testbit (used_cols (track_cols st cols)) n
  = Z.testbit (used_cols st) n || bool_decide (n ∈ cols /\ n < 64).
Proof.
  intros Hn. revert st.
  induction cols as [|c cols IH]; intros st Hcols.
  - rewrite bool_decide_eq_false_2; [by rewrite orb_false_r|].
    intros [?%elem_of_nil _]. done.
  - apply Forall_cons in Hcols as [Hc Hcols].
    change (track_cols st (c :: cols))
      with (track_cols (track_col st c) cols).
    rewrite IH by done. cbn [track_col used_cols].
    destruct (Z.ltb_spec c 64) as [Hlt|Hge].
    + rewrite Z.lor_spec, Z.shiftl_1_l, Z.pow2_bits_eqb by lia.
      rewrite <- orb_assoc. f_equal.
      destruct (Z.eqb_spec c n) as [->|Hne]; simpl.
      * symmetry. apply bool_decide_eq_true_2. split; [left|lia].
      * apply bool_decide_ext. rewrite elem_of_cons.
        split; [intros [? ?]; auto|]. intros [[?|?] ?]; [congruence|done].
    + f_equal. apply bool_decide_ext. rewrite elem_of_cons.
      split; [intros [? ?]; auto|]. intros [[->|?] ?]; [lia|done].
Qed.

Lemma required_cols_ones m : 0 <= m <= 64 -> required_cols m = Z.ones m.
Proof.
  intros Hm. unfold required_cols.
  destruct (Z.ltb_spec m 64) as [Hlt|Hge].
  - assert (0 < 2 ^ m < 2 ^ 64).
    { split; [apply Z.pow_pos_nonneg; lia|apply Z.pow_lt_mono_r; lia]. }
    rewrite Z.shiftl_1_l, Z.ones_equiv.
    rewrite (u64_wrap_small (2 ^ m)) by lia.
    rewrite u64_wrap_small by lia. lia.
  - replace m with 64 by lia. by vm_compute.
Qed.

(** The test of the source against the notion it implements. *)
Lemma contiguous_test_spec cols :
  Forall (fun c => 0 <= c) cols ->
  contiguous_test
    (track_cols {| col_max := 0; used_cols := 0; out_constraints := 0 |} cols)
  = true
  <-> cols = [] \/ contiguous cols.
Proof.
  intros Hcols. unfold contiguous_test.
  rewrite track_cols_out, track_cols_col_max by (simpl; lia). simpl.
  pose proof (col_max_of_nonneg cols) as Hm.
  rewrite Z.max_r by done.
  rewrite orb_true_iff, !andb_true_iff.
  rewrite !Z.eqb_eq, Z.leb_le.
  split.
  - intros [Hz|[[H64 Hused] Hcount]].
    + left. destruct cols; [done|]. simpl in Hz. lia.
    + destruct cols as [|c cols]; [by left|]. right.
      split; [done|]. split; [|done].
      intros n. split.
      * intros Hin. pose proof (col_max_of_above _ _ Hin).
        rewrite Forall_forall in Hcols. specialize (Hcols _ Hin). lia.
      * intros Hn. rewrite required_cols_ones in Hused by lia.
        pose proof (track_cols_used
          {| col_max := 0; used_cols := 0; out_constraints := 0 |}
          (c :: cols) n ltac:(lia) Hcols) as Hb.
        rewrite Hused, Z.ones_spec_low in Hb by lia.
        simpl in Hb. rewrite Z.bits_0 in Hb. simpl in Hb.
        symmetry in Hb. apply bool_decide_eq_true_1 in Hb. tauto.
  - intros [->|(Hne & Hset & Hcount & H64)]; [by left|]. right.
    split; [split|]; [done| |done].
    rewrite required_cols_ones by lia.
    apply Z.bits_inj'. intros n Hn.
    rewrite track_cols_used by done. simpl. rewrite Z.bits_0. simpl.
    destruct (Z.ltb_spec n (col_max_of cols)) as [Hlt|Hge].
    + rewrite Z.ones_spec_low by lia.
      apply bool_decide_eq_true_2. split; [apply Hset|]; lia.
    + rewrite Z.ones_spec_high by lia.
      apply bool_decide_eq_false_2. intros [Hin%Hset _]. lia.
Qed.

(** ** The planner: the second loop *)

Section SlotFacts.
Context `{Platform}.

Lemma holds_decode buf s x :
  holds buf s x -> 0 <= x <= INT_MAX -> 0 <= s ->
  Z.of_nat (length buf) <= SIZE_MAX ->
  decode_param_idx s buf = Some x.
Proof. intros. by apply decode_param_idx_spec. Qed.

Lemma holds_printable buf s x j c :
  holds buf s x -> 0 <= j < param_idx_size ->
  buf !! Z.to_nat (s * param_idx_size + j) = Some c -> 33 <= c <= 96.
Proof.
  intros Hh Hj Hc. rewrite (Hh j Hj) in Hc. injection Hc as <-.
  apply sextet_range.
Qed.

Lemma holds_unchanged buf buf' s x :
  holds buf s x -> 0 <= s ->
  (forall m : nat,
     s * param_idx_size <= Z.of_nat m < (s + 1) * param_idx_size ->
     buf' !! m = buf !! m) ->
  holds buf' s x.
Proof.
  intros Hh Hs Heq j Hj. rewrite Heq; [by apply Hh|].
  pose proof param_idx_size_pos. nia.
Qed.

Lemma map_constraints_spec us : forall k buf,
  0 <= k ->
  Forall (fun x => 0 <= x <= INT_MAX) (marked us) ->
  k + Z.of_nat (length (marked us)) <= INT_MAX ->
  (k + Z.of_nat (length (marked us))) * param_idx_size
    <= Z.of_nat (length buf) ->
  Z.of_nat (length buf) <= SIZE_MAX ->
  exists buf',
    map_constraints (length us) us k buf = Some (renumber k us, buf')
    /\ length buf' = length buf
    /\ (forall r x, marked us !! r = Some x -> holds buf' (k + Z.of_nat r) x)
    /\ (forall m : nat,
          ~ (k * param_idx_size <= Z.of_nat m
             < (k + Z.of_nat (length (marked us))) * param_idx_size) ->
          buf' !! m = buf !! m).
Proof.
  pose proof param_idx_size_pos as Hsz.
  pose proof INT_MAX_pos as Hmax.
  assert (Hmin : INT_MIN <= 0) by (unfold INT_MIN, INT_MAX in *; lia).
  induction us as [|u us IH]; intros k buf Hk Hx Hcnt Hlen Hsize.
  - exists buf. simpl. split; [done|]. split; [done|]. split; [|done].
    intros r x Hr. by rewrite lookup_nil in Hr.
  - cbn [length map_constraints marked renumber] in *.
    destruct (Z.eqb_spec (argvIndex u) 0) as [Ez|Enz].
    + destruct (IH k buf) as (buf' & E & L & Hh & Ho); [done..|].
      rewrite E. simpl. by exists buf'.
    + apply Forall_cons in Hx as [Hu Hx]. rewrite length_cons in *.
      destruct (encode_param_idx_spec (argvIndex u) k buf)
        as (buf1 & E1 & L1 & W1 & O1); [lia|done|nia|done|].
      rewrite E1. cbn [mbind option_bind].
      rewrite int_wrap_small by lia.
      destruct (IH (k + 1) buf1) as (buf' & E & L & Hh & Ho);
        [lia|done|lia|rewrite L1; nia|by rewrite L1|].
      rewrite E. simpl. exists buf'. split; [done|].
      split; [congruence|]. split.
      * intros [|r] x Hr; simpl in Hr.
        -- injection Hr as <-. rewrite Z.add_0_r.
           apply (holds_unchanged buf1); [done|done|].
           intros m Hm. apply Ho. nia.
        -- replace (k + Z.of_nat (S r)) with (k + 1 + Z.of_nat r) by lia.
           by apply Hh.
      * intros m Hm. rewrite Ho by nia. apply O1. nia.
Qed.

End SlotFacts.

Lemma direct_usage_length no cs us :
  length us = length cs -> length (direct_usage no cs us) = length cs.
Proof. intros E. unfold direct_usage. rewrite length_zip_with. lia. Qed.

Lemma marked_direct_usage no cs : forall us,
  length us = length cs ->
  Forall (fun u => argvIndex u = 0) us ->
  marked (direct_usage no cs us) = (fun c => c + 1) <$> accepted_cols no cs.
Proof.
  induction cs as [|c cs IH]; intros [|u us] Hlen Hz; try done.
  apply Forall_cons in Hz as [Hu Hz]. simpl in Hlen.
  cbn [direct_usage zip_with marked accepted_cols].
  fold (direct_usage no cs us).
  destruct (passed_over no c) eqn:Ep.
  - rewrite Hu. simpl. apply IH; [lia|done].
  - cbn [argvIndex].
    assert (no <= iColumn c) as Hge.
    { unfold passed_over in Ep. rewrite !orb_false_iff in Ep.
      destruct Ep as [_ Ep]. by apply Z.ltb_ge in Ep. }
    destruct (Z.eqb_spec (iColumn c - no + 1) 0); [lia|].
    rewrite fmap_cons. f_equal. apply IH; [lia|done].
Qed.

(** The usage entry of constraint [i] after both loops. *)
Lemma renumber_direct_usage no cs : forall us k i c u,
  length us = length cs ->
  Forall (fun u => argvIndex u = 0) us ->
  cs !! i = Some c ->
  renumber k (direct_usage no cs us) !! i = Some u ->
  argvIndex u
  = if passed_over no c then 0 else k + rank no cs i + 1.
Proof.
  induction cs as [|c0 cs IH]; intros [|u0 us] k i c u Hlen Hz Hc Hu;
    try done.
  apply Forall_cons in Hz as [Hu0 Hz]. simpl in Hlen.
  cbn [direct_usage zip_with renumber] in Hu.
  fold (direct_usage no cs us) in Hu.
  assert (Hnz : passed_over no c0 = false -> (iColumn c0 - no + 1 =? 0) = false).
  { intros Ep. unfold passed_over in Ep. rewrite !orb_false_iff in Ep.
    destruct Ep as [_ Ep]. apply Z.ltb_ge in Ep. apply Z.eqb_neq. lia. }
  destruct i as [|i]; simpl in Hc.
  - injection Hc as ->. unfold rank. simpl.
    destruct (passed_over no c) eqn:Ep.
    + rewrite Hu0 in Hu. simpl in Hu. injection Hu as <-. done.
    + cbn [argvIndex] in Hu. rewrite Hnz in Hu by done.
      simpl in Hu. injection Hu as <-. simpl. lia.
  - unfold rank. cbn [take accepted_cols].
    destruct (passed_over no c0) eqn:Ep0.
    + rewrite Hu0 in Hu. simpl in Hu.
      eapply IH in Hu; [|lia|done|done]. by rewrite Hu.
    + cbn [argvIndex] in Hu. rewrite Hnz in Hu by done. simpl in Hu.
      eapply IH in Hu; [|lia|done|done]. rewrite Hu.
      destruct (passed_over no c); [done|].
      unfold rank. simpl. lia.
Qed.

Lemma renumber_length k us : length (renumber k us) = length us.
Proof.
  revert k. induction us as [|u us IH]; intros k; simpl; [done|].
  destruct (argvIndex u =? 0); simpl; by rewrite IH.
Qed.

(** The usage entry of constraint [i] after the first loop alone. *)
Lemma lookup_direct_usage no cs us i c u :
  Forall (fun u => argvIndex u = 0) us ->
  cs !! i = Some c ->
  direct_usage no cs us !! i = Some u ->
  argvIndex u = if passed_over no c then 0 else iColumn c - no + 1.
Proof.
  intros Hz Hc Hu. unfold direct_usage in Hu.
  apply lookup_zip_with_Some in Hu as (c' & u0 & -> & Hc' & Hu0).
  rewrite Hc in Hc'. injection Hc' as <-.
  destruct (passed_over no c); [|done].
  rewrite Forall_forall in Hz. apply Hz.
  by eapply list_elem_of_lookup_2.
Qed.

(** An accepted constraint's index is the entry of the accepted list at
    its rank. *)
Lemma lookup_accepted_rank no cs i c :
  cs !! i = Some c -> passed_over no c = false ->
  accepted_cols no cs !! Z.to_nat (rank no cs i) = Some (iColumn c - no).
Proof.
  intros Hc Ep. unfold rank. rewrite Nat2Z.id.
  set (r := length (accepted_cols no (take i cs))).
  rewrite <- (take_drop_middle cs i c Hc).
  rewrite accepted_cols_app. simpl. rewrite Ep.
  rewrite lookup_app_r by done. subst r. by rewrite Nat.sub_diag.
Qed.

(** ** The planner: the three ways [statement_vtab_best_index] ends *)

Section BestIndexFacts.
Context `{Platform} `{Allocator}.

Lemma best_index_scan vtab info :
  planner_input vtab info ->
  rejected (num_outputs vtab) (aConstraint info) = false ->
  scan_constraints (num_outputs vtab) (aConstraint info)
    (aConstraintUsage info) scan_start
  = Some (Fallthrough,
          track_cols scan_start
            (accepted_cols (num_outputs vtab) (aConstraint info)),
          direct_usage (num_outputs vtab) (aConstraint info)
            (aConstraintUsage info)).
Proof.
  intros [] Hrej.
  apply (scan_constraints_accepts _ (num_inputs vtab));
    [done|done|done|done|simpl; lia|simpl; lia].
Qed.

Lemma best_index_rejected vtab info :
  length (aConstraintUsage info) = length (aConstraint info) ->
  rejected (num_outputs vtab) (aConstraint info) = true ->
  exists info',
    statement_vtab_best_index vtab info
    = Some (SQLITE_CONSTRAINT, vtab, info').
Proof.
  intros Hlen Hrej. unfold statement_vtab_best_index.
  destruct (scan_constraints_rejects (num_outputs vtab) (aConstraint info)
              (aConstraintUsage info) scan_start Hlen Hrej)
    as (st' & us' & E).
  simpl. unfold scan_start in E. rewrite E. simpl. eauto.
Qed.

Lemma best_index_direct vtab info :
  planner_input vtab info ->
  rejected (num_outputs vtab) (aConstraint info) = false ->
  contiguous_test
    (track_cols scan_start
       (accepted_cols (num_outputs vtab) (aConstraint info))) = true ->
  statement_vtab_best_index vtab info
  = Some (SQLITE_OK, vtab, scanned_info vtab info).
Proof.
  intros Hin Hrej Ht. unfold statement_vtab_best_index.
  pose proof (best_index_scan vtab info Hin Hrej) as E.
  simpl. unfold scan_start in *. rewrite E. simpl. by rewrite Ht.
Qed.

Lemma accepted_count_bounds vtab info :
  planner_input vtab info ->
  let n := Z.of_nat (length (accepted_cols (num_outputs vtab)
                               (aConstraint info))) in
  0 <= n <= INT_MAX /\ size_wrap n = n.
Proof.
  intros [] n.
  pose proof (accepted_cols_length (num_outputs vtab) (aConstraint info)).
  assert (0 <= n <= INT_MAX) by (subst n; lia).
  split; [done|]. apply size_wrap_small.
  pose proof INT_MAX_le_SIZE_MAX. unfold INT_MAX in *. lia.
Qed.

Lemma best_index_too_many vtab info :
  planner_input vtab info ->
  rejected (num_outputs vtab) (aConstraint info) = false ->
  let cols := accepted_cols (num_outputs vtab) (aConstraint info) in
  contiguous_test (track_cols scan_start cols) = false ->
  Z.of_nat (length cols) > (SIZE_MAX - 1) / param_idx_size ->
  statement_vtab_best_index vtab info
  = Some match sqlite3_mprintf (too_many (Z.of_nat (length cols))) with
         | None => (SQLITE_NOMEM, set_zErrMsg vtab None,
                    scanned_info vtab info)
         | Some msg => (SQLITE_ERROR, set_zErrMsg vtab (Some msg),
                        scanned_info vtab info)
         end.
Proof.
  intros Hin Hrej cols Ht Hn. unfold statement_vtab_best_index.
  pose proof (best_index_scan vtab info Hin Hrej) as E.
  destruct (accepted_count_bounds vtab info Hin) as [Hb Hw].
  simpl. unfold scan_start in *. rewrite E. simpl. fold cols.
  rewrite Ht, track_cols_out. simpl. rewrite !Z.add_0_l.
  fold cols in Hw. rewrite Hw.
  destruct (Z.gtb_spec (Z.of_nat (length cols))
              ((SIZE_MAX - 1) / param_idx_size)); [|lia].
  unfold too_many. by destruct sqlite3_mprintf.
Qed.

(** Under the capacity test the size of the allocation does not wrap. *)
Lemma payload_size_fits n :
  0 <= n <= (SIZE_MAX - 1) / param_idx_size ->
  0 <= n * param_idx_size /\ n * param_idx_size + 1 <= SIZE_MAX.
Proof.
  intros Hn. pose proof param_idx_size_pos as Hsz.
  assert (Hpos : 0 < param_idx_size) by lia.
  pose proof (Z.mul_div_le (SIZE_MAX - 1) param_idx_size Hpos).
  nia.
Qed.

Lemma best_index_no_memory vtab info :
  planner_input vtab info ->
  rejected (num_outputs vtab) (aConstraint info) = false ->
  let cols := accepted_cols (num_outputs vtab) (aConstraint info) in
  let n := Z.of_nat (length cols) in
  contiguous_test (track_cols scan_start cols) = false ->
  n <= (SIZE_MAX - 1) / param_idx_size ->
  sqlite3_malloc64 (n * param_idx_size + 1) = None ->
  statement_vtab_best_index vtab info
  = Some (SQLITE_NOMEM, vtab,
          set_idxStr (scanned_info vtab info) None (needToFreeIdxStr info)).
Proof.
  intros Hin Hrej cols n Ht Hn Hm. unfold statement_vtab_best_index.
  pose proof (best_index_scan vtab info Hin Hrej) as E.
  destruct (accepted_count_bounds vtab info Hin) as [Hb Hw].
  fold cols in Hb, Hw. fold n in Hb, Hw.
  destruct (payload_size_fits n ltac:(lia)) as [Hp0 Hp1].
  simpl. unfold scan_start in *. rewrite E. simpl. fold cols.
  rewrite Ht, track_cols_out. simpl. rewrite !Z.add_0_l. fold n.
  rewrite Hw.
  destruct (Z.gtb_spec n ((SIZE_MAX - 1) / param_idx_size)); [lia|].
  rewrite size_wrap_small by lia. by rewrite Hm.
Qed.

Lemma best_index_mapped vtab info buf :
  planner_input vtab info ->
  rejected (num_outputs vtab) (aConstraint info) = false ->
  let cols := accepted_cols (num_outputs vtab) (aConstraint info) in
  let n := Z.of_nat (length cols) in
  contiguous_test (track_cols scan_start cols) = false ->
  n <= (SIZE_MAX - 1) / param_idx_size ->
  sqlite3_malloc64 (n * param_idx_size + 1) = Some buf ->
  exists payload,
    statement_vtab_best_index vtab info
    = Some (SQLITE_OK, vtab,
            set_idxStr
              (set_usage (scanned_info vtab info)
                 (renumber 0 (aConstraintUsage (scanned_info vtab info))))
              (Some payload) 1)
    /\ Z.of_nat (length payload) = n * param_idx_size + 1
    /\ n * param_idx_size + 1 <= SIZE_MAX
    /\ payload !! Z.to_nat (n * param_idx_size) = Some 0
    /\ (forall r x, cols !! r = Some x -> holds payload (Z.of_nat r) (x + 1)).
Proof.
  intros Hin Hrej cols n Ht Hn Hm. unfold statement_vtab_best_index.
  pose proof (best_index_scan vtab info Hin Hrej) as E.
  destruct (accepted_count_bounds vtab info Hin) as [Hb Hw].
  fold cols in Hb, Hw. fold n in Hb, Hw.
  destruct (payload_size_fits n ltac:(lia)) as [Hp0 Hp1].
  pose proof param_idx_size_pos as Hsz.
  pose proof (sqlite3_malloc64_length _ _ Hm) as Hlen.
  destruct Hin as [Hno Hni Hcols Hcnt Hul Huz Hidx].
  set (us1 := direct_usage (num_outputs vtab) (aConstraint info)
                (aConstraintUsage info)) in *.
  assert (Hmk : marked us1 = (fun c => c + 1) <$> cols)
    by (by apply marked_direct_usage).
  destruct (map_constraints_spec us1 0 buf) as (buf' & Em & Lm & Hh & Ho).
  { done. }
  { rewrite Hmk. apply Forall_fmap.
    pose proof (accepted_cols_nonneg (num_outputs vtab) (aConstraint info))
      as Hnn.
    pose proof (accepted_cols_bound _ _ _ Hcols) as Hlt. fold cols in Hnn, Hlt.
    rewrite Forall_forall in Hnn, Hlt. apply Forall_forall.
    intros x Hx. simpl. specialize (Hnn x Hx). specialize (Hlt x Hx). lia. }
  { rewrite Hmk, length_fmap. fold n. lia. }
  { rewrite Hmk, length_fmap. fold n. lia. }
  { lia. }
  rewrite Hmk, length_fmap in Ho. fold n in Ho.
  simpl. unfold scan_start in *. rewrite E. simpl. fold cols us1.
  rewrite Ht, track_cols_out. simpl. rewrite !Z.add_0_l. fold n.
  rewrite Hw.
  destruct (Z.gtb_spec n ((SIZE_MAX - 1) / param_idx_size)); [lia|].
  rewrite (size_wrap_small (n * param_idx_size + 1)) by lia.
  rewrite Hm.
  replace (length (aConstraint info)) with (length us1)
    by (by apply direct_usage_length).
  rewrite Em. cbn [mbind option_bind].
  rewrite (size_wrap_small (n * param_idx_size)) by lia.
  rewrite store_inside by lia. cbn [mbind option_bind].
  eexists. split; [reflexivity|].
  split; [rewrite length_insert; lia|]. split; [done|]. split.
  - apply list_lookup_insert_eq. lia.
  - intros r x Hr j Hj.
    pose proof (lookup_lt_Some _ _ _ Hr) as Hrn.
    rewrite list_lookup_insert_ne by nia.
    apply (Hh r (x + 1)); [|done].
    rewrite Hmk, list_lookup_fmap, Hr. done.
Qed.

End BestIndexFacts.

(** ** The planner: accepted and rejected constraints *)

Lemma rejected_true no cs c :
  c ∈ cs -> passed_over no c = false -> unbindable c = true ->
  rejected no cs = true.
Proof.
  intros Hin Hp Hu. induction Hin as [c cs|c c' cs Hin IH]; simpl.
  - by rewrite Hp, Hu.
  - rewrite IH by done. apply orb_true_r.
Qed.

Lemma rejected_false no cs c :
  rejected no cs = false -> c ∈ cs -> passed_over no c = false ->
  unbindable c = false.
Proof.
  intros Hr Hin Hp. destruct (unbindable c) eqn:Hu; [|done].
  by rewrite (rejected_true no cs c) in Hr.
Qed.

Lemma passed_over_false no c :
  passed_over no c = false ->
  op c <> SQLITE_INDEX_CONSTRAINT_LIMIT
  /\ op c <> SQLITE_INDEX_CONSTRAINT_OFFSET
  /\ no <= iColumn c.
Proof.
  unfold passed_over. rewrite !orb_false_iff.
  intros [[H1%Z.eqb_neq H2%Z.eqb_neq] H3%Z.ltb_ge]. done.
Qed.

Lemma unbindable_false c :
  unbindable c = false ->
  usable c = true /\ op c = SQLITE_INDEX_CONSTRAINT_EQ.
Proof.
  unfold unbindable. rewrite orb_false_iff, !negb_false_iff.
  intros [? ?%Z.eqb_eq]. done.
Qed.

Section BestIndexOutcome.
Context `{Platform} `{Allocator}.

(** A successful plan leaves the usage array of the first loop, or that
    array renumbered together with a payload. *)
Lemma best_index_ok vtab info vt info' :
  planner_input vtab info ->
  statement_vtab_best_index vtab info = Some (SQLITE_OK, vt, info') ->
  let no := num_outputs vtab in
  let cols := accepted_cols no (aConstraint info) in
  let us1 := direct_usage no (aConstraint info) (aConstraintUsage info) in
  rejected no (aConstraint info) = false
  /\ ((cols = [] \/ contiguous cols)
      /\ aConstraintUsage info' = us1 /\ idxStr info' = None
      \/ ~ (cols = [] \/ contiguous cols)
         /\ aConstraintUsage info' = renumber 0 us1
         /\ is_Some (idxStr info')).
Proof.
  intros Hin Hbi no cols us1.
  pose proof (input_usage_length _ _ Hin) as Hlen.
  destruct (rejected no (aConstraint info)) eqn:Hrej.
  { destruct (best_index_rejected vtab info Hlen Hrej) as (i1 & E).
    rewrite E in Hbi. discriminate. }
  split; [done|].
  pose proof (contiguous_test_spec cols
                (accepted_cols_nonneg no (aConstraint info))) as Hspec.
  destruct (contiguous_test (track_cols scan_start cols)) eqn:Ht.
  - left. split; [by apply Hspec|].
    rewrite (best_index_direct vtab info Hin Hrej Ht) in Hbi.
    injection Hbi as <- <-. split; [done|]. simpl. by destruct Hin.
  - right. split.
    { intros Hc. apply Hspec in Hc. unfold scan_start in Ht. congruence. }
    destruct (Z.gtb_spec (Z.of_nat (length cols))
                ((SIZE_MAX - 1) / param_idx_size)) as [Hgt|Hle].
    + rewrite (best_index_too_many vtab info Hin Hrej Ht) in Hbi
        by (unfold cols, no in *; lia).
      destruct sqlite3_mprintf; discriminate.
    + destruct (sqlite3_malloc64
                  (Z.of_nat (length cols) * param_idx_size + 1)) as [buf|]
        eqn:Hm.
      * destruct (best_index_mapped vtab info buf Hin Hrej Ht Hle Hm)
          as (payload & E & _).
        rewrite E in Hbi. injection Hbi as <- <-. simpl. eauto.
      * rewrite (best_index_no_memory vtab info Hin Hrej Ht Hle Hm) in Hbi.
        discriminate.
Qed.

(** In a successful plan the constraints with an [argvIndex] are exactly
    those that were not passed over. *)
Lemma best_index_ok_argvIndex vtab info vt info' i c u :
  planner_input vtab info ->
  statement_vtab_best_index vtab info = Some (SQLITE_OK, vt, info') ->
  aConstraint info !! i = Some c ->
  aConstraintUsage info' !! i = Some u ->
  (argvIndex u = 0 <-> passed_over (num_outputs vtab) c = true).
Proof.
  intros Hin Hbi Hc Hu.
  destruct (best_index_ok vtab info vt info' Hin Hbi) as (_ & Hcases).
  pose proof (input_usage_zero _ _ Hin) as Hz.
  pose proof (input_usage_length _ _ Hin) as Hlen.
  assert (passed_over (num_outputs vtab) c = false ->
          0 < iColumn c - num_outputs vtab + 1) as Hpos.
  { intros (_ & _ & ?)%passed_over_false. lia. }
  pose proof (accepted_cols_length (num_outputs vtab) (take i (aConstraint info))).
  assert (0 <= rank (num_outputs vtab) (aConstraint info) i)
    by (unfold rank; lia).
  destruct Hcases as [(_ & E & _)|(_ & E & _)]; rewrite E in Hu.
  - rewrite (lookup_direct_usage _ _ _ _ _ _ Hz Hc Hu).
    destruct (passed_over (num_outputs vtab) c); [done|].
    specialize (Hpos eq_refl). split; [lia|done].
  - rewrite (renumber_direct_usage _ _ _ _ _ _ _ Hlen Hz Hc Hu).
    destruct (passed_over (num_outputs vtab) c); [done|].
    split; [lia|done].
Qed.

End BestIndexOutcome.

(** ** The planner: the claims *)

Section PlannerClaims.
Context `{Platform} `{Allocator}.

(** C1.  For a constraint set the planner does not reject: when no
    constraint is accepted, or when the accepted parameter indices are
    exactly [0], ..., [col_max-1], each once and all below 64, planning
    returns [SQLITE_OK] with no mapping payload ([idxStr] stays null), and
    each accepted constraint has [argvIndex = col_index+1] while every other
    constraint has none (so with no accepted constraint nothing is bound).
    When some accepted index is 64 or more, a successful plan always carries
    a payload: such a set is never taken for contiguous. *)
Theorem best_index_contiguous_is_direct vtab info :
  planner_input vtab info ->
  rejected (num_outputs vtab) (aConstraint info) = false ->
  let cols := accepted_cols (num_outputs vtab) (aConstraint info) in
  (cols = [] \/ contiguous cols ->
   exists info',
     statement_vtab_best_index vtab info = Some (SQLITE_OK, vtab, info')
     /\ idxStr info' = None
     /\ needToFreeIdxStr info' = needToFreeIdxStr info
     /\ (cols = [] ->
         Forall (fun u => argvIndex u = 0) (aConstraintUsage info'))
     /\ forall i c, aConstraint info !! i = Some c ->
          exists u, aConstraintUsage info' !! i = Some u
            /\ argvIndex u
               = if passed_over (num_outputs vtab) c then 0
                 else iColumn c - num_outputs vtab + 1)
  /\ ((exists c, c ∈ cols /\ 64 <= c) ->
      forall vt info',
        statement_vtab_best_index vtab info = Some (SQLITE_OK, vt, info') ->
        is_Some (idxStr info')).
Proof.
  intros Hin Hrej cols.
  pose proof (input_usage_zero _ _ Hin) as Hz.
  pose proof (input_usage_length _ _ Hin) as Hlen.
  split.
  - intros Hc.
    apply (contiguous_test_spec cols (accepted_cols_nonneg _ _)) in Hc.
    exists (scanned_info vtab info).
    split; [by apply best_index_direct|].
    split; [simpl; by destruct Hin|]. split; [done|].
    assert (Hlook : forall i c, aConstraint info !! i = Some c ->
              exists u, aConstraintUsage (scanned_info vtab info) !! i = Some u
                /\ argvIndex u
                   = if passed_over (num_outputs vtab) c then 0
                     else iColumn c - num_outputs vtab + 1).
    { intros i c Hi. simpl.
      destruct (lookup_lt_is_Some_2
                  (direct_usage (num_outputs vtab) (aConstraint info)
                     (aConstraintUsage info)) i) as [u Hu].
      { rewrite direct_usage_length by done. by eapply lookup_lt_Some. }
      exists u. split; [done|]. by eapply lookup_direct_usage. }
    split; [|done].
    intros Hnil. apply Forall_lookup. intros i u Hu.
    destruct (lookup_lt_is_Some_2 (aConstraint info) i) as [c Hi].
    { apply lookup_lt_Some in Hu. simpl in Hu.
      by rewrite direct_usage_length in Hu. }
    destruct (Hlook i c Hi) as (u' & Hu' & Ea).
    rewrite Hu in Hu'. injection Hu' as <-. rewrite Ea.
    destruct (passed_over (num_outputs vtab) c) eqn:Ep; [done|].
    pose proof (lookup_accepted_rank _ _ _ _ Hi Ep) as Hr.
    fold cols in Hr. rewrite Hnil in Hr. by rewrite lookup_nil in Hr.
  - intros (c & Hc & H64) vt info' Hbi.
    destruct (best_index_ok vtab info vt info' Hin Hbi)
      as (_ & [([Hnil|Hcont] & _)|(_ & _ & Hs)]); [| |done].
    + fold cols in Hnil. rewrite Hnil in Hc. by apply elem_of_nil in Hc.
    + fold cols in Hcont. destruct Hcont as (_ & Hset & _ & Hmax).
      apply Hset in Hc. lia.
Qed.

(** C2.  For a constraint set the planner does not reject and whose
    accepted parameter indices are not contiguous, and when the payload fits
    and is allocated: planning returns [SQLITE_OK] with a payload that is a
    NUL-terminated string of printable characters; the accepted constraints
    get the [argvIndex] values 1, 2, 3, ... in the order of the constraints,
    every other constraint gets none, and decoding the payload at the slot
    of an accepted constraint gives its parameter position
    [col_index+1]. *)
Theorem best_index_sparse_is_mapped vtab info buf :
  planner_input vtab info ->
  rejected (num_outputs vtab) (aConstraint info) = false ->
  let no := num_outputs vtab in
  let cols := accepted_cols no (aConstraint info) in
  let n := Z.of_nat (length cols) in
  ~ (cols = [] \/ contiguous cols) ->
  n <= (SIZE_MAX - 1) / param_idx_size ->
  sqlite3_malloc64 (n * param_idx_size + 1) = Some buf ->
  exists info' payload,
    statement_vtab_best_index vtab info = Some (SQLITE_OK, vtab, info')
    /\ idxStr info' = Some payload
    /\ needToFreeIdxStr info' = 1
    /\ Z.of_nat (length payload) = n * param_idx_size + 1
    /\ payload !! Z.to_nat (n * param_idx_size) = Some 0
    /\ (forall k ch, 0 <= k < n * param_idx_size ->
          payload !! Z.to_nat k = Some ch -> 33 <= ch <= 96)
    /\ forall i c, aConstraint info !! i = Some c ->
         exists u, aConstraintUsage info' !! i = Some u
           /\ if passed_over no c then argvIndex u = 0
              else argvIndex u = rank no (aConstraint info) i + 1
                   /\ decode_param_idx (rank no (aConstraint info) i) payload
                      = Some (iColumn c - no + 1).
Proof.
  intros Hin Hrej no cols n Hnc Hn Hm.
  pose proof (input_usage_zero _ _ Hin) as Hz.
  pose proof (input_usage_length _ _ Hin) as Hlen.
  pose proof (input_columns _ _ Hin) as Hcols.
  pose proof (input_inputs _ _ Hin) as Hni.
  pose proof param_idx_size_pos as Hsz.
  assert (Ht : contiguous_test (track_cols scan_start cols) = false).
  { destruct (contiguous_test (track_cols scan_start cols)) eqn:Ht; [|done].
    apply (contiguous_test_spec cols (accepted_cols_nonneg _ _)) in Ht.
    done. }
  destruct (best_index_mapped vtab info buf Hin Hrej Ht Hn Hm)
    as (payload & E & Lp & Hfit & Hnul & Hh).
  fold no cols n in Lp, Hfit, Hnul, Hh.
  eexists _, payload. split; [exact E|].
  split; [done|]. split; [done|]. split; [done|]. split; [done|]. split.
  - intros k ch Hk Hch.
    assert (Hnz : param_idx_size <> 0) by lia.
    assert (Hpos : 0 < param_idx_size) by lia.
    pose proof (Z.div_mod k param_idx_size Hnz) as Hdm.
    pose proof (Z.mod_pos_bound k param_idx_size Hpos) as Hmod.
    assert (0 <= k / param_idx_size < n) as Hq.
    { split; [apply Z.div_pos; lia|apply Z.div_lt_upper_bound; lia]. }
    destruct (lookup_lt_is_Some_2 cols (Z.to_nat (k / param_idx_size)))
      as [x Hx]; [lia|].
    apply (holds_printable payload (k / param_idx_size) (x + 1)
             (k mod param_idx_size)); [|done|].
    + specialize (Hh _ _ Hx). by rewrite Z2Nat.id in Hh by lia.
    + rewrite <- Hch. f_equal. f_equal. lia.
  - intros i c Hi. simpl.
    destruct (lookup_lt_is_Some_2
                (renumber 0 (direct_usage no (aConstraint info)
                               (aConstraintUsage info))) i) as [u Hu].
    { rewrite renumber_length, direct_usage_length by done.
      by eapply lookup_lt_Some. }
    exists u. split; [done|].
    pose proof (renumber_direct_usage _ _ _ _ _ _ _ Hlen Hz Hi Hu) as Ea.
    fold no in Ea. destruct (passed_over no c) eqn:Ep; [done|].
    split; [lia|].
    pose proof (lookup_accepted_rank _ _ _ _ Hi Ep) as Hr. fold cols in Hr.
    pose proof (accepted_cols_length no (take i (aConstraint info))).
    assert (0 <= rank no (aConstraint info) i) by (unfold rank; lia).
    apply holds_decode; [| |done|lia].
    + specialize (Hh _ _ Hr). by rewrite Z2Nat.id in Hh by lia.
    + apply passed_over_false in Ep as (_ & _ & Hge).
      rewrite Forall_forall in Hcols.
      pose proof (Hcols c ltac:(by eapply list_elem_of_lookup_2)).
      fold no in Hge. lia.
Qed.

(** C3.  Constraints with the operator LIMIT or OFFSET and constraints on
    output columns never get an [argvIndex] in a successful plan; a remaining
    constraint that is not usable or not an equality makes the planner return
    [SQLITE_CONSTRAINT]; so every constraint with an [argvIndex] in a
    successful plan is a usable equality on a hidden column. *)
Theorem best_index_accepts_only_hidden_equalities vtab info :
  planner_input vtab info ->
  let no := num_outputs vtab in
  (forall c, c ∈ aConstraint info ->
     passed_over no c = false -> unbindable c = true ->
     exists info',
       statement_vtab_best_index vtab info
       = Some (SQLITE_CONSTRAINT, vtab, info'))
  /\ (forall vt info' i c u,
        statement_vtab_best_index vtab info = Some (SQLITE_OK, vt, info') ->
        aConstraint info !! i = Some c ->
        aConstraintUsage info' !! i = Some u ->
        (op c = SQLITE_INDEX_CONSTRAINT_LIMIT
         \/ op c = SQLITE_INDEX_CONSTRAINT_OFFSET
         \/ iColumn c < no ->
         argvIndex u = 0)
        /\ (argvIndex u <> 0 ->
            usable c = true
            /\ op c = SQLITE_INDEX_CONSTRAINT_EQ
            /\ no <= iColumn c < no + num_inputs vtab)).
Proof.
  intros Hin no. split.
  - intros c Hc Hp Hu. apply best_index_rejected.
    + by destruct Hin.
    + by eapply rejected_true.
  - intros vt info' i c u Hbi Hc Hu.
    pose proof (best_index_ok_argvIndex _ _ _ _ _ _ _ Hin Hbi Hc Hu) as Ha.
    destruct (best_index_ok vtab info vt info' Hin Hbi) as (Hrej & _).
    fold no in Ha, Hrej. split.
    + intros Hskip. apply Ha. unfold passed_over.
      rewrite !orb_true_iff, !Z.eqb_eq, Z.ltb_lt. tauto.
    + intros Hnz. destruct (passed_over no c) eqn:Ep; [tauto|].
      assert (c ∈ aConstraint info) as Hin_c
        by (by eapply list_elem_of_lookup_2).
      pose proof (rejected_false _ _ _ Hrej Hin_c Ep) as Hb.
      apply unbindable_false in Hb as [? ?].
      apply passed_over_false in Ep as (_ & _ & ?).
      pose proof (input_columns _ _ Hin) as Hcols.
      rewrite Forall_forall in Hcols. specialize (Hcols c Hin_c).
      fold no in Hcols. done.
Qed.

End PlannerClaims.

Section CapacityClaim.
Context `{Platform}.

(** C9.  When the accepted constraints are not contiguous, the planner
    compares their number [n] with [(SIZE_MAX-1)/param_idx_size] before it
    allocates.  Above that bound the table's [zErrMsg] after the call is
    what [sqlite3_mprintf] made of "Too many constraints to index: n", the
    other fields of the table are as before, the return code is
    [SQLITE_ERROR] ([SQLITE_NOMEM] when the message itself cannot be
    allocated), [idxStr] stays null and [sqlite3_malloc64] is not called:
    the outcome is the same under every allocator that formats the message
    alike.  Up to the bound, the size [n*width+1] is computed without
    wrap-around and is at most [SIZE_MAX], and that many bytes are
    requested. *)
Theorem best_index_capacity_check (A : Allocator) vtab info :
  planner_input vtab info ->
  rejected (num_outputs vtab) (aConstraint info) = false ->
  let cols := accepted_cols (num_outputs vtab) (aConstraint info) in
  let n := Z.of_nat (length cols) in
  ~ (cols = [] \/ contiguous cols) ->
  (n > (SIZE_MAX - 1) / param_idx_size ->
   (exists code vt' info',
      statement_vtab_best_index vtab info = Some (code, vt', info')
      /\ zErrMsg vt'
         = sqlite3_mprintf ("Too many constraints to index: " +:+ pretty n)
      /\ code = (if zErrMsg vt' is Some _ then SQLITE_ERROR
                 else SQLITE_NOMEM)
      /\ sql vt' = sql vtab /\ sql_len vt' = sql_len vtab
      /\ num_inputs vt' = num_inputs vtab
      /\ num_outputs vt' = num_outputs vtab
      /\ idxStr info' = None
      /\ needToFreeIdxStr info' = needToFreeIdxStr info)
   /\ forall A' : Allocator,
        @sqlite3_mprintf A' (too_many n) = @sqlite3_mprintf A (too_many n) ->
        @statement_vtab_best_index _ A' vtab info
        = @statement_vtab_best_index _ A vtab info)
  /\ (n <= (SIZE_MAX - 1) / param_idx_size ->
      size_wrap (size_wrap n * param_idx_size + 1) = n * param_idx_size + 1
      /\ n * param_idx_size + 1 <= SIZE_MAX
      /\ match sqlite3_malloc64 (n * param_idx_size + 1) with
         | None =>
             exists info',
               statement_vtab_best_index vtab info
               = Some (SQLITE_NOMEM, vtab, info')
               /\ idxStr info' = None
         | Some _ =>
             exists info' payload,
               statement_vtab_best_index vtab info
               = Some (SQLITE_OK, vtab, info')
               /\ idxStr info' = Some payload
               /\ Z.of_nat (length payload) = n * param_idx_size + 1
         end).
Proof.
  intros Hin Hrej cols n Hnc.
  assert (Ht : contiguous_test (track_cols scan_start cols) = false).
  { destruct (contiguous_test (track_cols scan_start cols)) eqn:Ht; [|done].
    apply (contiguous_test_spec cols (accepted_cols_nonneg _ _)) in Ht.
    done. }
  destruct (accepted_count_bounds vtab info Hin) as [Hb Hw].
  fold cols in Hb, Hw. fold n in Hb, Hw.
  split.
  - intros Hgt. split.
    + rewrite (best_index_too_many vtab info Hin Hrej Ht Hgt).
      fold cols n. change (too_many n)
        with ("Too many constraints to index: " +:+ pretty n).
      destruct (sqlite3_mprintf ("Too many constraints to index: "
                                 +:+ pretty n)) as [msg|].
      * exists SQLITE_ERROR, (set_zErrMsg vtab (Some msg)),
          (scanned_info vtab info).
        repeat (split; [reflexivity|]).
        split; [simpl; by destruct Hin|reflexivity].
      * exists SQLITE_NOMEM, (set_zErrMsg vtab None),
          (scanned_info vtab info).
        repeat (split; [reflexivity|]).
        split; [simpl; by destruct Hin|reflexivity].
    + intros A' Hsame.
      rewrite (@best_index_too_many _ A vtab info Hin Hrej Ht Hgt).
      rewrite (@best_index_too_many _ A' vtab info Hin Hrej Ht Hgt).
      fold cols n. by rewrite Hsame.
  - intros Hle.
    assert (Hrange : 0 <= n <= (SIZE_MAX - 1) / param_idx_size) by lia.
    destruct (payload_size_fits n Hrange) as [Hp0 Hp1].
    split; [rewrite Hw; apply size_wrap_small; lia|]. split; [done|].
    destruct (sqlite3_malloc64 (n * param_idx_size + 1)) as [buf|] eqn:Hm.
    + destruct (best_index_mapped vtab info buf Hin Hrej Ht Hle Hm)
        as (payload & E & Lp & _).
      eexists _, payload. split; [exact E|]. split; [done|]. exact Lp.
    + eexists. split; [by apply best_index_no_memory|]. done.
Qed.

End CapacityClaim.

(** ** The planner on concrete constraint sets *)

Lemma fresh_index_info_input `{Platform} vtab cs :
  0 <= num_outputs vtab -> num_inputs vtab <= INT_MAX ->
  Forall (fun c => iColumn c < num_outputs vtab + num_inputs vtab) cs ->
  Z.of_nat (length cs) <= INT_MAX ->
  planner_input vtab (fresh_index_info cs).
Proof.
  intros. split; simpl; try done.
  - by rewrite length_replicate.
  - by apply Forall_replicate.
Qed.

(** [planner_input] for a concrete table and constraint list. *)
Ltac concrete_input :=
  apply fresh_index_info_input;
  [by vm_compute | by vm_compute
  | repeat constructor; by vm_compute | by vm_compute].

(** A concrete list is not contiguous: the test of the source, run on it,
    says so. *)
Ltac not_contiguous :=
  let Hc := fresh "Hc" in
  intros Hc; apply contiguous_test_spec in Hc;
  [by vm_compute in Hc | repeat constructor; by vm_compute].

(** Hidden columns 0 and 1, with a range constraint on the output column
    in between: a direct plan. *)
Example plan_contiguous :
  statement_vtab_best_index (H := LP64) (H0 := plentiful) sum_table
    (fresh_index_info [equality 2; less_than 0; equality 1])
  = Some (SQLITE_OK, sum_table,
          {| aConstraint := [equality 2; less_than 0; equality 1];
             aConstraintUsage := [ {| argvIndex := 2; omit := 1 |};
                                   {| argvIndex := 0; omit := 0 |};
                                   {| argvIndex := 1; omit := 1 |} ];
             idxStr := None; needToFreeIdxStr := 0; orderByConsumed := 0;
             estimatedCost := 1; estimatedRows := 1 |}).
Proof. vm_compute. reflexivity. Qed.

(** Hidden columns 0 and 2: a mapped plan whose payload decodes to the
    positions 1 and 3. *)
Example plan_sparse :
  statement_vtab_best_index (H := LP64) (H0 := plentiful) sum_table
    (fresh_index_info [equality 1; equality 3])
  = Some (SQLITE_OK, sum_table,
          {| aConstraint := [equality 1; equality 3];
             aConstraintUsage := [ {| argvIndex := 1; omit := 1 |};
                                   {| argvIndex := 2; omit := 1 |} ];
             idxStr := Some [34; 33; 33; 33; 33; 33;
                             36; 33; 33; 33; 33; 33; 0];
             needToFreeIdxStr := 1; orderByConsumed := 0;
             estimatedCost := 1; estimatedRows := 1 |})
  /\ decode_param_idx (H := LP64) 0
       [34; 33; 33; 33; 33; 33; 36; 33; 33; 33; 33; 33; 0] = Some 1
  /\ decode_param_idx (H := LP64) 1
       [34; 33; 33; 33; 33; 33; 36; 33; 33; 33; 33; 33; 0] = Some 3.
Proof. vm_compute. done. Qed.

(** The same two columns visited in the other order: the payload decodes
    to 3 and 1. *)
Example plan_sparse_reversed :
  statement_vtab_best_index (H := LP64) (H0 := plentiful) sum_table
    (fresh_index_info [equality 3; equality 1])
  = Some (SQLITE_OK, sum_table,
          {| aConstraint := [equality 3; equality 1];
             aConstraintUsage := [ {| argvIndex := 1; omit := 1 |};
                                   {| argvIndex := 2; omit := 1 |} ];
             idxStr := Some [36; 33; 33; 33; 33; 33;
                             34; 33; 33; 33; 33; 33; 0];
             needToFreeIdxStr := 1; orderByConsumed := 0;
             estimatedCost := 1; estimatedRows := 1 |})
  /\ decode_param_idx (H := LP64) 0
       [36; 33; 33; 33; 33; 33; 34; 33; 33; 33; 33; 33; 0] = Some 3
  /\ decode_param_idx (H := LP64) 1
       [36; 33; 33; 33; 33; 33; 34; 33; 33; 33; 33; 33; 0] = Some 1.
Proof. vm_compute. done. Qed.

(** A range constraint on a hidden column: the access path is rejected. *)
Example plan_range_rejected :
  fst <$> statement_vtab_best_index (H := LP64) (H0 := plentiful) sum_table
            (fresh_index_info [equality 1; less_than 2])
  = Some (SQLITE_CONSTRAINT, sum_table).
Proof. vm_compute. reflexivity. Qed.

(** Two equalities on the same hidden column: a mapped plan. *)
Example plan_repeated_column :
  (fun r => (r.1.1, argvIndex <$> aConstraintUsage r.2, idxStr r.2))
    <$> statement_vtab_best_index (H := LP64) (H0 := plentiful) sum_table
          (fresh_index_info [equality 1; equality 1])
  = Some (SQLITE_OK, [1; 2],
          Some [34; 33; 33; 33; 33; 33; 34; 33; 33; 33; 33; 33; 0]).
Proof. vm_compute. reflexivity. Qed.

(** Sixty-four hidden columns 0 to 63 are still a direct plan; sixty-five
    are mapped. *)
Example plan_64_columns :
  let wide := {| zErrMsg := None; sql := ""; sql_len := 0;
                 num_inputs := 100; num_outputs := 0 |} in
  (fun r => (r.1.1, length <$> idxStr r.2))
    <$> statement_vtab_best_index (H := LP64) (H0 := plentiful) wide
          (fresh_index_info (equality <$> seqZ 0 64))
  = Some (SQLITE_OK, None)
  /\ (fun r => (r.1.1, length <$> idxStr r.2))
       <$> statement_vtab_best_index (H := LP64) (H0 := plentiful) wide
             (fresh_index_info (equality <$> seqZ 0 65))
     = Some (SQLITE_OK, Some 391%nat).
Proof. vm_compute. done. Qed.

Lemma best_index_contiguous_is_direct_witness :
  exists info',
    statement_vtab_best_index (H := LP64) (H0 := plentiful) sum_table
      (fresh_index_info [equality 2; less_than 0; equality 1])
    = Some (SQLITE_OK, sum_table, info')
    /\ idxStr info' = None
    /\ argvIndex <$> aConstraintUsage info' = [2; 0; 1].
Proof.
  assert (Hin : planner_input (H := LP64) sum_table
                  (fresh_index_info [equality 2; less_than 0; equality 1])).
  { concrete_input. }
  destruct (best_index_contiguous_is_direct (H := LP64) (H0 := plentiful)
              sum_table _ Hin eq_refl) as [Hdirect _].
  destruct Hdirect as (info' & E & Hidx & _).
  { apply contiguous_test_spec.
    - repeat constructor; by vm_compute.
    - by vm_compute. }
  exists info'. split; [exact E|]. split; [exact Hidx|].
  vm_compute in E. injection E as <-. reflexivity.
Defined.

Lemma best_index_sparse_is_mapped_witness :
  exists info' payload,
    statement_vtab_best_index (H := LP64) (H0 := plentiful) sum_table
      (fresh_index_info [equality 3; less_than 0; equality 1])
    = Some (SQLITE_OK, sum_table, info')
    /\ idxStr info' = Some payload
    /\ argvIndex <$> aConstraintUsage info' = [1; 0; 2]
    /\ decode_param_idx (H := LP64) 0 payload = Some 3
    /\ decode_param_idx (H := LP64) 1 payload = Some 1.
Proof.
  assert (Hin : planner_input (H := LP64) sum_table
                  (fresh_index_info [equality 3; less_than 0; equality 1])).
  { concrete_input. }
  destruct (best_index_sparse_is_mapped (H := LP64) (H0 := plentiful)
              sum_table _ (replicate 13 170) Hin eq_refl)
    as (info' & payload & E & Hidx & _ & _ & _ & _ & Hslots).
  { not_contiguous. }
  { by vm_compute. }
  { by vm_compute. }
  exists info', payload. split; [exact E|]. split; [exact Hidx|].
  destruct (Hslots 0%nat (equality 3) eq_refl) as (u0 & _ & _ & D0).
  destruct (Hslots 2%nat (equality 1) eq_refl) as (u2 & _ & _ & D2).
  split; [|split; [exact D0|exact D2]].
  vm_compute in E. injection E as <-. reflexivity.
Defined.

Lemma best_index_accepts_only_hidden_equalities_witness :
  (exists info',
     statement_vtab_best_index (H := LP64) (H0 := plentiful) sum_table
       (fresh_index_info [equality 1; less_than 2])
     = Some (SQLITE_CONSTRAINT, sum_table, info'))
  /\ forall vt info' i c u,
       statement_vtab_best_index (H := LP64) (H0 := plentiful) sum_table
         (fresh_index_info [equality 3; less_than 0; equality 1])
       = Some (SQLITE_OK, vt, info') ->
       [equality 3; less_than 0; equality 1] !! i = Some c ->
       aConstraintUsage info' !! i = Some u ->
       argvIndex u <> 0 ->
       usable c = true /\ op c = SQLITE_INDEX_CONSTRAINT_EQ
       /\ 1 <= iColumn c < 4.
Proof.
  split.
  - assert (Hin : planner_input (H := LP64) sum_table
                    (fresh_index_info [equality 1; less_than 2])).
    { concrete_input. }
    destruct (best_index_accepts_only_hidden_equalities
                (H := LP64) (H0 := plentiful) sum_table _ Hin) as [Hrej _].
    apply (Hrej (less_than 2)); [|reflexivity|reflexivity].
    simpl. rewrite !elem_of_cons. auto.
  - assert (Hin : planner_input (H := LP64) sum_table
                    (fresh_index_info [equality 3; less_than 0; equality 1])).
    { concrete_input. }
    destruct (best_index_accepts_only_hidden_equalities
                (H := LP64) (H0 := plentiful) sum_table _ Hin) as [_ Hok].
    intros vt info' i c u Hbi Hc Hu Hnz.
    destruct (Hok vt info' i c u Hbi Hc Hu) as [_ Hacc]. by apply Hacc.
Defined.

(** On the smallest platform 21845 equalities on the hidden column exceed
    the capacity [(65535-1)/3 = 21844]: the table then carries the message
    with that number; on the 64-bit platform the two sparse columns of
    [plan_sparse] need [2*6+1 = 13] bytes. *)
Lemma best_index_capacity_check_witness :
  (exists vt' info',
     statement_vtab_best_index (H := IP16) (H0 := plentiful) echo_table
       (fresh_index_info (replicate (Z.to_nat 21845) (equality 1)))
     = Some (SQLITE_ERROR, vt', info')
     /\ zErrMsg vt' = Some "Too many constraints to index: 21845"
     /\ idxStr info' = None)
  /\ size_wrap (H := LP64) (size_wrap (H := LP64) 2 * 6 + 1) = 13.
Proof.
  split.
  - set (cs := replicate (Z.to_nat 21845) (equality 1)).
    assert (Hin : planner_input (H := IP16) echo_table (fresh_index_info cs)).
    { apply fresh_index_info_input; [by vm_compute..| |].
      - by apply Forall_replicate.
      - unfold cs. rewrite length_replicate. by vm_compute. }
    assert (Hrej : rejected (num_outputs echo_table) cs = false)
      by (vm_compute; reflexivity).
    destruct (best_index_capacity_check (H := IP16) plentiful echo_table
                (fresh_index_info cs) Hin Hrej) as [Hover _].
    { intros Hc. apply contiguous_test_spec in Hc.
      - by vm_compute in Hc.
      - apply accepted_cols_nonneg. }
    destruct Hover as [(code & vt' & info' & E & Hmsg & Hcode & Hrest) _].
    { vm_compute. reflexivity. }
    assert (Hshown : zErrMsg vt'
                     = Some "Too many constraints to index: 21845").
    { rewrite Hmsg. vm_compute. reflexivity. }
    rewrite Hshown in Hcode. subst code.
    exists vt', info'. split; [exact E|]. split; [exact Hshown|].
    apply Hrest.
  - assert (Hin : planner_input (H := LP64) sum_table
                    (fresh_index_info [equality 1; equality 3])).
    { concrete_input. }
    destruct (best_index_capacity_check (H := LP64) plentiful sum_table
                (fresh_index_info [equality 1; equality 3]) Hin eq_refl)
      as [_ Hfits].
    { not_contiguous. }
    destruct Hfits as (Hsize & _); [by vm_compute|]. exact Hsize.
Defined.

(** ** The codec: the claim *)

(** C4.  For every non-negative [x] that an [int] holds and every slot [i]
    inside the buffer, [encode_param_idx] succeeds, [decode_param_idx] at the
    same slot gives [x] back, every character written is in the printable
    range 33..96 (six bits plus 33, never NUL), and nothing outside the slot
    is written. *)
Theorem codec_roundtrip `{Platform} (i x : Z) (param_map : list Z) :
  0 <= x <= INT_MAX ->
  0 <= i ->
  (i + 1) * param_idx_size <= Z.of_nat (length param_map) ->
  Z.of_nat (length param_map) <= SIZE_MAX ->
  exists param_map',
    encode_param_idx i param_map x = Some param_map'
    /\ decode_param_idx i param_map' = Some x
    /\ length param_map' = length param_map
    /\ (forall j, 0 <= j < param_idx_size ->
          exists ch,
            param_map' !! Z.to_nat (i * param_idx_size + j) = Some ch
            /\ ch = Z.land (x ≫ (6 * j)) 63 + 33
            /\ 33 <= ch <= 96)
    /\ (forall k : nat,
          ~ (i * param_idx_size <= Z.of_nat k < (i + 1) * param_idx_size) ->
          param_map' !! k = param_map !! k).
Proof.
  intros Hx Hi Hlen Hmax.
  destruct (encode_param_idx_spec x i param_map (proj1 Hx) Hi Hlen Hmax)
    as (buf' & E & L & W & O).
  exists buf'. split; [done|]. split.
  { apply decode_param_idx_spec; [done|done|by rewrite L|done]. }
  split; [done|]. split; [|done].
  intros j Hj. eexists. split; [by apply W|]. split; [done|].
  apply sextet_range.
Qed.

Lemma codec_roundtrip_witness :
  exists param_map',
    encode_param_idx (H := LP64) 1 (replicate 13 0) 2147483647
    = Some param_map'
    /\ decode_param_idx (H := LP64) 1 param_map' = Some 2147483647
    /\ param_map' = [0; 0; 0; 0; 0; 0; 96; 96; 96; 96; 96; 34; 0].
Proof.
  destruct (codec_roundtrip (H := LP64) 1 2147483647 (replicate 13 0))
    as (buf' & E & D & _); [by vm_compute..|].
  exists buf'. split; [exact E|]. split; [exact D|].
  vm_compute in E. by injection E as <-.
Defined.

Example encode_3_LP64 :
  encode_param_idx (H := LP64) 1 (replicate 13 0) 3
  = Some [0; 0; 0; 0; 0; 0; 36; 33; 33; 33; 33; 33; 0].
Proof. vm_compute. reflexivity. Qed.

Example decode_3_LP64 :
  decode_param_idx (H := LP64) 1 [0; 0; 0; 0; 0; 0; 36; 33; 33; 33; 33; 33; 0]
  = Some 3.
Proof. vm_compute. reflexivity. Qed.

(** On the 16-bit platform an index takes three characters. *)
Example roundtrip_INT_MAX_IP16 :
  encode_param_idx (H := IP16) 0 (replicate 3 0) 32767 = Some [96; 96; 40]
  /\ decode_param_idx (H := IP16) 0 [96; 96; 40] = Some 32767.
Proof. vm_compute. done. Qed.

(** A slot that reaches outside the buffer is not written. *)
Example encode_outside :
  encode_param_idx (H := LP64) 2 (replicate 13 0) 3 = None.
Proof. vm_compute. reflexivity. Qed.

(** ** The cursor *)

Section CursorFacts.
Context {sqlite3_value : Type} `{Platform} `{Engine sqlite3_value}.

Abbreviation cursor := (statement_cursor sqlite3_value).
Abbreviation call := (stmt_call sqlite3_value).

Lemma bind_arguments_accepted idxStr vs : forall ps i s,
  length ps = length vs ->
  0 <= i -> i + Z.of_nat (length vs) <= INT_MAX ->
  (forall j p, ps !! j = Some p -> target idxStr (i + Z.of_nat j) = Some p) ->
  binds_accepted s ps vs ->
  bind_arguments idxStr i vs s = Some (Fallthrough, bind_calls ps vs ++ s).
Proof.
  pose proof INT_MAX_pos as Hmax.
  assert (Hmin : INT_MIN <= 0) by (unfold INT_MIN, INT_MAX in *; lia).
  induction vs as [|v vs IH]; intros [|p ps] i s Hlen Hi Hn Ht Hacc;
    try done.
  cbn [bind_arguments]. simpl in Hlen, Hacc. rewrite length_cons in Hn.
  destruct Hacc as [Hok Hacc].
  pose proof (Ht 0%nat p eq_refl) as Ht0. rewrite Z.add_0_r in Ht0.
  rewrite !int_wrap_small by lia.
  assert (E : match idxStr with
              | Some param_map => decode_param_idx i param_map
              | None => Some (i + 1)
              end = Some p).
  { by destruct idxStr. }
  rewrite E. cbn [mbind option_bind]. rewrite Hok. simpl.
  rewrite (IH ps (i + 1)); [|lia|lia|lia| |done].
  - unfold bind_calls. simpl. rewrite reverse_cons, <- app_assoc. done.
  - intros j q Hq. replace (i + 1 + Z.of_nat j) with (i + Z.of_nat (S j))
      by lia. by apply Ht.
Qed.

(** The first bind the library refuses ends the loop: the binds before it
    and the refused one have been made. *)
Lemma bind_arguments_refused idxStr vs1 v vs2 ps1 p ret : forall i s,
  length ps1 = length vs1 ->
  0 <= i -> i + Z.of_nat (length vs1) + 1 <= INT_MAX ->
  (forall j q, (ps1 ++ [p]) !! j = Some q ->
     target idxStr (i + Z.of_nat j) = Some q) ->
  binds_accepted s ps1 vs1 ->
  sqlite3_bind_value (bind_calls ps1 vs1 ++ s) p v = ret ->
  ret <> SQLITE_OK ->
  bind_arguments idxStr i (vs1 ++ v :: vs2) s
  = Some (Return ret, Call_bind_value p v :: bind_calls ps1 vs1 ++ s).
Proof.
  pose proof INT_MAX_pos as Hmax.
  assert (Hmin : INT_MIN <= 0) by (unfold INT_MIN, INT_MAX in *; lia).
  revert ps1. induction vs1 as [|v1 vs1 IH];
    intros [|p1 ps1] i s Hlen Hi Hn Ht Hacc Hret Hne; try done.
  - cbn [app bind_arguments].
    pose proof (Ht 0%nat p eq_refl) as Ht0. rewrite Z.add_0_r in Ht0.
    rewrite !int_wrap_small by (simpl in Hn; lia).
    assert (E : match idxStr with
                | Some param_map => decode_param_idx i param_map
                | None => Some (i + 1)
                end = Some p) by (by destruct idxStr).
    rewrite E. cbn [mbind option_bind].
    unfold bind_calls in *. simpl in Hret. rewrite Hret.
    apply Z.eqb_neq in Hne. by rewrite Hne.
  - cbn [app bind_arguments]. simpl in Hlen, Hacc. rewrite length_cons in Hn.
    destruct Hacc as [Hok Hacc].
    pose proof (Ht 0%nat p1 eq_refl) as Ht0. rewrite Z.add_0_r in Ht0.
    rewrite !int_wrap_small by lia.
    assert (E : match idxStr with
                | Some param_map => decode_param_idx i param_map
                | None => Some (i + 1)
                end = Some p1) by (by destruct idxStr).
    rewrite E. cbn [mbind option_bind]. rewrite Hok. simpl.
    unfold bind_calls in *. simpl in Hret.
    rewrite reverse_cons, <- app_assoc in Hret. simpl in Hret.
    rewrite (IH ps1 (i + 1) _); [|lia|lia|lia| |done|done|done].
    + simpl. rewrite reverse_cons, <- app_assoc. done.
    + intros j q Hq. replace (i + 1 + Z.of_nat j) with (i + Z.of_nat (S j))
        by lia. by apply Ht.
Qed.

(** The bindings after a run of accepted binds on a statement whose
    bindings were [m]. *)
Lemma bindings_bind_calls ps : forall vs s,
  binds_accepted s ps vs ->
  bindings (bind_calls ps vs ++ s)
  = foldl (fun m pv => <[pv.1 := pv.2]> m) (bindings s) (zip ps vs).
Proof.
  induction ps as [|p ps IH]; intros [|v vs] s Hacc; try done.
  simpl in Hacc. destruct Hacc as [Hok Hacc].
  unfold bind_calls. simpl. rewrite reverse_cons, <- app_assoc.
  fold (bind_calls ps vs). rewrite IH by done. simpl. by rewrite Hok.
Qed.

End CursorFacts.

Section CursorClaims.
Context {sqlite3_value : Type} `{Platform} `{Engine sqlite3_value}.

Abbreviation cursor := (statement_cursor sqlite3_value).

Lemma bindings_cleared cur : bindings (cleared cur) = ∅.
Proof. reflexivity. Qed.

(** A filter call whose binds the library accepts. *)
Lemma filter_accepted (cur : cursor) idxStr argv ps :
  Z.of_nat (length argv) <= num_inputs (pVtab cur) ->
  num_inputs (pVtab cur) <= INT_MAX ->
  (length argv <= length (param_argv cur))%nat ->
  length ps = length argv ->
  (forall j p, ps !! j = Some p -> target idxStr (Z.of_nat j) = Some p) ->
  binds_accepted (cleared cur) ps argv ->
  let bound := bind_calls ps argv ++ cleared cur in
  let ret := sqlite3_step bound in
  let found := (ret =? SQLITE_ROW) || (ret =? SQLITE_DONE) in
  exists cur',
    statement_vtab_filter cur idxStr argv
    = Some (if found then SQLITE_OK else ret, cur')
    /\ rowid cur' = 1
    /\ stmt cur' = Call_step :: bound
    /\ bindings (stmt cur')
       = foldl (fun m pv => <[pv.1 := pv.2]> m) ∅ (zip ps argv)
    /\ (found = true -> bound_arguments cur' = argv)
    /\ pVtab cur' = pVtab cur.
Proof.
  intros Hargc Hni Hcap Hlen Ht Hacc bound ret found.
  unfold statement_vtab_filter.
  rewrite (bind_arguments_accepted idxStr argv ps 0 (cleared cur));
    [|done|done|lia| |done].
  2:{ intros j p Hp. rewrite Z.add_0_l. by apply Ht. }
  cbn [mbind option_bind]. fold bound ret found.
  assert (Hb : bindings (Call_step :: bound)
               = foldl (fun m pv => <[pv.1 := pv.2]> m) ∅ (zip ps argv)).
  { simpl. unfold bound. by rewrite bindings_bind_calls. }
  destruct found eqn:Ef; cbn [negb].
  - destruct (Z.eqb_spec (Z.of_nat (length argv)) 0) as [Ez|Enz].
    + eexists. split; [reflexivity|]. simpl.
      split; [done|]. split; [done|]. split; [done|]. split; [|done].
      intros _. unfold bound_arguments. simpl.
      destruct argv; [done|]. simpl in Ez. lia.
    + destruct (Z.leb_spec (Z.of_nat (length argv))
                  (num_inputs (pVtab cur))); [|lia].
      cbn [negb]. unfold copy_arguments.
      rewrite decide_True by done. cbn [mbind option_bind].
      eexists. split; [reflexivity|]. simpl.
      split; [done|]. split; [done|]. split; [done|]. split; [|done].
      intros _. unfold bound_arguments. simpl.
      rewrite Nat2Z.id. by rewrite take_app_length.
  - eexists. split; [reflexivity|]. simpl. done.
Qed.


(** C10.  A filter call that fails.  When the library refuses a bind (the
    binds before it accepted), or accepts every bind and then answers the
    step with a code that is neither [SQLITE_ROW] nor [SQLITE_DONE], filter
    returns that code; [rowid] is 1 and the statement has been reset and its
    bindings cleared before the new binds, but [param_argc] and [param_argv]
    are those of the cursor before the call: the retained arguments are still
    the ones of the previous filter call. *)
Theorem filter_failure_keeps_arguments (cur : cursor) idxStr :
  (forall vs1 v vs2 ps1 p ret,
     Z.of_nat (length (vs1 ++ v :: vs2)) <= INT_MAX ->
     length ps1 = length vs1 ->
     (forall j q, (ps1 ++ [p]) !! j = Some q ->
        target idxStr (Z.of_nat j) = Some q) ->
     binds_accepted (cleared cur) ps1 vs1 ->
     sqlite3_bind_value (bind_calls ps1 vs1 ++ cleared cur) p v = ret ->
     ret <> SQLITE_OK ->
     exists cur',
       statement_vtab_filter cur idxStr (vs1 ++ v :: vs2) = Some (ret, cur')
       /\ rowid cur' = 1
       /\ stmt cur' = Call_bind_value p v :: bind_calls ps1 vs1 ++ cleared cur
       /\ param_argc cur' = param_argc cur
       /\ param_argv cur' = param_argv cur
       /\ bound_arguments cur' = bound_arguments cur)
  /\ (forall argv ps ret,
        Z.of_nat (length argv) <= INT_MAX ->
        length ps = length argv ->
        (forall j p, ps !! j = Some p -> target idxStr (Z.of_nat j) = Some p) ->
        binds_accepted (cleared cur) ps argv ->
        sqlite3_step (bind_calls ps argv ++ cleared cur) = ret ->
        ret <> SQLITE_ROW -> ret <> SQLITE_DONE ->
        exists cur',
          statement_vtab_filter cur idxStr argv = Some (ret, cur')
          /\ rowid cur' = 1
          /\ stmt cur' = Call_step :: bind_calls ps argv ++ cleared cur
          /\ param_argc cur' = param_argc cur
          /\ param_argv cur' = param_argv cur
          /\ bound_arguments cur' = bound_arguments cur)
  /\ bindings (cleared cur) = ∅.
Proof.
  split; [|split; [|done]].
  - intros vs1 v vs2 ps1 p ret Hn Hlen Ht Hacc Hret Hne.
    unfold statement_vtab_filter.
    rewrite length_app, length_cons in Hn.
    rewrite (bind_arguments_refused idxStr vs1 v vs2 ps1 p ret 0
               (cleared cur)); [|done|done|lia| |done|done|done].
    2:{ intros j q Hq. rewrite Z.add_0_l. by apply Ht. }
    cbn [mbind option_bind]. eexists. split; [reflexivity|]. done.
  - intros argv ps ret Hn Hlen Ht Hacc Hret Hrow Hdone.
    unfold statement_vtab_filter.
    rewrite (bind_arguments_accepted idxStr argv ps 0 (cleared cur));
      [|done|done|lia| |done].
    2:{ intros j p Hp. rewrite Z.add_0_l. by apply Ht. }
    cbn [mbind option_bind]. rewrite Hret.
    apply Z.eqb_neq in Hrow, Hdone. rewrite Hrow, Hdone. simpl.
    eexists. split; [reflexivity|]. done.
Qed.

(** C6.  [statement_vtab_column] on a cursor whose [param_argc] arguments
    are inside [param_argv]: below [num_outputs] the result is the
    statement's value of that column, handed over as it is; from
    [num_outputs] on it is the retained argument at [i - num_outputs] when
    there is one, and no result is set otherwise. *)
Theorem column_outputs_then_echo (cur : cursor) (i : Z) :
  0 <= num_outputs (pVtab cur) ->
  INT_MIN <= i <= INT_MAX ->
  0 <= param_argc cur <= Z.of_nat (length (param_argv cur)) ->
  let no := num_outputs (pVtab cur) in
  (i < no ->
   statement_vtab_column cur i
   = Some (SQLITE_OK, Some (sqlite3_column_value (stmt cur) i)))
  /\ (no <= i -> i - no < Z.of_nat (length (bound_arguments cur)) ->
      exists v,
        bound_arguments cur !! Z.to_nat (i - no) = Some v
        /\ statement_vtab_column cur i = Some (SQLITE_OK, Some v))
  /\ (no <= i -> Z.of_nat (length (bound_arguments cur)) <= i - no ->
      statement_vtab_column cur i = Some (SQLITE_OK, None)).
Proof.
  intros Hno Hi Hargc no.
  pose proof INT_MAX_pos as Hmax.
  assert (Hmin : INT_MIN <= 0) by (unfold INT_MIN, INT_MAX in *; lia).
  assert (Hlen : Z.of_nat (length (bound_arguments cur)) = param_argc cur).
  { unfold bound_arguments. rewrite length_take. lia. }
  rewrite Hlen. unfold statement_vtab_column. fold no.
  split; [|split].
  - intros Hlt. apply Z.ltb_lt in Hlt. by rewrite Hlt.
  - intros Hge Hin.
    destruct (Z.ltb_spec i no); [lia|].
    rewrite int_wrap_small by lia.
    destruct (Z.ltb_spec (i - no) (param_argc cur)); [|lia].
    rewrite decide_True by lia.
    destruct (lookup_lt_is_Some_2 (param_argv cur) (Z.to_nat (i - no)))
      as [v Hv]; [lia|].
    exists v. rewrite Hv. split; [|done].
    unfold bound_arguments. rewrite lookup_take_lt by lia. done.
  - intros Hge Hout.
    destruct (Z.ltb_spec i no); [lia|].
    rewrite int_wrap_small by lia.
    destruct (Z.ltb_spec (i - no) (param_argc cur)); [lia|]. done.
Qed.

End CursorClaims.

(** ** The cursor on a concrete engine *)

Example first_scan :
  statement_vtab_filter (H := LP64) opened_cursor None [Int 1; Int 2; Int 3]
  = Some (SQLITE_OK, scanned_cursor)
  /\ statement_vtab_column (H := LP64) scanned_cursor 0
     = Some (SQLITE_OK, Some (Int 6))
  /\ statement_vtab_eof scanned_cursor = false
  /\ statement_vtab_next (H := LP64) scanned_cursor
     = (SQLITE_OK,
        set_cursor scanned_cursor (Call_step :: stmt scanned_cursor) 1)
  /\ statement_vtab_eof (statement_vtab_next (H := LP64) scanned_cursor).2
     = true.
Proof. vm_compute. done. Qed.

(** The payload of [plan_sparse] handed to filter: the two arguments are
    bound at the positions 1 and 3. *)
Example sparse_scan :
  (fun r => (r.1, stmt r.2, bound_arguments r.2))
    <$> statement_vtab_filter (H := LP64) opened_cursor
          (Some [34; 33; 33; 33; 33; 33; 36; 33; 33; 33; 33; 33; 0])
          [Int 10; Int 30]
  = Some (SQLITE_OK,
          [Call_step; Call_bind_value 3 (Int 30); Call_bind_value 1 (Int 10);
           Call_clear_bindings; Call_reset],
          [Int 10; Int 30]).
Proof. vm_compute. reflexivity. Qed.

(** After the sparse scan the retained arguments are in argument order:
    hidden column 1 ([:a], bound) shows 10, hidden column 2 ([:b], not
    bound) shows the 30 that was bound to [:c], and hidden column 3 ([:c])
    shows nothing. *)
Example sparse_scan_echo :
  let cur :=
    {| pVtab := sum_table;
       stmt := [Call_step; Call_bind_value 3 (Int 30);
                Call_bind_value 1 (Int 10); Call_clear_bindings; Call_reset];
       rowid := 1; param_argc := 2;
       param_argv := [Int 10; Int 30; Null] |} in
  statement_vtab_filter (H := LP64) opened_cursor
    (Some [34; 33; 33; 33; 33; 33; 36; 33; 33; 33; 33; 33; 0])
    [Int 10; Int 30]
  = Some (SQLITE_OK, cur)
  /\ statement_vtab_column (H := LP64) cur 1 = Some (SQLITE_OK, Some (Int 10))
  /\ statement_vtab_column (H := LP64) cur 2 = Some (SQLITE_OK, Some (Int 30))
  /\ statement_vtab_column (H := LP64) cur 3 = Some (SQLITE_OK, None).
Proof. vm_compute. done. Qed.



(** On [scanned_cursor]: a text over the length limit is refused with
    [SQLITE_TOOBIG] after the first argument was bound, and the least 64-bit
    integer makes the step fail; both times the cursor still retains the
    arguments 1, 2 and 3 of the scan before. *)
Lemma filter_failure_keeps_arguments_witness :
  (exists cur',
     statement_vtab_filter (H := LP64) scanned_cursor None
       [Int 10; Text "far too long"; Int 30]
     = Some (SQLITE_TOOBIG, cur')
     /\ rowid cur' = 1
     /\ bound_arguments cur' = [Int 1; Int 2; Int 3])
  /\ (exists cur',
        statement_vtab_filter (H := LP64) scanned_cursor None
          [Int (- 2 ^ 63)]
        = Some (SQLITE_ERROR, cur')
        /\ rowid cur' = 1
        /\ bound_arguments cur' = [Int 1; Int 2; Int 3]).
Proof.
  destruct (filter_failure_keeps_arguments (H := LP64) scanned_cursor None)
    as (Hbind & Hstep & _).
  split.
  - destruct (Hbind [Int 10] (Text "far too long") [Int 30] [1] 2
                SQLITE_TOOBIG)
      as (cur' & E & Hrow & _ & _ & _ & Hargs).
    { by vm_compute. }
    { reflexivity. }
    { intros [|[|j]] q Hq; simpl in Hq; try done; by injection Hq as <-. }
    { simpl. done. }
    { reflexivity. }
    { done. }
    exists cur'. split; [exact E|]. split; [exact Hrow|]. by rewrite Hargs.
  - destruct (Hstep [Int (- 2 ^ 63)] [1] SQLITE_ERROR)
      as (cur' & E & Hrow & _ & _ & _ & Hargs).
    { by vm_compute. }
    { reflexivity. }
    { intros [|j] q Hq; simpl in Hq; try done; by injection Hq as <-. }
    { simpl. done. }
    { reflexivity. }
    { done. }
    { done. }
    exists cur'. split; [exact E|]. split; [exact Hrow|]. by rewrite Hargs.
Defined.

(** On [scanned_cursor]: column 0 is the row's value [abs 1 + 2 + 3],
    columns 1 to 3 show the retained arguments, and column 4 nothing. *)
Lemma column_outputs_then_echo_witness :
  statement_vtab_column (H := LP64) scanned_cursor 0
  = Some (SQLITE_OK, Some (Int 6))
  /\ statement_vtab_column (H := LP64) scanned_cursor 2
     = Some (SQLITE_OK, Some (Int 2))
  /\ statement_vtab_column (H := LP64) scanned_cursor 4
     = Some (SQLITE_OK, None).
Proof.
  assert (Hrange : forall i, 0 <= i <= 4 ->
            INT_MIN (H := LP64) <= i <= INT_MAX (H := LP64)).
  { intros i Hi. change (- 2147483648 <= i <= 2147483647). lia. }
  split; [|split].
  - destruct (column_outputs_then_echo (H := LP64) scanned_cursor 0)
      as (Hout & _ & _); [by vm_compute|apply Hrange; lia|by vm_compute|].
    apply Hout. by vm_compute.
  - destruct (column_outputs_then_echo (H := LP64) scanned_cursor 2)
      as (_ & Hecho & _); [by vm_compute|apply Hrange; lia|by vm_compute|].
    destruct Hecho as (v & Hv & E); [by vm_compute..|].
    vm_compute in Hv. injection Hv as <-. exact E.
  - destruct (column_outputs_then_echo (H := LP64) scanned_cursor 4)
      as (_ & _ & Hnone); [by vm_compute|apply Hrange; lia|by vm_compute|].
    apply Hnone; by vm_compute.
Defined.

(** ** The declared schema *)

Lemma append_cons c (s1 s2 : string) :
  String c s1 +:+ s2 = String c (s1 +:+ s2).
Proof. reflexivity. Qed.

Lemma append_assoc (s1 s2 s3 : string) :
  (s1 +:+ s2) +:+ s3 = s1 +:+ (s2 +:+ s3).
Proof.
  induction s1 as [|c s1 IH]; [done|]. by rewrite !append_cons, IH.
Qed.

Lemma append_empty_r (s : string) : s +:+ "" = s.
Proof. induction s as [|c s IH]; [done|]. by rewrite append_cons, IH. Qed.

Lemma render_columns_app ds1 ds2 :
  render_columns (ds1 ++ ds2) = render_columns ds1 +:+ render_columns ds2.
Proof.
  induction ds1 as [|d ds1 IH]; simpl; [done|].
  by rewrite IH, append_assoc.
Qed.

(** A decimal numeral has no quote to double. *)
Lemma double_quotes_pretty_N_go x : forall s,
  double_quotes s = s -> double_quotes (pretty_N_go x s) = pretty_N_go x s.
Proof.
  induction (N.lt_wf_0 x) as [x _ IH]; intros s Hs.
  destruct (decide (x = 0)%N) as [->|Hx]; [by rewrite pretty_N_go_0|].
  rewrite pretty_N_go_step by lia. apply IH.
  - apply N.div_lt; lia.
  - cbn [double_quotes].
    assert (Ascii.eqb (pretty_N_char (x `mod` 10)) "'" = false) as ->.
    { unfold pretty_N_char. by repeat case_match. }
    by rewrite Hs.
Qed.

Lemma double_quotes_pretty (z : Z) : double_quotes (pretty z) = pretty z.
Proof.
  assert (HN : forall p, double_quotes (pretty (N.pos p)) = pretty (N.pos p)).
  { intros p. unfold pretty, pretty_N. rewrite decide_False by done.
    by apply double_quotes_pretty_N_go. }
  destruct z as [|p|p]; [done|apply HN|].
  change (pretty (Z.neg p)) with (String "-" (pretty (N.pos p))).
  cbn [double_quotes]. change (Ascii.eqb "-" "'") with false. cbn iota.
  f_equal. apply HN.
Qed.

Lemma seqZ_to_nat m len : seqZ m (Z.of_nat (Z.to_nat len)) = seqZ m len.
Proof. unfold seqZ. by rewrite Nat2Z.id. Qed.

Section SchemaFacts.
Context `{Builder}.

(** Appends on a builder in error do nothing. *)
Lemma appendall_error ts : foldl sqlite3_str_appendall None ts = None.
Proof. by induction ts. Qed.

(** A run of appends of columns: the content grows by their rendering, or
    the builder ends in error. *)
Lemma appendall_columns ds : forall s,
  foldl sqlite3_str_appendall (Some s) (render_column <$> ds)
  = if accepts s (render_column <$> ds) then Some (s +:+ render_columns ds)
    else None.
Proof.
  induction ds as [|d ds IH]; intros s.
  - simpl. by rewrite append_empty_r.
  - rewrite fmap_cons. cbn [foldl accepts sqlite3_str_appendall render_columns].
    destruct (str_append_ok s (render_column d)); cbn [andb].
    + rewrite IH. by rewrite append_assoc.
    + apply appendall_error.
Qed.

Lemma append_outputs_spec stmt n : forall i sql,
  (forall k, i <= k < i + Z.of_nat n ->
     is_Some (sqlite3_column_name stmt k)) ->
  append_outputs stmt n i sql
  = Some (foldl sqlite3_str_appendall sql
            (render_column <$> (output_decl stmt <$> seqZ i (Z.of_nat n)))).
Proof.
  induction n as [|n IH]; intros i sql Hnames; [done|].
  cbn [append_outputs].
  destruct (Hnames i ltac:(lia)) as [name Hname]. rewrite Hname.
  rewrite IH by (intros k Hk; apply Hnames; lia).
  rewrite (seqZ_cons i) by lia. rewrite !fmap_cons. cbn [foldl].
  replace (Z.pred (Z.of_nat (S n))) with (Z.of_nat n) by lia.
  replace (Z.succ i) with (i + 1) by lia.
  unfold render_column at 2, output_decl at 3 4 5. simpl. by rewrite Hname.
Qed.

Lemma append_outputs_fails stmt n : forall i sql,
  (exists k, i <= k < i + Z.of_nat n /\ sqlite3_column_name stmt k = None) ->
  append_outputs stmt n i sql = None.
Proof.
  induction n as [|n IH]; intros i sql (k & Hk & Hnone); [lia|].
  cbn [append_outputs].
  destruct (sqlite3_column_name stmt i) as [name|] eqn:Hname; [|done].
  apply IH. exists k. split; [|done].
  destruct (decide (k = i)) as [->|]; [congruence|lia].
Qed.

(** The text the second loop appends for parameter [j]. *)
Lemma input_text stmt j sql :
  match sqlite3_bind_parameter_name stmt j with
  | Some name =>
      sqlite3_str_appendall sql (fmt_Q (skip_char name) +:+ " hidden,")
  | None => sqlite3_str_appendall sql ("'" +:+ pretty j +:+ "' hidden,")
  end
  = sqlite3_str_appendall sql (render_column (input_decl stmt j)).
Proof.
  unfold render_column, input_decl. simpl.
  destruct (sqlite3_bind_parameter_name stmt j) as [name|]; [done|].
  f_equal. unfold fmt_Q. rewrite double_quotes_pretty.
  by rewrite !append_assoc.
Qed.

Lemma append_inputs_spec stmt n : forall i sql,
  append_inputs stmt n i sql
  = foldl sqlite3_str_appendall sql
      (render_column <$> (input_decl stmt <$> seqZ (i + 1) (Z.of_nat n))).
Proof.
  induction n as [|n IH]; intros i sql; [done|].
  cbn [append_inputs]. rewrite input_text, IH.
  rewrite (seqZ_cons (i + 1)) by lia. rewrite !fmap_cons. cbn [foldl].
  replace (Z.pred (Z.of_nat (S n))) with (Z.of_nat n) by lia.
  by replace (Z.succ (i + 1)) with (i + 1 + 1) by lia.
Qed.

(** [build_create_statement] on a statement whose result columns all have
    names: the rendering of the declared columns, or a null pointer when the
    builder fails. *)
Lemma build_create_statement_spec stmt :
  (forall i, 0 <= i < sqlite3_column_count stmt ->
     is_Some (sqlite3_column_name stmt i)) ->
  build_create_statement stmt
  = if builds stmt then Some (render_schema (declared_columns stmt)) else None.
Proof.
  intros Hnames. unfold build_create_statement, builds.
  rewrite append_outputs_spec by (intros k Hk; apply Hnames; lia).
  cbn [mbind option_bind]. rewrite append_inputs_spec.
  rewrite <- foldl_app, <- fmap_app, !seqZ_to_nat. change (0 + 1) with 1.
  fold (declared_columns stmt).
  unfold sqlite3_str_new. destruct str_new_ok; cbn [andb].
  2:{ cbn [sqlite3_str_appendall]. by rewrite appendall_error. }
  cbn [sqlite3_str_appendall accepts].
  change ("" +:+ "CREATE TABLE x( ") with "CREATE TABLE x( ".
  destruct (str_append_ok "" "CREATE TABLE x( "); cbn [andb].
  2:{ by rewrite appendall_error. }
  rewrite appendall_columns.
  destruct (accepts "CREATE TABLE x( "
              (render_column <$> declared_columns stmt)); [|done].
  unfold render_schema. rewrite !append_cons. done.
Qed.

Lemma build_create_statement_unnamed stmt :
  (exists i, 0 <= i < sqlite3_column_count stmt
             /\ sqlite3_column_name stmt i = None) ->
  build_create_statement stmt = None.
Proof.
  intros (i & Hi & Hnone). unfold build_create_statement.
  rewrite append_outputs_fails; [done|].
  exists i. split; [|done]. lia.
Qed.

(** Either every result column has a name or one of them has none. *)
Lemma names_or_not stmt :
  (forall i, 0 <= i < sqlite3_column_count stmt ->
     is_Some (sqlite3_column_name stmt i))
  \/ (exists i, 0 <= i < sqlite3_column_count stmt
                /\ sqlite3_column_name stmt i = None).
Proof.
  destruct (decide (Forall (fun i => is_Some (sqlite3_column_name stmt i))
                      (seqZ 0 (sqlite3_column_count stmt)))) as [Hall|Hnot].
  - left. intros i Hi. rewrite Forall_forall in Hall. apply Hall.
    apply elem_of_seqZ. lia.
  - right. apply not_Forall_Exists in Hnot; [|apply _].
    apply Exists_exists in Hnot as (i & Hi & Hnone).
    apply elem_of_seqZ in Hi. exists i. split; [lia|].
    by apply eq_None_not_Some.
Qed.

(** C7.  When the library gives every result column a name and the string
    builder does not fail, the declared statement is the rendering of the
    column list that has result column [i] (name, declared type or the empty
    text) at index [i], for every [i] below the column count, and after all
    of them the hidden column of parameter [j] (its name without the leading
    marker, or [j] in decimal when it has none) for [j] from 1 to the
    parameter count.  When some result column has no name, or when the
    builder fails, no statement is built; so whatever is built is that
    rendering. *)
Theorem build_create_statement_declares (stmt : sqlite3_stmt) :
  let nout := sqlite3_column_count stmt in
  let nargs := sqlite3_bind_parameter_count stmt in
  ((forall i, 0 <= i < nout -> is_Some (sqlite3_column_name stmt i)) ->
   builds stmt = true ->
   build_create_statement stmt
   = Some (render_schema (declared_columns stmt)))
  /\ ((exists i, 0 <= i < nout /\ sqlite3_column_name stmt i = None) ->
      build_create_statement stmt = None)
  /\ (builds stmt = false -> build_create_statement stmt = None)
  /\ (forall create,
        build_create_statement stmt = Some create ->
        create = render_schema (declared_columns stmt))
  /\ (forall i, 0 <= i < nout ->
        declared_columns stmt !! Z.to_nat i = Some (output_decl stmt i))
  /\ (forall j, 1 <= j <= nargs ->
        declared_columns stmt !! Z.to_nat (Z.max 0 nout + j - 1)
        = Some (input_decl stmt j))
  /\ Z.of_nat (length (declared_columns stmt))
     = Z.max 0 nout + Z.max 0 nargs.
Proof.
  intros nout nargs.
  assert (Hlen_out : length (output_decl stmt <$> seqZ 0 nout)
                     = Z.to_nat nout)
    by (by rewrite length_fmap, length_seqZ).
  split; [|split; [|split; [|split; [|split; [|split]]]]].
  - intros Hnames Hb. by rewrite build_create_statement_spec, Hb.
  - apply build_create_statement_unnamed.
  - intros Hb. destruct (names_or_not stmt) as [Hnames|Hmiss].
    + by rewrite build_create_statement_spec, Hb.
    + by apply build_create_statement_unnamed.
  - intros create Hc. destruct (names_or_not stmt) as [Hnames|Hmiss].
    + rewrite build_create_statement_spec in Hc by done.
      destruct (builds stmt); congruence.
    + by rewrite build_create_statement_unnamed in Hc.
  - intros i Hi. unfold declared_columns. fold nout nargs.
    rewrite lookup_app_l by lia.
    rewrite list_lookup_fmap, lookup_seqZ_lt by lia. simpl.
    do 2 f_equal. lia.
  - intros j Hj. unfold declared_columns. fold nout nargs.
    rewrite lookup_app_r by lia.
    rewrite list_lookup_fmap, lookup_seqZ_lt by lia. simpl.
    do 2 f_equal. lia.
  - unfold declared_columns. fold nout nargs.
    rewrite length_app, !length_fmap, !length_seqZ. lia.
Qed.

End SchemaFacts.

(** The statement with the columns [a], [b] and the parameters [:x], [:y]:
    with a builder that does not fail, the four columns in that order; with
    one that has no room for the second column, nothing. *)
Lemma build_create_statement_declares_witness :
  build_create_statement two_by_two
  = Some "CREATE TABLE x( 'a' ,'b' ,'x' hidden,'y' hidden)"
  /\ declared_columns two_by_two
     = [ {| decl_name := "a"; decl_type := ""; decl_hidden := false |};
         {| decl_name := "b"; decl_type := ""; decl_hidden := false |};
         {| decl_name := "x"; decl_type := ""; decl_hidden := true |};
         {| decl_name := "y"; decl_type := ""; decl_hidden := true |} ]
  /\ build_create_statement (H := cramped) two_by_two = None.
Proof.
  destruct (build_create_statement_declares (H := sturdy) two_by_two)
    as (Hbuild & _).
  destruct (build_create_statement_declares (H := cramped) two_by_two)
    as (_ & _ & Hfail & _).
  split; [|split; [by vm_compute|by apply Hfail]].
  rewrite Hbuild; [by vm_compute| |reflexivity].
  intros i Hi. change (sqlite3_column_count two_by_two) with 2 in Hi.
  assert (i = 0 \/ i = 1) as [-> | ->] by lia; by eexists.
Defined.

(** A declared type, a quote inside a name, and a parameter without a
    name between two named ones. *)
Example build_create_statement_quoting :
  build_create_statement
    {| sqlite3_column_count := 1;
       sqlite3_column_name := fun _ => Some "it's";
       sqlite3_column_decltype := fun _ => Some "INT";
       sqlite3_bind_parameter_count := 3;
       sqlite3_bind_parameter_name := fun j =>
         if j =? 1 then Some "$who" else if j =? 3 then Some "@n" else None;
       sqlite3_stmt_readonly := true |}
  = Some "CREATE TABLE x( 'it''s' INT,'who' hidden,'2' hidden,'n' hidden)".
Proof. vm_compute. reflexivity. Qed.

(** A statement without columns and parameters. *)
Example build_create_statement_empty :
  build_create_statement null_stmt = Some "CREATE TABLE x()".
Proof. vm_compute. reflexivity. Qed.

(** Without a name for a result column nothing is built. *)
Example build_create_statement_no_name :
  build_create_statement
    {| sqlite3_column_count := 2;
       sqlite3_column_name := fun i => if i =? 0 then Some "a" else None;
       sqlite3_column_decltype := fun _ => None;
       sqlite3_bind_parameter_count := 0;
       sqlite3_bind_parameter_name := fun _ => None;
       sqlite3_stmt_readonly := true |}
  = None.
Proof. vm_compute. reflexivity. Qed.

(** ** Table creation *)

Section CreateFacts.
Context `{Platform} `{Allocator} `{Connection} `{Builder}.

(** Everything [statement_vtab_create] allocated is released when it
    fails, and the mutex is never held at a return; after a success the table
    and its text remain. *)
Lemma create_releases argv ppVtab :
  let r := statement_vtab_create argv ppVtab in
  (created_ret r <> SQLITE_OK -> created_held r = [])
  /\ (created_ret r = SQLITE_OK ->
      created_held r = [The_sql; The_vtab] /\ is_Some (created_vtab r)).
Proof.
  unfold statement_vtab_create, misuse, create_sqlite_error, create_error,
    statement_vtab_destroy.
  repeat case_match; simplify_eq/=; unfold release; simpl;
    repeat case_decide; simpl; try done;
    split; try done; intros; simplify_eq/=;
    repeat match goal with
           | E : negb (?x =? SQLITE_OK) = true |- _ =>
               apply negb_true_iff, Z.eqb_neq in E
           end; try done; eauto.
Qed.

End CreateFacts.

Section CreateClaim.
Context `{Platform} `{Allocator} `{Connection} `{Builder}.

Lemma parenthesized_test arg :
  (3 <= String.length arg)%nat ->
  negb (bool_decide (String.get 0 arg = Some "("%char))
  || negb (bool_decide
             (String.get (Z.to_nat (Z.of_nat (String.length arg) - 1)) arg
              = Some ")"%char)) = false
  <-> parenthesized arg.
Proof.
  intros Hlen. unfold parenthesized.
  replace (Z.to_nat (Z.of_nat (String.length arg) - 1))
    with (String.length arg - 1)%nat by lia.
  rewrite orb_false_iff, !negb_false_iff, !bool_decide_eq_true. tauto.
Qed.

(** C8, as the code has it.  Only the first module argument is read:
    creation with other arguments after it behaves the same.  When it is
    missing or shorter than three characters, creation returns
    [SQLITE_MISUSE] with the message "no statement provided"; when it is not
    between parentheses, [SQLITE_MISUSE] with "statement must be
    parenthesized"; in both cases nothing was allocated and [*ppVtab] is left
    as it was.  When the statement compiles and is not read-only, creation
    returns [SQLITE_ERROR] with "Statement must be read only.", frees the
    table and sets [*ppVtab] to null.  [SQLITE_NOMEM] stands for each of these
    codes when the message cannot be allocated.  Whenever creation does not
    return [SQLITE_OK], nothing it allocated is still held. *)
Theorem create_reports_definition_errors argv ppVtab :
  let r := statement_vtab_create argv ppVtab in
  (forall argv',
     (4 <= length argv)%nat -> (4 <= length argv')%nat ->
     argv' !! 3%nat = argv !! 3%nat ->
     statement_vtab_create argv' ppVtab = r)
  /\ ((length argv < 4)%nat
      \/ (exists arg, argv !! 3%nat = Some arg /\ (String.length arg < 3)%nat) ->
      r = misuse "no statement provided" ppVtab)
  /\ (forall arg,
        (4 <= length argv)%nat -> argv !! 3%nat = Some arg ->
        (3 <= String.length arg)%nat -> ~ parenthesized arg ->
        r = misuse "statement must be parenthesized" ppVtab)
  /\ (forall msg,
        created_vtab (misuse msg ppVtab) = ppVtab
        /\ created_held (misuse msg ppVtab) = []
        /\ match sqlite3_mprintf msg with
           | Some m => created_ret (misuse msg ppVtab) = SQLITE_MISUSE
                       /\ created_err (misuse msg ppVtab) = Some m
           | None => created_ret (misuse msg ppVtab) = SQLITE_NOMEM
           end)
  /\ (forall arg text stmt,
        (4 <= length argv)%nat -> argv !! 3%nat = Some arg ->
        parenthesized arg ->
        Z.of_nat (String.length arg) <= INT_MAX ->
        malloc_vtab = true ->
        sqlite3_mprintf (substring 1 (String.length arg - 2) arg)
        = Some text ->
        sqlite3_prepare_v2 text (Z.of_nat (String.length arg) - 2)
        = (SQLITE_OK, Some stmt) ->
        sqlite3_stmt_readonly stmt = false ->
        created_vtab r = None
        /\ created_held r = []
        /\ match sqlite3_mprintf "Statement must be read only." with
           | Some m => created_ret r = SQLITE_ERROR /\ created_err r = Some m
           | None => created_ret r = SQLITE_NOMEM
           end)
  /\ (created_ret r <> SQLITE_OK -> created_held r = []).
Proof.
  intros r. subst r.
  split; [|split; [|split; [|split; [|split]]]].
  - intros argv' Hn Hn' Heq. unfold statement_vtab_create.
    destruct (Z.ltb_spec (Z.of_nat (length argv)) 4); [lia|].
    destruct (Z.ltb_spec (Z.of_nat (length argv')) 4); [lia|].
    by rewrite Heq.
  - intros Hshort. unfold statement_vtab_create.
    destruct (Z.ltb_spec (Z.of_nat (length argv)) 4) as [|Hge]; [done|].
    destruct Hshort as [?|(arg & Harg & Hlen)]; [lia|].
    rewrite Harg.
    destruct (Z.ltb_spec (Z.of_nat (String.length arg)) 3); [done|lia].
  - intros arg Hn Harg Hlen Hnp. unfold statement_vtab_create.
    destruct (Z.ltb_spec (Z.of_nat (length argv)) 4); [lia|].
    rewrite Harg.
    destruct (Z.ltb_spec (Z.of_nat (String.length arg)) 3); [lia|].
    destruct (_ || _) eqn:Ep; [done|].
    apply parenthesized_test in Ep; done.
  - intros msg. unfold misuse. by destruct (sqlite3_mprintf msg).
  - intros arg text stmt Hn Harg Hp Hmax Hvt Htext Hprep Hro.
    pose proof Hp as (Hlen & _ & _).
    apply parenthesized_test in Hp; [|done].
    unfold statement_vtab_create.
    destruct (Z.ltb_spec (Z.of_nat (length argv)) 4); [lia|].
    rewrite Harg.
    destruct (Z.ltb_spec (Z.of_nat (String.length arg)) 3); [lia|].
    rewrite Hp, Hvt. cbn [negb].
    pose proof INT_MAX_le_SIZE_MAX as Hsz. fold INT_MAX in Hsz.
    pose proof INT_MAX_pos as Hpos.
    assert (Hmin : INT_MIN <= 0) by (unfold INT_MIN, INT_MAX in *; lia).
    rewrite size_wrap_small by lia.
    replace (Z.to_nat (Z.of_nat (String.length arg) - 2))
      with (String.length arg - 2)%nat by lia.
    rewrite Htext, int_wrap_small by lia.
    rewrite Hprep. change (SQLITE_OK =? SQLITE_OK) with true.
    change (default null_stmt (Some stmt)) with stmt. rewrite Hro.
    cbn [negb]. unfold create_error, statement_vtab_destroy.
    destruct (sqlite3_mprintf "Statement must be read only."); by vm_compute.
  - apply create_releases.
Qed.

End CreateClaim.

(** ** Table creation on a concrete connection *)

(** [create virtual table t using statement((select ...))]: the table keeps
    the text without the parentheses and the two counts. *)
Example create_succeeds :
  statement_vtab_create (H := LP64) (H0 := plentiful)
    ["statement"; "main"; "t"; "(select a, b from u where x = :x and y = :y)"]
    None
  = {| created_ret := SQLITE_OK;
       created_vtab :=
         Some {| zErrMsg := None;
                 sql := "select a, b from u where x = :x and y = :y";
                 sql_len := 42; num_inputs := 2; num_outputs := 2 |};
       created_err := None;
       created_held := [The_sql; The_vtab] |}.
Proof. vm_compute. reflexivity. Qed.

(** A text the connection cannot compile: its code and message are passed
    on, and nothing stays allocated. *)
Example create_passes_on_errors :
  statement_vtab_create (H := LP64) (H0 := plentiful)
    ["statement"; "main"; "t"; "(selec 1)"] None
  = {| created_ret := SQLITE_ERROR; created_vtab := None;
       created_err := Some "syntax error"; created_held := [] |}.
Proof. vm_compute. reflexivity. Qed.

(** Without memory for the table nothing else happens. *)
Example create_no_memory :
  statement_vtab_create (H := LP64) (H0 := exhausted)
    ["statement"; "main"; "t"; "(select 1)"] None
  = {| created_ret := SQLITE_NOMEM; created_vtab := None;
       created_err := None; created_held := [] |}.
Proof. vm_compute. reflexivity. Qed.

(** C8, as stated, fails twice.  A second module argument is not a
    definition error: the table is created from the first argument.  And a
    statement that is not read-only is reported with [SQLITE_ERROR], not with
    the [SQLITE_MISUSE] of the usage errors. *)
Lemma create_accepts_more_arguments_and_reports_error :
  created_ret
    (statement_vtab_create (H := LP64) (H0 := plentiful)
       ["statement"; "main"; "t"; "(select a, b from u)"; "(select 1)"; "x"]
       None)
  = SQLITE_OK
  /\ created_ret
       (statement_vtab_create (H := LP64) (H0 := plentiful)
          ["statement"; "main"; "t"; "(delete from u)"] None)
     = SQLITE_ERROR
  /\ SQLITE_ERROR <> SQLITE_MISUSE.
Proof. vm_compute. done. Qed.

Lemma create_reports_definition_errors_witness :
  statement_vtab_create (H := LP64) (H0 := plentiful)
    ["statement"; "main"; "t"] None
  = {| created_ret := SQLITE_MISUSE; created_vtab := None;
       created_err := Some "no statement provided"; created_held := [] |}
  /\ statement_vtab_create (H := LP64) (H0 := plentiful)
       ["statement"; "main"; "t"; "()"] None
     = {| created_ret := SQLITE_MISUSE; created_vtab := None;
          created_err := Some "no statement provided"; created_held := [] |}
  /\ statement_vtab_create (H := LP64) (H0 := plentiful)
       ["statement"; "main"; "t"; "select 1"] None
     = {| created_ret := SQLITE_MISUSE; created_vtab := None;
          created_err := Some "statement must be parenthesized";
          created_held := [] |}
  /\ (let r := statement_vtab_create (H := LP64) (H0 := plentiful)
                 ["statement"; "main"; "t"; "(delete from u)"] None in
      created_vtab r = None /\ created_held r = []
      /\ created_ret r = SQLITE_ERROR
      /\ created_err r = Some "Statement must be read only.").
Proof.
  split; [|split; [|split]].
  - destruct (create_reports_definition_errors (H := LP64) (H0 := plentiful)
                ["statement"; "main"; "t"] None) as (_ & Hshort & _).
    rewrite Hshort; [reflexivity|]. left. simpl. lia.
  - destruct (create_reports_definition_errors (H := LP64) (H0 := plentiful)
                ["statement"; "main"; "t"; "()"] None) as (_ & Hshort & _).
    rewrite Hshort; [reflexivity|]. right. exists "()". simpl. split; [done|lia].
  - destruct (create_reports_definition_errors (H := LP64) (H0 := plentiful)
                ["statement"; "main"; "t"; "select 1"] None)
      as (_ & _ & Hparen & _).
    rewrite (Hparen "select 1"); [reflexivity|simpl; lia|done|simpl; lia|].
    intros (_ & Hopen & _). discriminate Hopen.
  - destruct (create_reports_definition_errors (H := LP64) (H0 := plentiful)
                ["statement"; "main"; "t"; "(delete from u)"] None)
      as (_ & _ & _ & _ & Hwrite & _).
    destruct (Hwrite "(delete from u)" "delete from u" writing_stmt)
      as (Hv & Hh & Hr & He);
      [simpl; lia|done|split; [simpl; lia|split; reflexivity]
      |by vm_compute|done..|].
    cbv zeta. done.
Defined.

(** ** More arguments than parameters *)

(** Two equalities on the same hidden column are both accepted, so a plan
    can carry more arguments than the statement has parameters: here four
    for the three parameters of [sum_table].  The filter call that follows
    binds and steps, and then its assertion [num_inputs >= argc] fails (with
    assertions disabled the [memcpy] writes a fourth entry into the three of
    [param_argv]): the model has no result for it. *)
Example repeated_column_exceeds_arguments :
  (fun r => (r.1.1, argvIndex <$> aConstraintUsage r.2, idxStr r.2))
    <$> statement_vtab_best_index (H := LP64) (H0 := plentiful) sum_table
          (fresh_index_info [equality 1; equality 1; equality 2; equality 3])
  = Some (SQLITE_OK, [1; 2; 3; 4],
          Some [34; 33; 33; 33; 33; 33; 34; 33; 33; 33; 33; 33;
                35; 33; 33; 33; 33; 33; 36; 33; 33; 33; 33; 33; 0])
  /\ bind_arguments (H := LP64)
       (Some [34; 33; 33; 33; 33; 33; 34; 33; 33; 33; 33; 33;
              35; 33; 33; 33; 33; 33; 36; 33; 33; 33; 33; 33; 0])
       0 [Int 5; Int 6; Int 7; Int 8] (cleared opened_cursor)
     = Some (Fallthrough,
             [Call_bind_value 3 (Int 8); Call_bind_value 2 (Int 7);
              Call_bind_value 1 (Int 6); Call_bind_value 1 (Int 5);
              Call_clear_bindings; Call_reset])
  /\ statement_vtab_filter (H := LP64) opened_cursor
       (Some [34; 33; 33; 33; 33; 33; 34; 33; 33; 33; 33; 33;
              35; 33; 33; 33; 33; 33; 36; 33; 33; 33; 33; 33; 0])
       [Int 5; Int 6; Int 7; Int 8]
     = None.
Proof. vm_compute. done. Qed.

(** ** From the plan to the bindings *)

Section PlanThenFilter.
Context {sqlite3_value : Type}.
Context `{Platform} `{Allocator} `{Engine sqlite3_value}.

(** A mapped plan and the filter call that reads its payload: when the
    arguments are the values of the accepted constraints in constraint order
    (the order of their [argvIndex]), each is bound at the parameter position
    of its own constraint, [col_index+1]. *)
Theorem mapped_plan_binds_at_parameter_positions vtab info buf
    (cur : statement_cursor sqlite3_value) argv :
  planner_input vtab info ->
  rejected (num_outputs vtab) (aConstraint info) = false ->
  let cols := accepted_cols (num_outputs vtab) (aConstraint info) in
  let n := Z.of_nat (length cols) in
  let ps := (fun c => c + 1) <$> cols in
  ~ (cols = [] \/ contiguous cols) ->
  n <= (SIZE_MAX - 1) / param_idx_size ->
  sqlite3_malloc64 (n * param_idx_size + 1) = Some buf ->
  pVtab cur = vtab ->
  length argv = length cols ->
  n <= num_inputs vtab ->
  (length argv <= length (param_argv cur))%nat ->
  binds_accepted (cleared cur) ps argv ->
  exists info' ret cur',
    statement_vtab_best_index vtab info = Some (SQLITE_OK, vtab, info')
    /\ statement_vtab_filter cur (idxStr info') argv = Some (ret, cur')
    /\ stmt cur' = Call_step :: bind_calls ps argv ++ cleared cur
    /\ bindings (stmt cur')
       = foldl (fun m pv => <[pv.1 := pv.2]> m) ∅ (zip ps argv).
Proof.
  intros Hin Hrej cols n ps Hnc Hn Hm Hvt Hlen Hni Hcap Hacc.
  assert (Ht : contiguous_test (track_cols scan_start cols) = false).
  { destruct (contiguous_test (track_cols scan_start cols)) eqn:Ht; [|done].
    apply (contiguous_test_spec cols (accepted_cols_nonneg _ _)) in Ht.
    done. }
  destruct (best_index_mapped vtab info buf Hin Hrej Ht Hn Hm)
    as (payload & E & Lp & Hfit & _ & Hh).
  fold cols n in Lp, Hfit, Hh.
  pose proof (input_inputs _ _ Hin) as Himax.
  pose proof (accepted_cols_nonneg (num_outputs vtab) (aConstraint info))
    as Hnn.
  pose proof (accepted_cols_bound _ _ _ (input_columns _ _ Hin)) as Hlt.
  fold cols in Hnn, Hlt. rewrite Forall_forall in Hnn, Hlt.
  destruct (filter_accepted cur (Some payload) argv ps)
    as (cur' & Ef & _ & Hs & Hb & _).
  { rewrite Hvt, Hlen. done. }
  { by rewrite Hvt. }
  { done. }
  { unfold ps. by rewrite length_fmap. }
  { intros j p Hp. unfold ps in Hp. rewrite list_lookup_fmap in Hp.
    destruct (cols !! j) as [x|] eqn:Hx; [|done]. injection Hp as <-.
    assert (x ∈ cols) as Hx_in by (by eapply list_elem_of_lookup_2).
    specialize (Hnn x Hx_in). specialize (Hlt x Hx_in).
    apply holds_decode; [by apply Hh|lia|lia|lia]. }
  { done. }
  eexists _, _, cur'. split; [exact E|]. split; [exact Ef|]. done.
Qed.

End PlanThenFilter.

(** Hidden columns 2 and 0 of [sum_table], in that order, with the values
    30 and 10: the statement ends with [:c] bound to 30 and [:a] to 10. *)
Lemma mapped_plan_binds_at_parameter_positions_witness :
  exists info' cur',
    statement_vtab_best_index (H := LP64) (H0 := plentiful) sum_table
      (fresh_index_info [equality 3; less_than 0; equality 1])
    = Some (SQLITE_OK, sum_table, info')
    /\ statement_vtab_filter (H := LP64) opened_cursor (idxStr info')
         [Int 30; Int 10]
       = Some (SQLITE_OK, cur')
    /\ stmt cur'
       = [Call_step; Call_bind_value 1 (Int 10); Call_bind_value 3 (Int 30);
          Call_clear_bindings; Call_reset].
Proof.
  assert (Hin : planner_input (H := LP64) sum_table
                  (fresh_index_info [equality 3; less_than 0; equality 1])).
  { concrete_input. }
  destruct (mapped_plan_binds_at_parameter_positions
              (H := LP64) (H0 := plentiful) sum_table _ (replicate 13 170)
              opened_cursor [Int 30; Int 10] Hin eq_refl)
    as (info' & ret & cur' & E & Ef & Hs & _).
  { not_contiguous. }
  { by vm_compute. }
  { by vm_compute. }
  { reflexivity. }
  { reflexivity. }
  { by vm_compute. }
  { simpl. lia. }
  { simpl. done. }
  exists info', cur'. split; [exact E|]. split; [|exact Hs].
  vm_compute in E. injection E as <-.
  rewrite Ef. vm_compute in Ef. injection Ef as <- _. reflexivity.
Defined.

(** * Further properties *)

(** ** The planner: every outcome *)

Lemma scan_constraints_length `{Platform} no cs : forall us st e st' us',
  scan_constraints no cs us st = Some (e, st', us') ->
  length us' = length us.
Proof.
  induction cs as [|c cs IH]; intros us st e st' us' E.
  - simpl in E. by simplify_eq.
  - destruct us as [|u us]; [done|]. cbn [scan_constraints] in E.
    destruct (passed_over no c).
    + destruct (scan_constraints no cs us st) as [[[e1 st1] us1]|] eqn:E1;
        [|done].
      simpl in E. simplify_eq. simpl. f_equal. by eapply IH.
    + destruct (unbindable c); [by simplify_eq|].
      match type of E with
      | context [scan_constraints no cs us ?s] =>
          destruct (scan_constraints no cs us s) as [[[e1 st1] us1]|] eqn:E1;
            [|done]
      end.
      simpl in E. simplify_eq. simpl. f_equal. by eapply IH.
Qed.

Lemma col_max_of_Permutation cols cols' :
  cols ≡ₚ cols' -> col_max_of cols = col_max_of cols'.
Proof.
  induction 1 as [|x l l' _ IH|x y l|l l' l'' _ IH1 _ IH2]; simpl;
    [done|by rewrite IH|lia|congruence].
Qed.

Lemma contiguous_Permutation cols cols' :
  cols ≡ₚ cols' -> contiguous cols -> contiguous cols'.
Proof.
  intros Hp (Hne & Hin & Hlen & Hmax). unfold contiguous.
  rewrite <- (col_max_of_Permutation _ _ Hp).
  split; [|split; [|split]].
  - intros ->. by apply Permutation_nil_r in Hp.
  - intros n. by rewrite <- Hp.
  - by rewrite <- Hp.
  - done.
Qed.

Lemma accepted_cols_Permutation no cs cs' :
  cs ≡ₚ cs' -> accepted_cols no cs ≡ₚ accepted_cols no cs'.
Proof.
  induction 1 as [|x l l' _ IH|x y l|l l' l'' _ IH1 _ IH2]; simpl.
  - done.
  - destruct (passed_over no x); by rewrite IH.
  - destruct (passed_over no x), (passed_over no y); try done. apply perm_swap.
  - by etrans.
Qed.

Lemma rejected_Permutation no cs cs' :
  cs ≡ₚ cs' -> rejected no cs = rejected no cs'.
Proof.
  unfold rejected.
  induction 1 as [|x l l' _ IH|x y l|l l' l'' _ IH1 _ IH2]; simpl;
    [done|by rewrite IH|by rewrite !orb_assoc, (orb_comm (_ && _))|congruence].
Qed.

(** A list that holds exactly [0], ..., [m-1] and has [m] entries holds
    each once. *)
Lemma contiguous_seqZ cols :
  contiguous cols -> cols ≡ₚ seqZ 0 (Z.of_nat (length cols)).
Proof.
  intros (_ & Hin & Hlen & _). symmetry.
  apply submseteq_length_Permutation.
  - apply NoDup_submseteq; [apply NoDup_seqZ|].
    intros x Hx. apply elem_of_seqZ in Hx. apply Hin. lia.
  - rewrite length_seqZ. lia.
Qed.

(** The second loop numbers the marked entries from [k+1] on. *)
Lemma marked_renumber us : forall k,
  0 <= k ->
  marked (renumber k us) = seqZ (k + 1) (Z.of_nat (length (marked us))).
Proof.
  induction us as [|u us IH]; intros k Hk; [done|]. simpl.
  destruct (argvIndex u =? 0) eqn:E; simpl.
  - rewrite E. by apply IH.
  - destruct (Z.eqb_spec (k + 1) 0); [lia|].
    rewrite IH by lia.
    replace (Z.of_nat (S (length (marked us))))
      with (Z.succ (Z.of_nat (length (marked us)))) by lia.
    rewrite (seqZ_cons (k + 1)) by lia. f_equal. f_equal; lia.
Qed.

Section PlannerOutcomes.
Context `{Platform} `{Allocator}.

Lemma contiguous_test_cols vtab info :
  let cols := accepted_cols (num_outputs vtab) (aConstraint info) in
  contiguous_test (track_cols scan_start cols) = true
  <-> cols = [] \/ contiguous cols.
Proof. intros cols. apply contiguous_test_spec, accepted_cols_nonneg. Qed.

(** The return from inside the first loop. *)
Lemma planner_rejected vtab info :
  planner_input vtab info ->
  rejected (num_outputs vtab) (aConstraint info) = true ->
  exists us',
    statement_vtab_best_index vtab info
    = Some (SQLITE_CONSTRAINT, vtab, set_usage (set_estimates info) us')
    /\ length us' = length (aConstraint info).
Proof.
  intros Hin Hrej.
  pose proof (input_usage_length _ _ Hin) as Hlen.
  unfold statement_vtab_best_index.
  destruct (scan_constraints_rejects (num_outputs vtab) (aConstraint info)
              (aConstraintUsage info) scan_start Hlen Hrej)
    as (st' & us' & E).
  simpl. unfold scan_start in E. rewrite E. simpl.
  apply scan_constraints_length in E. exists us'. split; [done|]. congruence.
Qed.

(** The planner is defined on every input the library hands over: no access
    outside [aConstraintUsage] or the payload, no failed assertion.  Each of
    its outcomes leaves the constraints as they were, keeps the length of the
    usage array, has set the three estimates, and returns one of four codes.
    A payload is handed over only together with [SQLITE_OK], and then with
    [needToFreeIdxStr] set; the table changes only with the error for too
    many constraints. *)
Theorem best_index_outcomes vtab info :
  planner_input vtab info ->
  exists ret vt info',
    statement_vtab_best_index vtab info = Some (ret, vt, info')
    /\ ret ∈ [SQLITE_OK; SQLITE_CONSTRAINT; SQLITE_ERROR; SQLITE_NOMEM]
    /\ aConstraint info' = aConstraint info
    /\ length (aConstraintUsage info') = length (aConstraint info)
    /\ (orderByConsumed info', estimatedCost info', estimatedRows info')
       = (0, 1, 1)
    /\ (is_Some (idxStr info') ->
        ret = SQLITE_OK /\ needToFreeIdxStr info' = 1)
    /\ (ret = SQLITE_OK \/ ret = SQLITE_CONSTRAINT -> vt = vtab).
Proof.
  intros Hin.
  pose proof (input_usage_length _ _ Hin) as Hlen.
  pose proof (input_idxStr _ _ Hin) as Hnull.
  destruct (rejected (num_outputs vtab) (aConstraint info)) eqn:Hrej.
  - destruct (planner_rejected vtab info Hin Hrej) as (us' & -> & Hus).
    eexists _, _, _. split; [reflexivity|]. simpl.
    rewrite Hnull, Hus.
    split; [rewrite !elem_of_cons; auto|].
    repeat split; try done. all: by intros [? [=]].
  - set (cols := accepted_cols (num_outputs vtab) (aConstraint info)).
    assert (Hul : length (aConstraintUsage (scanned_info vtab info))
                  = length (aConstraint info)).
    { simpl. by apply direct_usage_length. }
    destruct (contiguous_test (track_cols scan_start cols)) eqn:Ht.
    { rewrite (best_index_direct vtab info Hin Hrej Ht).
      eexists _, _, _. split; [reflexivity|].
      split; [rewrite !elem_of_cons; auto|].
      split; [done|]. split; [done|]. split; [done|].
      split; [|done]. simpl. rewrite Hnull. by intros [? [=]]. }
    destruct (decide (Z.of_nat (length cols) > (SIZE_MAX - 1) / param_idx_size))
      as [Hbig|Hfit].
    { rewrite (best_index_too_many vtab info Hin Hrej Ht Hbig).
      fold cols.
      destruct (sqlite3_mprintf (too_many (Z.of_nat (length cols))));
        (eexists _, _, _; split; [reflexivity|]);
        (split; [rewrite !elem_of_cons; auto|]);
        (split; [done|]); (split; [done|]); (split; [done|]);
        (split; [simpl; rewrite Hnull; by intros [? [=]]|]);
        by intros [[=]|[=]]. }
    assert (Hle : Z.of_nat (length cols) <= (SIZE_MAX - 1) / param_idx_size)
      by lia.
    destruct (sqlite3_malloc64 (Z.of_nat (length cols) * param_idx_size + 1))
      as [buf|] eqn:Hm.
    + destruct (best_index_mapped vtab info buf Hin Hrej Ht Hle Hm)
        as (payload & E & _).
      rewrite E. eexists _, _, _. split; [reflexivity|].
      split; [rewrite !elem_of_cons; auto|].
      split; [done|]. split; [|done].
      cbn [aConstraintUsage set_idxStr set_usage].
      by rewrite renumber_length.
    + rewrite (best_index_no_memory vtab info Hin Hrej Ht Hle Hm).
      eexists _, _, _. split; [reflexivity|].
      split; [rewrite !elem_of_cons; auto|].
      split; [done|]. split; [done|]. split; [done|].
      split; [|by intros [[=]|[=]]]. simpl. by intros [? [=]].
Qed.

(** The plan is direct (success without a payload) exactly when no
    constraint is accepted or the accepted parameter indices are [0], ...,
    [col_max-1], each once, with [col_max <= 64]: the test on the bit mask of
    the first 64 indices is exact. *)
Theorem direct_plan_iff_contiguous vtab info :
  planner_input vtab info ->
  rejected (num_outputs vtab) (aConstraint info) = false ->
  let cols := accepted_cols (num_outputs vtab) (aConstraint info) in
  (exists vt info',
     statement_vtab_best_index vtab info = Some (SQLITE_OK, vt, info')
     /\ idxStr info' = None)
  <-> cols = [] \/ contiguous cols.
Proof.
  intros Hin Hrej cols. split.
  - intros (vt & info' & E & Hnull).
    destruct (best_index_ok vtab info vt info' Hin E)
      as (_ & [(Hc & _)|(_ & _ & Hsome)]); [done|].
    rewrite Hnull in Hsome. by destruct Hsome.
  - intros Hc. apply contiguous_test_cols in Hc.
    rewrite (best_index_direct vtab info Hin Hrej Hc).
    eexists _, _. split; [reflexivity|]. simpl.
    apply (input_idxStr _ _ Hin).
Qed.

(** A successful plan numbers the arguments it asks for 1, 2, ..., n
    without gap or repeat, as the library requires of [argvIndex], and n is
    the number of accepted constraints.  When the accepted constraints are on
    pairwise distinct hidden columns, n is at most the number of parameters;
    a hidden column that is constrained twice always gives a plan with a
    payload. *)
Theorem plan_numbers_arguments vtab info vt info' :
  planner_input vtab info ->
  statement_vtab_best_index vtab info = Some (SQLITE_OK, vt, info') ->
  let cols := accepted_cols (num_outputs vtab) (aConstraint info) in
  let args := marked (aConstraintUsage info') in
  args ≡ₚ seqZ 1 (Z.of_nat (length cols))
  /\ (NoDup cols -> 0 <= num_inputs vtab ->
      Z.of_nat (length args) <= num_inputs vtab)
  /\ (~ NoDup cols -> is_Some (idxStr info')).
Proof.
  intros Hin E cols args.
  pose proof (input_usage_length _ _ Hin) as Hlen.
  pose proof (input_usage_zero _ _ Hin) as Hzero.
  pose proof (marked_direct_usage (num_outputs vtab) (aConstraint info)
                (aConstraintUsage info) Hlen Hzero) as Hm.
  fold cols in Hm.
  assert (Hseq : (fun c => c + 1) <$> seqZ 0 (Z.of_nat (length cols))
                 = seqZ 1 (Z.of_nat (length cols))).
  { rewrite <- (fmap_add_seqZ 1 0). apply list_fmap_ext. intros; lia. }
  assert (Hargs : args ≡ₚ seqZ 1 (Z.of_nat (length cols))).
  { destruct (best_index_ok vtab info vt info' Hin E)
      as (_ & [(Hc & Hus & _)|(_ & Hus & _)]); unfold args; rewrite Hus.
    - rewrite Hm. fold cols in Hc. destruct Hc as [Hc|Hc]; [by rewrite Hc|].
      rewrite <- Hseq. by apply fmap_Permutation, contiguous_seqZ.
    - rewrite marked_renumber by lia. by rewrite Hm, length_fmap. }
  split; [done|]. split.
  - intros Hnd Hni. rewrite Hargs, length_seqZ.
    assert (Hsub : cols ⊆+ seqZ 0 (num_inputs vtab)).
    { apply NoDup_submseteq; [done|]. intros x Hx. apply elem_of_seqZ.
      pose proof (accepted_cols_nonneg (num_outputs vtab) (aConstraint info))
        as Hnn.
      pose proof (accepted_cols_bound _ _ _ (input_columns _ _ Hin)) as Hlt.
      fold cols in Hnn, Hlt. rewrite Forall_forall in Hnn, Hlt.
      specialize (Hnn x Hx). specialize (Hlt x Hx). lia. }
    apply submseteq_length in Hsub. rewrite length_seqZ in Hsub. lia.
  - intros Hdup.
    destruct (best_index_ok vtab info vt info' Hin E)
      as (_ & [(Hc & _)|(_ & _ & Hsome)]); [|done].
    exfalso. apply Hdup. destruct Hc as [Hc|Hc].
    + fold cols in Hc. rewrite Hc. constructor.
    + fold cols in Hc. rewrite (contiguous_seqZ cols Hc). apply NoDup_seqZ.
Qed.

(** The order in which the library lists the constraints does not change
    the kind of plan: for two inputs whose constraints are the same up to
    their order, the planner returns the same code, the same error message,
    and a payload of the same length or none in both. *)
Theorem best_index_order_independent vtab info1 info2 :
  planner_input vtab info1 -> planner_input vtab info2 ->
  aConstraint info1 ≡ₚ aConstraint info2 ->
  (fun r => (r.1.1, zErrMsg r.1.2, length <$> idxStr r.2))
    <$> statement_vtab_best_index vtab info1
  = (fun r => (r.1.1, zErrMsg r.1.2, length <$> idxStr r.2))
      <$> statement_vtab_best_index vtab info2.
Proof.
  intros Hin1 Hin2 Hp.
  pose proof (rejected_Permutation (num_outputs vtab) _ _ Hp) as Hr.
  pose proof (accepted_cols_Permutation (num_outputs vtab) _ _ Hp) as Hc.
  pose proof (input_idxStr _ _ Hin1) as Hnull1.
  pose proof (input_idxStr _ _ Hin2) as Hnull2.
  destruct (rejected (num_outputs vtab) (aConstraint info1)) eqn:Hrej1;
    symmetry in Hr.
  { destruct (planner_rejected vtab info1 Hin1 Hrej1) as (us1 & -> & _).
    destruct (planner_rejected vtab info2 Hin2 Hr) as (us2 & -> & _).
    simpl. by rewrite Hnull1, Hnull2. }
  set (cols1 := accepted_cols (num_outputs vtab) (aConstraint info1)) in *.
  set (cols2 := accepted_cols (num_outputs vtab) (aConstraint info2)) in *.
  assert (Hlen : length cols1 = length cols2) by (by rewrite Hc).
  assert (Ht : contiguous_test (track_cols scan_start cols1)
               = contiguous_test (track_cols scan_start cols2)).
  { apply eq_true_iff_eq.
    pose proof (contiguous_test_cols vtab info1) as T1.
    pose proof (contiguous_test_cols vtab info2) as T2.
    cbv zeta in T1, T2. fold cols1 in T1. fold cols2 in T2.
    rewrite T1, T2. split; intros [E|Hcont].
    - left. rewrite E in Hc. by apply Permutation_nil_l in Hc.
    - right. by eapply contiguous_Permutation.
    - left. rewrite E in Hc. by apply Permutation_nil_r in Hc.
    - right. eapply contiguous_Permutation; [symmetry; exact Hc|done]. }
  destruct (contiguous_test (track_cols scan_start cols1)) eqn:Ht1;
    symmetry in Ht.
  { rewrite (best_index_direct vtab info1 Hin1 Hrej1 Ht1).
    rewrite (best_index_direct vtab info2 Hin2 Hr Ht).
    simpl. by rewrite Hnull1, Hnull2. }
  destruct (decide (Z.of_nat (length cols1) > (SIZE_MAX - 1) / param_idx_size))
    as [Hbig|Hfit].
  { rewrite (best_index_too_many vtab info1 Hin1 Hrej1 Ht1 Hbig).
    assert (Hbig2 : Z.of_nat (length cols2) > (SIZE_MAX - 1) / param_idx_size)
      by (by rewrite <- Hlen).
    rewrite (best_index_too_many vtab info2 Hin2 Hr Ht Hbig2).
    fold cols1 cols2. rewrite <- Hlen.
    destruct (sqlite3_mprintf (too_many (Z.of_nat (length cols1)))); simpl;
      by rewrite Hnull1, Hnull2. }
  assert (Hle1 : Z.of_nat (length cols1) <= (SIZE_MAX - 1) / param_idx_size)
    by lia.
  assert (Hle2 : Z.of_nat (length cols2) <= (SIZE_MAX - 1) / param_idx_size)
    by (by rewrite <- Hlen).
  destruct (sqlite3_malloc64 (Z.of_nat (length cols1) * param_idx_size + 1))
    as [buf|] eqn:Hm.
  - destruct (best_index_mapped vtab info1 buf Hin1 Hrej1 Ht1 Hle1 Hm)
      as (payload1 & -> & Lp1 & _).
    fold cols1 in Lp1. rewrite Hlen in Hm.
    destruct (best_index_mapped vtab info2 buf Hin2 Hr Ht Hle2 Hm)
      as (payload2 & -> & Lp2 & _).
    fold cols2 in Lp2. simpl. do 3 f_equal. lia.
  - rewrite (best_index_no_memory vtab info1 Hin1 Hrej1 Ht1 Hle1 Hm).
    rewrite Hlen in Hm.
    by rewrite (best_index_no_memory vtab info2 Hin2 Hr Ht Hle2 Hm).
Qed.

End PlannerOutcomes.

(** Without memory for the payload: hidden columns 2 and 0 of [sum_table]
    give [SQLITE_NOMEM]. *)
Lemma best_index_outcomes_witness :
  exists ret vt info',
    statement_vtab_best_index (H := LP64) (H0 := exhausted) sum_table
      (fresh_index_info [equality 3; less_than 0; equality 1])
    = Some (ret, vt, info')
    /\ ret ∈ [SQLITE_OK; SQLITE_CONSTRAINT; SQLITE_ERROR; SQLITE_NOMEM]
    /\ aConstraint info' = [equality 3; less_than 0; equality 1]
    /\ length (aConstraintUsage info') = 3%nat
    /\ (orderByConsumed info', estimatedCost info', estimatedRows info')
       = (0, 1, 1)
    /\ (is_Some (idxStr info') ->
        ret = SQLITE_OK /\ needToFreeIdxStr info' = 1)
    /\ (ret = SQLITE_OK \/ ret = SQLITE_CONSTRAINT -> vt = sum_table).
Proof.
  apply (best_index_outcomes (H := LP64) (H0 := exhausted) sum_table
           (fresh_index_info [equality 3; less_than 0; equality 1])).
  concrete_input.
Defined.

(** The direct plan for hidden columns 1 and 0: the accepted indices are
    contiguous. *)
Lemma direct_plan_iff_contiguous_witness :
  accepted_cols 1 [equality 2; less_than 0; equality 1] = []
  \/ contiguous (accepted_cols 1 [equality 2; less_than 0; equality 1]).
Proof.
  apply (direct_plan_iff_contiguous (H := LP64) (H0 := plentiful) sum_table
           (fresh_index_info [equality 2; less_than 0; equality 1])).
  - concrete_input.
  - reflexivity.
  - eexists _, _. split; [vm_compute; reflexivity|reflexivity].
Defined.

(** Hidden column 0 twice and hidden column 2: three arguments, numbered 1
    to 3, and a payload. *)
Lemma plan_numbers_arguments_witness :
  exists info',
    statement_vtab_best_index (H := LP64) (H0 := plentiful) sum_table
      (fresh_index_info [equality 1; equality 1; equality 3])
    = Some (SQLITE_OK, sum_table, info')
    /\ marked (aConstraintUsage info') ≡ₚ seqZ 1 3
    /\ is_Some (idxStr info').
Proof.
  assert (Hin : planner_input (H := LP64) sum_table
                  (fresh_index_info [equality 1; equality 1; equality 3])).
  { concrete_input. }
  destruct (statement_vtab_best_index (H := LP64) (H0 := plentiful) sum_table
              (fresh_index_info [equality 1; equality 1; equality 3]))
    as [[[ret vt] info']|] eqn:E; [|by vm_compute in E].
  assert (ret = SQLITE_OK /\ vt = sum_table) as [-> ->].
  { vm_compute in E. by injection E as <- <- _. }
  destruct (plan_numbers_arguments (H := LP64) (H0 := plentiful) sum_table _
              sum_table info' Hin E) as (Hp & _ & Hd).
  exists info'. split; [done|]. split; [exact Hp|]. apply Hd.
  intros Hnd. change (NoDup [0; 0; 2]) in Hnd.
  apply NoDup_cons in Hnd as [Hnin _]. apply Hnin.
  rewrite elem_of_cons. by left.
Defined.

(** Hidden columns 2 and 0 in both orders. *)
Lemma best_index_order_independent_witness :
  (fun r => (r.1.1, zErrMsg r.1.2, length <$> idxStr r.2))
    <$> statement_vtab_best_index (H := LP64) (H0 := plentiful) sum_table
          (fresh_index_info [equality 3; equality 1])
  = (fun r => (r.1.1, zErrMsg r.1.2, length <$> idxStr r.2))
      <$> statement_vtab_best_index (H := LP64) (H0 := plentiful) sum_table
            (fresh_index_info [equality 1; equality 3]).
Proof.
  apply (best_index_order_independent (H := LP64) (H0 := plentiful));
    [concrete_input|concrete_input|apply perm_swap].
Defined.

(** ** The codec: slots are independent *)

Section CodecFrame.
Context `{Platform}.

Lemma decode_loop_ext i buf buf' n : forall j acc,
  (forall k, j <= k < j + Z.of_nat n ->
     load buf' (size_wrap (i * param_idx_size + k))
     = load buf (size_wrap (i * param_idx_size + k))) ->
  decode_loop n j i buf' acc = decode_loop n j i buf acc.
Proof.
  induction n as [|n IH]; intros j acc Hsame; [done|].
  cbn [decode_loop]. rewrite Hsame by lia.
  destruct (load buf _) as [c|]; [|done]. cbn [mbind option_bind].
  apply IH. intros k Hk. apply Hsame. lia.
Qed.

(** Writing slot [i] of a payload leaves what every other slot decodes to
    as it was. *)
Theorem encode_keeps_other_slots x i k buf :
  0 <= x -> 0 <= i -> 0 <= k -> i <> k ->
  (i + 1) * param_idx_size <= Z.of_nat (length buf) ->
  (k + 1) * param_idx_size <= SIZE_MAX ->
  Z.of_nat (length buf) <= SIZE_MAX ->
  exists buf',
    encode_param_idx i buf x = Some buf'
    /\ length buf' = length buf
    /\ decode_param_idx k buf' = decode_param_idx k buf.
Proof.
  intros Hx Hi Hk Hik Hin Hkin Hsz.
  pose proof param_idx_size_pos as Hp.
  destruct (encode_param_idx_spec x i buf Hx Hi Hin Hsz)
    as (buf' & E & Hlen & _ & Hout).
  exists buf'. split; [done|]. split; [done|].
  unfold decode_param_idx. apply decode_loop_ext.
  intros j Hj. rewrite Z2Nat.id in Hj by lia.
  rewrite size_wrap_small by nia.
  rewrite !load_inside by nia. apply Hout.
  rewrite Z2Nat.id by nia. nia.
Qed.

End CodecFrame.

(** Slot 0 of the payload for hidden columns 0 and 2 rewritten with 5: slot
    1 still decodes to 3. *)
Lemma encode_keeps_other_slots_witness :
  exists buf',
    encode_param_idx (H := LP64) 0 payload_0_2 5 = Some buf'
    /\ length buf' = length payload_0_2
    /\ decode_param_idx (H := LP64) 1 buf'
       = decode_param_idx (H := LP64) 1 payload_0_2.
Proof.
  apply (encode_keeps_other_slots (H := LP64) 5 0 1 payload_0_2);
    by vm_compute.
Defined.

(** ** The cursor: scans *)

Section CursorScans.
Context {sqlite3_value : Type} `{Platform} `{Engine sqlite3_value}.

Abbreviation cursor := (statement_cursor sqlite3_value).

Lemma foldl_insert_absent (ps : list Z) :
  forall (vs : list sqlite3_value) (m : gmap Z sqlite3_value) p,
  (forall j, ps !! j <> Some p) ->
  foldl (fun m pv => <[pv.1 := pv.2]> m) m (zip ps vs) !! p = m !! p.
Proof.
  induction ps as [|q ps IH]; intros [|w vs] m p Hp; try done. simpl.
  rewrite IH by (intros j; apply (Hp (S j))).
  apply lookup_insert_ne. intros ->. by apply (Hp 0%nat).
Qed.

Lemma foldl_insert_last (ps : list Z) :
  forall (vs : list sqlite3_value) (m : gmap Z sqlite3_value) j p v,
  ps !! j = Some p -> vs !! j = Some v ->
  (forall j', (j < j')%nat -> ps !! j' <> Some p) ->
  foldl (fun m pv => <[pv.1 := pv.2]> m) m (zip ps vs) !! p = Some v.
Proof.
  induction ps as [|q ps IH]; intros [|w vs] m j p v Hp Hv Hlast; try done.
  destruct j as [|j]; simpl in *.
  - simplify_eq. rewrite foldl_insert_absent; [by rewrite lookup_insert_eq|].
    intros j. apply (Hlast (S j)). lia.
  - apply (IH vs _ j); [done|done|].
    intros j' Hj'. apply (Hlast (S j')). lia.
Qed.

(** A filter call with at least one argument whose binds the library
    accepts and whose step gives a row or is done, up to the copy of the
    arguments. *)
Lemma filter_copies (cur : cursor) idxStr argv ps :
  Z.of_nat (length argv) <= num_inputs (pVtab cur) ->
  num_inputs (pVtab cur) <= INT_MAX ->
  length ps = length argv ->
  (forall j p, ps !! j = Some p -> target idxStr (Z.of_nat j) = Some p) ->
  binds_accepted (cleared cur) ps argv ->
  let bound := bind_calls ps argv ++ cleared cur in
  sqlite3_step bound = SQLITE_ROW \/ sqlite3_step bound = SQLITE_DONE ->
  argv <> [] ->
  statement_vtab_filter cur idxStr argv
  = args ← copy_arguments (param_argv cur) argv;
    Some (SQLITE_OK,
          {| pVtab := pVtab cur; stmt := Call_step :: bound; rowid := 1;
             param_argc := Z.of_nat (length argv); param_argv := args |}).
Proof.
  intros Hargc Hni Hlen Ht Hacc bound Hstep Hne.
  unfold statement_vtab_filter. fold (cleared cur).
  rewrite (bind_arguments_accepted idxStr argv ps 0 (cleared cur));
    [|done|done|lia| |done].
  2:{ intros j p Hp. rewrite Z.add_0_l. by apply Ht. }
  cbn [mbind option_bind]. fold bound.
  assert (Ef : (sqlite3_step bound =? SQLITE_ROW)
               || (sqlite3_step bound =? SQLITE_DONE) = true).
  { destruct Hstep as [-> | ->]; reflexivity. }
  rewrite Ef. cbn [negb].
  destruct (Z.eqb_spec (Z.of_nat (length argv)) 0) as [Ez|Enz].
  - destruct argv; [done|simpl in Ez; lia].
  - destruct (Z.leb_spec (Z.of_nat (length argv)) (num_inputs (pVtab cur)));
      [done|lia].
Qed.

(** The cursor after a filter call that succeeds. *)
Lemma filter_found (cur : cursor) idxStr argv ps :
  Z.of_nat (length argv) <= num_inputs (pVtab cur) ->
  num_inputs (pVtab cur) <= INT_MAX ->
  (length argv <= length (param_argv cur))%nat ->
  length ps = length argv ->
  (forall j p, ps !! j = Some p -> target idxStr (Z.of_nat j) = Some p) ->
  binds_accepted (cleared cur) ps argv ->
  let bound := bind_calls ps argv ++ cleared cur in
  sqlite3_step bound = SQLITE_ROW \/ sqlite3_step bound = SQLITE_DONE ->
  statement_vtab_filter cur idxStr argv
  = Some (SQLITE_OK,
          {| pVtab := pVtab cur; stmt := Call_step :: bound; rowid := 1;
             param_argc := Z.of_nat (length argv);
             param_argv := argv ++ drop (length argv) (param_argv cur) |}).
Proof.
  intros Hargc Hni Hcap Hlen Ht Hacc bound Hstep.
  destruct (decide (argv = [])) as [->|Hne].
  - destruct ps; [|done]. unfold statement_vtab_filter.
    cbn [bind_arguments mbind option_bind length Z.of_nat].
    assert (Ef : (sqlite3_step bound =? SQLITE_ROW)
                 || (sqlite3_step bound =? SQLITE_DONE) = true).
    { destruct Hstep as [-> | ->]; reflexivity. }
    unfold bound, bind_calls, cleared in Ef. simpl in Ef. rewrite Ef.
    destruct cur; reflexivity.
  - rewrite (filter_copies cur idxStr argv ps) by done.
    unfold copy_arguments. by rewrite decide_True by done.
Qed.

(** Filter with more arguments than the statement has parameters: the
    binds are made and the statement is stepped, and then the assertion
    [num_inputs >= argc] fails. *)
Theorem filter_asserts_argument_count (cur : cursor) idxStr argv ps :
  0 <= num_inputs (pVtab cur) ->
  num_inputs (pVtab cur) < Z.of_nat (length argv) <= INT_MAX ->
  length ps = length argv ->
  (forall j p, ps !! j = Some p -> target idxStr (Z.of_nat j) = Some p) ->
  binds_accepted (cleared cur) ps argv ->
  let bound := bind_calls ps argv ++ cleared cur in
  sqlite3_step bound = SQLITE_ROW \/ sqlite3_step bound = SQLITE_DONE ->
  bind_arguments idxStr 0 argv (cleared cur) = Some (Fallthrough, bound)
  /\ statement_vtab_filter cur idxStr argv = None.
Proof.
  intros Hni Hargc Hlen Ht Hacc bound Hstep.
  assert (E : bind_arguments idxStr 0 argv (cleared cur)
              = Some (Fallthrough, bound)).
  { apply bind_arguments_accepted; [done|done|lia| |done].
    intros j p Hp. rewrite Z.add_0_l. by apply Ht. }
  split; [done|]. unfold statement_vtab_filter.
  fold (cleared cur). rewrite E. cbn [mbind option_bind].
  assert (Ef : (sqlite3_step bound =? SQLITE_ROW)
               || (sqlite3_step bound =? SQLITE_DONE) = true).
  { destruct Hstep as [-> | ->]; reflexivity. }
  rewrite Ef. cbn [negb].
  destruct (Z.eqb_spec (Z.of_nat (length argv)) 0); [lia|].
  destruct (Z.leb_spec (Z.of_nat (length argv)) (num_inputs (pVtab cur)));
    [lia|done].
Qed.

(** After a filter call that succeeds, hidden column [k] shows argument
    [k] of that call, and nothing when there is no such argument. *)
Lemma filter_echo (cur : cursor) idxStr argv ps :
  0 <= num_outputs (pVtab cur) ->
  Z.of_nat (length argv) <= num_inputs (pVtab cur) ->
  num_inputs (pVtab cur) <= INT_MAX ->
  (length argv <= length (param_argv cur))%nat ->
  length ps = length argv ->
  (forall j p, ps !! j = Some p -> target idxStr (Z.of_nat j) = Some p) ->
  binds_accepted (cleared cur) ps argv ->
  let bound := bind_calls ps argv ++ cleared cur in
  sqlite3_step bound = SQLITE_ROW \/ sqlite3_step bound = SQLITE_DONE ->
  exists cur',
    statement_vtab_filter cur idxStr argv = Some (SQLITE_OK, cur')
    /\ stmt cur' = Call_step :: bound
    /\ (forall k : nat,
          num_outputs (pVtab cur) + Z.of_nat k <= INT_MAX ->
          statement_vtab_column cur' (num_outputs (pVtab cur) + Z.of_nat k)
          = Some (SQLITE_OK, argv !! k)).
Proof.
  intros Hno Hargc Hni Hcap Hlen Ht Hacc bound Hstep.
  pose proof INT_MAX_pos as Hmax.
  assert (Hmin : INT_MIN <= 0) by (unfold INT_MIN, INT_MAX in *; lia).
  rewrite (filter_found cur idxStr argv ps) by done. fold bound.
  eexists. split; [reflexivity|]. split; [done|].
  intros k Hk. unfold statement_vtab_column.
  cbn [pVtab param_argc param_argv].
  destruct (Z.ltb_spec (num_outputs (pVtab cur) + Z.of_nat k)
              (num_outputs (pVtab cur))); [lia|].
  replace (num_outputs (pVtab cur) + Z.of_nat k - num_outputs (pVtab cur))
    with (Z.of_nat k) by lia.
  rewrite int_wrap_small by lia. rewrite Nat2Z.id.
  destruct (Z.ltb_spec (Z.of_nat k) (Z.of_nat (length argv))) as [Hlt|Hge].
  - rewrite decide_True by lia. rewrite lookup_app_l by lia.
    destruct (lookup_lt_is_Some_2 argv k) as [v Hv]; [lia|].
    by rewrite Hv.
  - by rewrite lookup_ge_None_2 by lia.
Qed.

(** After a filter call that succeeds, hidden column [k] shows argument [k]
    of that call, and nothing when there is no such argument.  The argument
    was bound at the position [ps !! k]: without a payload that is [k+1],
    the parameter of hidden column [k]; with a payload it is whatever slot
    [k] decodes to. *)
Theorem echo_shows_argument_by_index (cur : cursor) idxStr argv ps :
  0 <= num_outputs (pVtab cur) ->
  Z.of_nat (length argv) <= num_inputs (pVtab cur) ->
  num_inputs (pVtab cur) <= INT_MAX ->
  (length argv <= length (param_argv cur))%nat ->
  length ps = length argv ->
  (forall j p, ps !! j = Some p -> target idxStr (Z.of_nat j) = Some p) ->
  binds_accepted (cleared cur) ps argv ->
  let bound := bind_calls ps argv ++ cleared cur in
  sqlite3_step bound = SQLITE_ROW \/ sqlite3_step bound = SQLITE_DONE ->
  exists cur',
    statement_vtab_filter cur idxStr argv = Some (SQLITE_OK, cur')
    /\ stmt cur' = Call_step :: bound
    /\ (forall k : nat,
          num_outputs (pVtab cur) + Z.of_nat k <= INT_MAX ->
          statement_vtab_column cur' (num_outputs (pVtab cur) + Z.of_nat k)
          = Some (SQLITE_OK, argv !! k))
    /\ (idxStr = None -> ps = seqZ 1 (Z.of_nat (length argv))).
Proof.
  intros Hno Hargc Hni Hcap Hlen Ht Hacc bound Hstep.
  destruct (filter_echo cur idxStr argv ps Hno Hargc Hni Hcap Hlen Ht Hacc
              Hstep) as (cur' & E & Hs & Hc).
  exists cur'. split; [done|]. split; [done|]. split; [done|].
  intros ->. apply list_eq. intros j.
  destruct (ps !! j) as [p|] eqn:Hp.
  - specialize (Ht j p Hp). simpl in Ht. simplify_eq.
    apply lookup_lt_Some in Hp. symmetry. rewrite lookup_seqZ. split; lia.
  - symmetry. apply lookup_ge_None in Hp. apply lookup_ge_None.
    rewrite length_seqZ. lia.
Qed.

(** The statement's bindings after a filter call: a parameter position
    holds the last argument that was bound at it (an earlier argument at the
    same position is lost), and a position no argument was bound at holds
    nothing. *)
Theorem later_bind_wins (cur : cursor) idxStr argv ps :
  Z.of_nat (length argv) <= num_inputs (pVtab cur) ->
  num_inputs (pVtab cur) <= INT_MAX ->
  (length argv <= length (param_argv cur))%nat ->
  length ps = length argv ->
  (forall j p, ps !! j = Some p -> target idxStr (Z.of_nat j) = Some p) ->
  binds_accepted (cleared cur) ps argv ->
  exists ret cur',
    statement_vtab_filter cur idxStr argv = Some (ret, cur')
    /\ (forall j p v,
          ps !! j = Some p -> argv !! j = Some v ->
          (forall j', (j < j')%nat -> ps !! j' <> Some p) ->
          bindings (stmt cur') !! p = Some v)
    /\ (forall p, p ∉ ps -> bindings (stmt cur') !! p = None).
Proof.
  intros Hargc Hni Hcap Hlen Ht Hacc.
  destruct (filter_accepted cur idxStr argv ps Hargc Hni Hcap Hlen Ht Hacc)
    as (cur' & E & _ & _ & Hb & _).
  eexists _, cur'. split; [exact E|]. rewrite Hb. split.
  - intros j p v. apply foldl_insert_last.
  - intros p Hp. rewrite foldl_insert_absent; [done|].
    intros j Hj. apply Hp. by eapply list_elem_of_lookup_2.
Qed.

(** [n] calls of [statement_vtab_next] whose steps each give a row: every
    call returns [SQLITE_OK], [rowid] has grown by [n], and nothing else of
    the cursor has changed but the [n] steps on its statement; in particular
    its bindings and the retained arguments are the same.  A call whose step
    is done returns [SQLITE_OK] and one whose step fails returns the code of
    the step; both leave [rowid] as it is. *)
Theorem next_counts_rows (cur : cursor) (n : nat) :
  INT_MIN <= rowid cur -> rowid cur + Z.of_nat n <= INT_MAX ->
  (forall j, (j < n)%nat ->
     sqlite3_step (replicate j Call_step ++ stmt cur) = SQLITE_ROW) ->
  let cur' := nexts n cur in
  cur' = set_cursor cur (replicate n Call_step ++ stmt cur)
           (rowid cur + Z.of_nat n)
  /\ (forall j, (j < n)%nat ->
        (statement_vtab_next (nexts j cur)).1 = SQLITE_OK)
  /\ bindings (stmt cur') = bindings (stmt cur)
  /\ bound_arguments cur' = bound_arguments cur
  /\ statement_vtab_rowid cur' = (SQLITE_OK, rowid cur + Z.of_nat n)
  /\ (sqlite3_step (stmt cur') <> SQLITE_ROW ->
      statement_vtab_next cur'
      = (if sqlite3_step (stmt cur') =? SQLITE_DONE then SQLITE_OK
         else sqlite3_step (stmt cur'),
         set_cursor cur' (Call_step :: stmt cur') (rowid cur'))).
Proof.
  intros Hlo Hhi Hrows cur'.
  assert (Hn : forall m, (m <= n)%nat ->
            nexts m cur = set_cursor cur (replicate m Call_step ++ stmt cur)
                            (rowid cur + Z.of_nat m)).
  { induction m as [|m IH]; intros Hm.
    - simpl. rewrite Z.add_0_r. by destruct cur.
    - cbn [nexts]. rewrite IH by lia. unfold statement_vtab_next.
      cbn [stmt rowid set_cursor]. rewrite Hrows by lia.
      change (SQLITE_ROW =? SQLITE_ROW) with true. cbn [snd].
      rewrite int_wrap_small by lia. unfold set_cursor. simpl.
      f_equal. lia. }
  assert (Hb : forall m, bindings (replicate m Call_step ++ stmt cur)
                         = bindings (stmt cur)).
  { induction m as [|m IH]; [done|]. simpl. exact IH. }
  split; [by apply Hn|]. split; [|split; [|split; [|split]]].
  - intros j Hj. rewrite Hn by lia. unfold statement_vtab_next.
    cbn [stmt rowid set_cursor]. rewrite Hrows by lia. done.
  - unfold cur'. rewrite Hn by lia. simpl. apply Hb.
  - unfold cur'. rewrite Hn by lia. done.
  - unfold cur'. rewrite Hn by lia. done.
  - intros Hne. unfold statement_vtab_next.
    apply Z.eqb_neq in Hne. by rewrite Hne.
Qed.

End CursorScans.

(** The plan for hidden column 0 twice and hidden columns 1 and 2 asks for
    four arguments, and [sum_table] has three parameters. *)
Lemma filter_asserts_argument_count_witness :
  bind_arguments (H := LP64) (Some payload_0_0_1_2) 0
    [Int 5; Int 6; Int 7; Int 8] (cleared opened_cursor)
  = Some (Fallthrough,
          [Call_bind_value 3 (Int 8); Call_bind_value 2 (Int 7);
           Call_bind_value 1 (Int 6); Call_bind_value 1 (Int 5);
           Call_clear_bindings; Call_reset])
  /\ statement_vtab_filter (H := LP64) opened_cursor (Some payload_0_0_1_2)
       [Int 5; Int 6; Int 7; Int 8]
     = None.
Proof.
  apply (filter_asserts_argument_count (H := LP64) opened_cursor
           (Some payload_0_0_1_2) [Int 5; Int 6; Int 7; Int 8] [1; 1; 2; 3]).
  - by vm_compute.
  - by vm_compute.
  - reflexivity.
  - intros [|[|[|[|j]]]] p Hp; simpl in Hp; try done;
      injection Hp as <-; by vm_compute.
  - simpl. done.
  - left. reflexivity.
Defined.

(** The mapped plan for hidden columns 0 and 2 (table columns 1 and 3) of
    [sum_table], with the values 10 and 30: table column 2 shows 30, the
    value bound to parameter 3, and table column 3 shows nothing. *)
Lemma echo_shows_argument_by_index_witness :
  exists cur',
    statement_vtab_filter (H := LP64) opened_cursor (Some payload_0_2)
      [Int 10; Int 30]
    = Some (SQLITE_OK, cur')
    /\ stmt cur'
       = [Call_step; Call_bind_value 3 (Int 30); Call_bind_value 1 (Int 10);
          Call_clear_bindings; Call_reset]
    /\ statement_vtab_column (H := LP64) cur' 2
       = Some (SQLITE_OK, Some (Int 30))
    /\ statement_vtab_column (H := LP64) cur' 3 = Some (SQLITE_OK, None).
Proof.
  destruct (echo_shows_argument_by_index (H := LP64) opened_cursor
              (Some payload_0_2) [Int 10; Int 30] [1; 3])
    as (cur' & E & Hs & Hc & _).
  { by vm_compute. }
  { by vm_compute. }
  { by vm_compute. }
  { simpl. lia. }
  { reflexivity. }
  { intros [|[|j]] p Hp; simpl in Hp; try done;
      injection Hp as <-; by vm_compute. }
  { simpl. done. }
  { left. reflexivity. }
  assert (H1 : 1 + Z.of_nat 1 <= INT_MAX (H := LP64)) by (by vm_compute).
  assert (H2 : 1 + Z.of_nat 2 <= INT_MAX (H := LP64)) by (by vm_compute).
  exists cur'. split; [exact E|]. split; [exact Hs|].
  split; [exact (Hc 1%nat H1)|exact (Hc 2%nat H2)].
Defined.

(** Two arguments for hidden column 0: parameter 1 ends bound to the
    second. *)
Lemma later_bind_wins_witness :
  exists ret cur',
    statement_vtab_filter (H := LP64) opened_cursor (Some payload_0_0)
      [Int 5; Int 6]
    = Some (ret, cur')
    /\ bindings (stmt cur') !! 1 = Some (Int 6)
    /\ bindings (stmt cur') !! 2 = None.
Proof.
  destruct (later_bind_wins (H := LP64) opened_cursor (Some payload_0_0)
              [Int 5; Int 6] [1; 1])
    as (ret & cur' & E & Hlast & Hnone).
  { by vm_compute. }
  { by vm_compute. }
  { simpl. lia. }
  { reflexivity. }
  { intros [|[|j]] p Hp; simpl in Hp; try done;
      injection Hp as <-; by vm_compute. }
  { simpl. done. }
  exists ret, cur'. split; [exact E|]. split.
  - apply (Hlast 1%nat 1 (Int 6)); [done|done|].
    intros [|[|j']] Hj'; try lia; done.
  - apply Hnone. rewrite !elem_of_cons, elem_of_nil. intros [?|[?|[]]]; lia.
Defined.

(** The cursor on the first of three rows: two more calls of
    [statement_vtab_next] reach the row with [rowid] 3, and the call after
    them finds the statement done. *)
Lemma next_counts_rows_witness :
  nexts (H := LP64) (H0 := series_engine) 2 series_cursor
  = set_cursor series_cursor ([Call_step; Call_step] ++ stmt series_cursor) 3
  /\ statement_vtab_rowid
       (nexts (H := LP64) (H0 := series_engine) 2 series_cursor)
     = (SQLITE_OK, 3)
  /\ statement_vtab_next (H := LP64) (H0 := series_engine)
       (nexts (H := LP64) (H0 := series_engine) 2 series_cursor)
     = (SQLITE_OK,
        set_cursor series_cursor
          ([Call_step; Call_step; Call_step] ++ stmt series_cursor) 3).
Proof.
  destruct (next_counts_rows (H := LP64) (H0 := series_engine)
              series_cursor 2)
    as (Hn & _ & _ & _ & Hrowid & Hdone).
  { by vm_compute. }
  { by vm_compute. }
  { intros [|[|j]] Hj; [reflexivity|reflexivity|lia]. }
  split; [exact Hn|]. split; [exact Hrowid|].
  rewrite Hdone; [|by vm_compute].
  rewrite Hn. reflexivity.
Defined.

(** ** From the plan to the statement, for both kinds of plan *)

Lemma accepted_cols_elem no cs c :
  c ∈ cs -> passed_over no c = false -> iColumn c - no ∈ accepted_cols no cs.
Proof.
  induction cs as [|d cs IH]; intros Hin Hp; [by apply elem_of_nil in Hin|].
  apply elem_of_cons in Hin as [<-|Hin]; simpl.
  - rewrite Hp. apply elem_of_cons. by left.
  - destruct (passed_over no d); [by apply IH|].
    apply elem_of_cons. right. by apply IH.
Qed.

Section PlanToBindings.
Context {sqlite3_value : Type}.
Context `{Platform} `{Allocator} `{Engine sqlite3_value}.

Lemma binds_accepted_all (ps : list Z) : forall (vs : list sqlite3_value) s,
  (forall s' p v, p ∈ ps -> v ∈ vs -> sqlite3_bind_value s' p v = SQLITE_OK) ->
  binds_accepted s ps vs.
Proof.
  induction ps as [|p ps IH]; intros [|v vs] s Hok; try done. simpl. split.
  - apply Hok; apply elem_of_cons; by left.
  - apply IH. intros s' q w Hq Hw. apply Hok; apply elem_of_cons; by right.
Qed.

(** A successful plan with a payload: the payload holds, slot by slot, the
    parameter positions of the accepted constraints. *)
Lemma best_index_ok_mapped vtab info vt info' :
  planner_input vtab info ->
  statement_vtab_best_index vtab info = Some (SQLITE_OK, vt, info') ->
  let no := num_outputs vtab in
  let cols := accepted_cols no (aConstraint info) in
  ~ (cols = [] \/ contiguous cols) ->
  exists payload,
    idxStr info' = Some payload
    /\ aConstraintUsage info'
       = renumber 0 (direct_usage no (aConstraint info) (aConstraintUsage info))
    /\ Z.of_nat (length payload) <= SIZE_MAX
    /\ (forall r x, cols !! r = Some x -> holds payload (Z.of_nat r) (x + 1)).
Proof.
  intros Hin E no cols Hnc.
  destruct (best_index_ok vtab info vt info' Hin E) as (Hrej & _).
  assert (Ht : contiguous_test (track_cols scan_start cols) = false).
  { destruct (contiguous_test (track_cols scan_start cols)) eqn:Ht; [|done].
    apply (contiguous_test_spec cols (accepted_cols_nonneg _ _)) in Ht.
    done. }
  destruct (decide (Z.of_nat (length cols) > (SIZE_MAX - 1) / param_idx_size))
    as [Hbig|Hfit].
  { rewrite (best_index_too_many vtab info Hin Hrej Ht Hbig) in E.
    by destruct (sqlite3_mprintf _). }
  assert (Hle : Z.of_nat (length cols) <= (SIZE_MAX - 1) / param_idx_size)
    by lia.
  destruct (sqlite3_malloc64 (Z.of_nat (length cols) * param_idx_size + 1))
    as [buf|] eqn:Hm.
  2:{ by rewrite (best_index_no_memory vtab info Hin Hrej Ht Hle Hm) in E. }
  destruct (best_index_mapped vtab info buf Hin Hrej Ht Hle Hm)
    as (payload & E' & Lp & Hfit' & _ & Hh).
  rewrite E' in E. injection E as <- <-.
  exists payload. split; [done|]. split; [done|]. split; [|done].
  fold cols in Lp, Hfit'. lia.
Qed.

(** The positions of a successful plan are what filter computes from
    [idxStr], and they are parameters of the statement. *)
Lemma plan_positions_target vtab info vt info' :
  planner_input vtab info ->
  statement_vtab_best_index vtab info = Some (SQLITE_OK, vt, info') ->
  let cols := accepted_cols (num_outputs vtab) (aConstraint info) in
  let ps := plan_positions (idxStr info') cols in
  length ps = length cols
  /\ (forall j p, ps !! j = Some p ->
        target (idxStr info') (Z.of_nat j) = Some p)
  /\ (Z.of_nat (length cols) <= num_inputs vtab ->
      forall p, p ∈ ps -> 1 <= p <= num_inputs vtab).
Proof.
  intros Hin E cols ps.
  pose proof (input_inputs _ _ Hin) as Hni.
  pose proof (accepted_cols_nonneg (num_outputs vtab) (aConstraint info))
    as Hnn.
  pose proof (accepted_cols_bound _ _ _ (input_columns _ _ Hin)) as Hlt.
  fold cols in Hnn, Hlt. rewrite Forall_forall in Hnn, Hlt.
  split; [|split].
  - unfold ps, plan_positions. destruct (idxStr info');
      [by rewrite length_fmap|rewrite length_seqZ; lia].
  - intros j p Hp.
    destruct (best_index_ok vtab info vt info' Hin E)
      as (_ & [(_ & _ & Hnull)|(Hnc & _ & _)]).
    + unfold ps, plan_positions in Hp. rewrite Hnull in Hp |- *. simpl.
      apply lookup_seqZ in Hp as [-> _]. f_equal. lia.
    + destruct (best_index_ok_mapped vtab info vt info' Hin E Hnc)
        as (payload & Hpay & _ & Hsz & Hh).
      unfold ps, plan_positions in Hp. rewrite Hpay in Hp |- *. simpl.
      rewrite list_lookup_fmap in Hp. fold cols in Hh.
      destruct (cols !! j) as [x|] eqn:Hx; [|done]. injection Hp as <-.
      assert (x ∈ cols) as Hx_in by (by eapply list_elem_of_lookup_2).
      specialize (Hnn x Hx_in). specialize (Hlt x Hx_in).
      apply holds_decode; [by apply Hh|lia|lia|lia].
  - intros Hfit p Hp. unfold ps, plan_positions in Hp.
    destruct (idxStr info').
    + apply list_elem_of_fmap in Hp as (x & -> & Hx).
      specialize (Hnn x Hx). specialize (Hlt x Hx). lia.
    + apply elem_of_seqZ in Hp. lia.
Qed.

(** The library passes as many arguments as there are accepted
    constraints. *)
Lemma passes_arguments_length vtab info vt info' rhs
    (argv : list sqlite3_value) :
  planner_input vtab info ->
  statement_vtab_best_index vtab info = Some (SQLITE_OK, vt, info') ->
  passes_arguments (aConstraintUsage info') rhs argv ->
  length argv
  = length (accepted_cols (num_outputs vtab) (aConstraint info)).
Proof.
  intros Hin E [Hargc _]. rewrite Hargc.
  pose proof (marked_direct_usage (num_outputs vtab) (aConstraint info)
                (aConstraintUsage info) (input_usage_length _ _ Hin)
                (input_usage_zero _ _ Hin)) as Hm.
  destruct (best_index_ok vtab info vt info' Hin E)
    as (_ & [(_ & -> & _)|(_ & -> & _)]).
  - by rewrite Hm, length_fmap.
  - rewrite marked_renumber by lia. rewrite length_seqZ, Hm, length_fmap.
    lia.
Qed.

(** The argument of an accepted constraint: its index in [argv] is the
    constraint's own parameter index in a direct plan and its rank among the
    accepted constraints in a plan with a payload; it is bound at the
    constraint's own parameter position in both. *)
Lemma argument_of_constraint vtab info vt info' i c u :
  planner_input vtab info ->
  statement_vtab_best_index vtab info = Some (SQLITE_OK, vt, info') ->
  let no := num_outputs vtab in
  let cols := accepted_cols no (aConstraint info) in
  aConstraint info !! i = Some c -> passed_over no c = false ->
  aConstraintUsage info' !! i = Some u ->
  1 <= argvIndex u
  /\ argvIndex u - 1
     = (if idxStr info' is None then iColumn c - no
        else rank no (aConstraint info) i)
  /\ plan_positions (idxStr info') cols !! Z.to_nat (argvIndex u - 1)
     = Some (iColumn c - no + 1).
Proof.
  intros Hin E no cols Hc Hpo Hu.
  pose proof (input_usage_length _ _ Hin) as Hlen.
  pose proof (input_usage_zero _ _ Hin) as Hzero.
  pose proof (accepted_cols_nonneg no (aConstraint info)) as Hnn.
  fold cols in Hnn. rewrite Forall_forall in Hnn.
  assert (Hc_in : c ∈ aConstraint info) by (by eapply list_elem_of_lookup_2).
  pose proof (accepted_cols_elem no _ c Hc_in Hpo) as Hcol.
  fold cols in Hcol. specialize (Hnn _ Hcol).
  destruct (best_index_ok vtab info vt info' Hin E)
    as (_ & [(Hcont & Hus & Hnull)|(Hnc & Hus & _)]).
  - fold no in Hus. rewrite Hus in Hu.
    pose proof (lookup_direct_usage no _ _ i c u Hzero Hc Hu) as Ha.
    rewrite Hpo in Ha. rewrite Hnull.
    split; [lia|]. split; [lia|].
    unfold plan_positions.
    fold no cols in Hcont. destruct Hcont as [Hnil|Hcont].
    { rewrite Hnil in Hcol. by apply elem_of_nil in Hcol. }
    destruct Hcont as (_ & Hmem & Hcount & _).
    apply Hmem in Hcol. apply lookup_seqZ. split; lia.
  - fold no in Hus. rewrite Hus in Hu.
    pose proof (renumber_direct_usage no _ _ 0 i c u Hlen Hzero Hc Hu) as Ha.
    rewrite Hpo in Ha.
    destruct (best_index_ok_mapped vtab info vt info' Hin E Hnc)
      as (payload & Hpay & _).
    assert (0 <= rank no (aConstraint info) i) by (unfold rank; lia).
    rewrite Hpay. split; [lia|]. split; [lia|].
    unfold plan_positions. rewrite list_lookup_fmap.
    replace (argvIndex u - 1) with (rank no (aConstraint info) i) by lia.
    unfold cols. by rewrite (lookup_accepted_rank no _ i c Hc Hpo).
Qed.

Lemma usage_of_constraint vtab info vt info' i c :
  planner_input vtab info ->
  statement_vtab_best_index vtab info = Some (SQLITE_OK, vt, info') ->
  aConstraint info !! i = Some c ->
  is_Some (aConstraintUsage info' !! i).
Proof.
  intros Hin E Hc. apply lookup_lt_is_Some_2.
  pose proof (input_usage_length _ _ Hin) as Hlen.
  destruct (best_index_ok vtab info vt info' Hin E)
    as (_ & [(_ & -> & _)|(_ & -> & _)]);
    rewrite ?renumber_length, direct_usage_length by done;
    by eapply lookup_lt_Some.
Qed.

(** From the plan to the statement.  For a successful plan, direct or with
    a payload, over constraints on pairwise distinct hidden columns, and the
    arguments the library passes for it: after the filter call, the value of
    every accepted constraint is bound to the parameter of the constraint's
    own hidden column, [col_index+1], and no other parameter is bound. *)
Theorem constraint_values_reach_their_parameters vtab info vt info'
    (cur : statement_cursor sqlite3_value) rhs argv :
  planner_input vtab info ->
  statement_vtab_best_index vtab info = Some (SQLITE_OK, vt, info') ->
  let no := num_outputs vtab in
  let cols := accepted_cols no (aConstraint info) in
  NoDup cols ->
  passes_arguments (aConstraintUsage info') rhs argv ->
  pVtab cur = vtab ->
  Z.of_nat (length (param_argv cur)) = num_inputs vtab ->
  (forall s p v, 1 <= p <= num_inputs vtab -> v ∈ argv ->
     sqlite3_bind_value s p v = SQLITE_OK) ->
  exists ret cur',
    statement_vtab_filter cur (idxStr info') argv = Some (ret, cur')
    /\ (forall i c v,
          aConstraint info !! i = Some c -> passed_over no c = false ->
          rhs !! i = Some v ->
          bindings (stmt cur') !! (iColumn c - no + 1) = Some v)
    /\ (forall p, p - 1 ∉ cols -> bindings (stmt cur') !! p = None).
Proof.
  intros Hin E no cols Hnd Hpass Hvt Hcap Hok.
  pose proof (input_inputs _ _ Hin) as Hni.
  pose proof (accepted_cols_nonneg no (aConstraint info)) as Hnn.
  pose proof (accepted_cols_bound _ _ _ (input_columns _ _ Hin)) as Hlt.
  fold no cols in Hnn, Hlt. rewrite Forall_forall in Hnn, Hlt.
  pose proof (passes_arguments_length vtab info vt info' rhs argv Hin E Hpass)
    as Hn.
  fold no cols in Hn. destruct Hpass as [_ Hargs].
  assert (Hfit : Z.of_nat (length cols) <= num_inputs vtab).
  { assert (Hsub : cols ⊆+ seqZ 0 (num_inputs vtab)).
    { apply NoDup_submseteq; [done|]. intros x Hx. apply elem_of_seqZ.
      specialize (Hnn x Hx). specialize (Hlt x Hx). lia. }
    apply submseteq_length in Hsub. rewrite length_seqZ in Hsub. lia. }
  destruct (plan_positions_target vtab info vt info' Hin E)
    as (Hps_len & Hps_target & Hps_range).
  fold no cols in Hps_len, Hps_target, Hps_range.
  specialize (Hps_range Hfit).
  set (ps := plan_positions (idxStr info') cols) in *.
  assert (Hps_nodup : NoDup ps).
  { unfold ps, plan_positions. destruct (idxStr info'); [|apply NoDup_seqZ].
    apply NoDup_fmap; [|done]. intros x y; lia. }
  assert (Hacc : binds_accepted (cleared cur) ps argv).
  { apply binds_accepted_all. intros s' p v Hp Hv.
    apply Hok; [by apply Hps_range|done]. }
  destruct (filter_accepted cur (idxStr info') argv ps)
    as (cur' & Ef & _ & _ & Hb & _).
  { rewrite Hvt, Hn. done. }
  { by rewrite Hvt. }
  { lia. }
  { congruence. }
  { done. }
  { done. }
  eexists _, cur'. split; [exact Ef|]. rewrite Hb. split.
  - intros i c v Hc Hpo Hv.
    destruct (usage_of_constraint vtab info vt info' i c Hin E Hc) as [u Hu].
    destruct (argument_of_constraint vtab info vt info' i c u Hin E Hc Hpo Hu)
      as (Hpos & _ & Hpj).
    fold no cols ps in Hpj.
    apply (foldl_insert_last ps argv ∅ (Z.to_nat (argvIndex u - 1)));
      [done| |].
    + apply (Hargs i u v); [done|lia|done].
    + intros j' Hlt' Hpj'.
      assert (Z.to_nat (argvIndex u - 1) = j'); [|lia].
      by eapply NoDup_lookup.
  - intros p Hp. rewrite foldl_insert_absent; [done|].
    intros j Hj. apply Hp. apply list_elem_of_lookup_2 in Hj.
    unfold ps, plan_positions in Hj. destruct (idxStr info') eqn:Hi.
    + apply list_elem_of_fmap in Hj as (x & -> & Hx).
      by replace (x + 1 - 1) with x by lia.
    + destruct (best_index_ok vtab info vt info' Hin E)
        as (_ & [(Hcont & _ & _)|(_ & _ & Hsome)]).
      2:{ rewrite Hi in Hsome. by destruct Hsome. }
      apply elem_of_seqZ in Hj. fold no cols in Hcont.
      destruct Hcont as [Hnil|(_ & Hmem & Hcount & _)].
      { rewrite Hnil in Hj. simpl in Hj. lia. }
      apply Hmem. lia.
Qed.

(** What a hidden column shows after the scan has started.  For a
    successful plan and the arguments the library passes for it, when the
    binds are accepted and the step gives a row or is done: the value of an
    accepted constraint is shown by the hidden column whose index is the
    constraint's [argvIndex - 1].  In a direct plan that is the constraint's
    own column.  In a plan with a payload it is the column whose parameter
    index is the constraint's rank among the accepted constraints, which is
    the constraint's own column only when the two happen to agree. *)
Theorem hidden_columns_show_arguments vtab info vt info'
    (cur : statement_cursor sqlite3_value) rhs argv :
  planner_input vtab info ->
  statement_vtab_best_index vtab info = Some (SQLITE_OK, vt, info') ->
  let no := num_outputs vtab in
  let cols := accepted_cols no (aConstraint info) in
  let ps := plan_positions (idxStr info') cols in
  passes_arguments (aConstraintUsage info') rhs argv ->
  pVtab cur = vtab ->
  num_outputs vtab + num_inputs vtab <= INT_MAX ->
  Z.of_nat (length cols) <= num_inputs vtab ->
  Z.of_nat (length (param_argv cur)) = num_inputs vtab ->
  binds_accepted (cleared cur) ps argv ->
  (let bound := bind_calls ps argv ++ cleared cur in
   sqlite3_step bound = SQLITE_ROW \/ sqlite3_step bound = SQLITE_DONE) ->
  exists cur',
    statement_vtab_filter cur (idxStr info') argv = Some (SQLITE_OK, cur')
    /\ forall i c u v,
         aConstraint info !! i = Some c -> passed_over no c = false ->
         aConstraintUsage info' !! i = Some u ->
         rhs !! i = Some v ->
         statement_vtab_column cur' (no + (argvIndex u - 1))
         = Some (SQLITE_OK, Some v)
         /\ argvIndex u - 1
            = (if idxStr info' is None then iColumn c - no
               else rank no (aConstraint info) i).
Proof.
  intros Hin E no cols ps Hpass Hvt Hcols Hfit Hcap Hacc Hstep.
  pose proof (input_inputs _ _ Hin) as Hni.
  pose proof (input_outputs _ _ Hin) as Hno. fold no in Hno.
  pose proof (passes_arguments_length vtab info vt info' rhs argv Hin E Hpass)
    as Hn.
  fold no cols in Hn. destruct Hpass as [_ Hargs].
  destruct (plan_positions_target vtab info vt info' Hin E)
    as (Hps_len & Hps_target & _).
  fold no cols ps in Hps_len, Hps_target.
  destruct (filter_echo cur (idxStr info') argv ps)
    as (cur' & Ef & _ & Hecho).
  { by rewrite Hvt. }
  { rewrite Hvt, Hn. done. }
  { by rewrite Hvt. }
  { lia. }
  { congruence. }
  { done. }
  { done. }
  { done. }
  exists cur'. split; [exact Ef|].
  intros i c u v Hc Hpo Hu Hv.
  destruct (argument_of_constraint vtab info vt info' i c u Hin E Hc Hpo Hu)
    as (Hpos & Hidx & Hpj).
  split; [|done].
  fold no cols ps in Hpj. apply lookup_lt_Some in Hpj.
  specialize (Hecho (Z.to_nat (argvIndex u - 1))).
  rewrite Hvt in Hecho. fold no in Hecho.
  rewrite Z2Nat.id in Hecho by lia.
  rewrite Hecho by lia.
  by rewrite (Hargs i u v Hu ltac:(lia) Hv).
Qed.

End PlanToBindings.

(** Hidden columns 2 and 0 of [sum_table], in that order, compared with 30
    and 10: parameter 3 ends bound to 30 and parameter 1 to 10; parameter 2
    is unbound. *)
Lemma constraint_values_reach_their_parameters_witness :
  exists ret cur',
    statement_vtab_filter (H := LP64) opened_cursor
      (Some [36; 33; 33; 33; 33; 33; 34; 33; 33; 33; 33; 33; 0])
      [Int 30; Int 10]
    = Some (ret, cur')
    /\ bindings (stmt cur') !! 3 = Some (Int 30)
    /\ bindings (stmt cur') !! 1 = Some (Int 10)
    /\ bindings (stmt cur') !! 2 = None.
Proof.
  assert (Hin : planner_input (H := LP64) sum_table
                  (fresh_index_info [equality 3; less_than 0; equality 1])).
  { concrete_input. }
  destruct (statement_vtab_best_index (H := LP64) (H0 := plentiful) sum_table
              (fresh_index_info [equality 3; less_than 0; equality 1]))
    as [[[ret vt] info']|] eqn:E; [|by vm_compute in E].
  assert (ret = SQLITE_OK
          /\ aConstraintUsage info'
             = [ {| argvIndex := 1; omit := 1 |};
                 {| argvIndex := 0; omit := 0 |};
                 {| argvIndex := 2; omit := 1 |} ]
          /\ idxStr info'
             = Some [36; 33; 33; 33; 33; 33; 34; 33; 33; 33; 33; 33; 0])
    as (-> & Hus & Hpay).
  { vm_compute in E. by injection E as <- _ <-. }
  destruct (constraint_values_reach_their_parameters (H := LP64)
              (H0 := plentiful) sum_table _ vt info' opened_cursor
              [Int 30; Int 0; Int 10] [Int 30; Int 10] Hin E)
    as (ret & cur' & Ef & Hbound & Hfree).
  { change (NoDup [2; 0]). apply NoDup_cons. split; [|apply NoDup_singleton].
    rewrite list_elem_of_singleton. lia. }
  { rewrite Hus. split; [reflexivity|].
    intros [|[|[|i]]] u v Hu Hnz Hv; simpl in Hu, Hv.
    - injection Hu as <-. injection Hv as <-. reflexivity.
    - injection Hu as <-. exfalso. apply Hnz. reflexivity.
    - injection Hu as <-. injection Hv as <-. reflexivity.
    - discriminate Hu. }
  { reflexivity. }
  { reflexivity. }
  { intros s p v Hp Hv. change (abs_sum_bind p v = SQLITE_OK).
    unfold abs_sum_bind.
    destruct (Z.leb_spec 1 p); [|lia].
    destruct (Z.leb_spec p 3); [|simpl in Hp; lia].
    rewrite !elem_of_cons, elem_of_nil in Hv.
    by destruct Hv as [->|[->|[]]]. }
  rewrite Hpay in Ef. exists ret, cur'. split; [exact Ef|].
  split; [|split].
  - by apply (Hbound 0%nat (equality 3) (Int 30)).
  - by apply (Hbound 2%nat (equality 1) (Int 10)).
  - apply Hfree. change (2 - 1 ∉ [2; 0]).
    rewrite !elem_of_cons, elem_of_nil. intros [?|[?|[]]]; lia.
Defined.

(** The same plan and arguments: the value 30 of the constraint on table
    column 3 is shown by table column 1, and the value 10 of the constraint
    on table column 1 by table column 2. *)
Lemma hidden_columns_show_arguments_witness :
  exists cur',
    statement_vtab_filter (H := LP64) opened_cursor
      (Some [36; 33; 33; 33; 33; 33; 34; 33; 33; 33; 33; 33; 0])
      [Int 30; Int 10]
    = Some (SQLITE_OK, cur')
    /\ statement_vtab_column (H := LP64) cur' 1
       = Some (SQLITE_OK, Some (Int 30))
    /\ statement_vtab_column (H := LP64) cur' 2
       = Some (SQLITE_OK, Some (Int 10)).
Proof.
  assert (Hin : planner_input (H := LP64) sum_table
                  (fresh_index_info [equality 3; less_than 0; equality 1])).
  { concrete_input. }
  destruct (statement_vtab_best_index (H := LP64) (H0 := plentiful) sum_table
              (fresh_index_info [equality 3; less_than 0; equality 1]))
    as [[[ret vt] info']|] eqn:E; [|by vm_compute in E].
  assert (ret = SQLITE_OK
          /\ aConstraintUsage info'
             = [ {| argvIndex := 1; omit := 1 |};
                 {| argvIndex := 0; omit := 0 |};
                 {| argvIndex := 2; omit := 1 |} ]
          /\ idxStr info'
             = Some [36; 33; 33; 33; 33; 33; 34; 33; 33; 33; 33; 33; 0])
    as (-> & Hus & Hpay).
  { vm_compute in E. by injection E as <- _ <-. }
  destruct (hidden_columns_show_arguments (H := LP64) (H0 := plentiful)
              sum_table _ vt info' opened_cursor
              [Int 30; Int 0; Int 10] [Int 30; Int 10] Hin E)
    as (cur' & Ef & Hshow).
  { rewrite Hus. split; [reflexivity|].
    intros [|[|[|i]]] u v Hu Hnz Hv; simpl in Hu, Hv.
    - injection Hu as <-. injection Hv as <-. reflexivity.
    - injection Hu as <-. exfalso. apply Hnz. reflexivity.
    - injection Hu as <-. injection Hv as <-. reflexivity.
    - discriminate Hu. }
  { reflexivity. }
  { by vm_compute. }
  { by vm_compute. }
  { reflexivity. }
  { rewrite Hpay. split; [reflexivity|split; [reflexivity|exact I]]. }
  { rewrite Hpay. left. reflexivity. }
  rewrite Hpay in Ef. exists cur'. split; [exact Ef|]. split.
  - destruct (Hshow 0%nat (equality 3) {| argvIndex := 1; omit := 1 |}
                (Int 30)) as [Hc _]; [done|done|by rewrite Hus|done|].
    exact Hc.
  - destruct (Hshow 2%nat (equality 1) {| argvIndex := 2; omit := 1 |}
                (Int 10)) as [Hc _]; [done|done|by rewrite Hus|done|].
    exact Hc.
Defined.

(** ** Usage entries, and a hidden column constrained twice *)

Lemma rank_mono no cs k k' :
  (k <= k')%nat -> rank no cs k <= rank no cs k'.
Proof.
  intros Hk. unfold rank.
  replace (take k' cs) with (take k cs ++ drop k (take k' cs)).
  - rewrite accepted_cols_app, length_app. lia.
  - rewrite <- (take_drop k (take k' cs)) at 2.
    by rewrite take_take, Nat.min_l by lia.
Qed.

(** An entry of [accepted_cols] comes from an accepted constraint, and its
    index is the rank of that constraint. *)
Lemma accepted_cols_lookup_inv no cs : forall r x,
  accepted_cols no cs !! r = Some x ->
  exists k c,
    cs !! k = Some c /\ passed_over no c = false
    /\ iColumn c - no = x /\ rank no cs k = Z.of_nat r.
Proof.
  induction cs as [|d cs IH]; intros r x Hx; [done|]. simpl in Hx.
  destruct (passed_over no d) eqn:Hd.
  - destruct (IH r x Hx) as (k & c & Hc & Hp & Hcol & Hr).
    exists (S k), c. split; [done|]. split; [done|]. split; [done|].
    unfold rank in *. simpl. by rewrite Hd.
  - destruct r as [|r].
    + injection Hx as <-. exists 0%nat, d. by rewrite Hd.
    + destruct (IH r x Hx) as (k & c & Hc & Hp & Hcol & Hr).
      exists (S k), c. split; [done|]. split; [done|]. split; [done|].
      unfold rank in *. simpl. rewrite Hd. simpl. lia.
Qed.

Lemma lookup_direct_usage_entry no cs : forall us i c u0,
  cs !! i = Some c -> us !! i = Some u0 ->
  direct_usage no cs us !! i
  = Some (if passed_over no c then u0
          else {| argvIndex := iColumn c - no + 1; omit := 1 |}).
Proof.
  intros us i c u0 Hc Hu. unfold direct_usage.
  by rewrite lookup_zip_with, Hc, Hu.
Qed.

Lemma lookup_renumber us : forall k i u,
  us !! i = Some u ->
  exists u',
    renumber k us !! i = Some u' /\ omit u' = omit u
    /\ (argvIndex u = 0 -> u' = u).
Proof.
  induction us as [|w us IH]; intros k i u Hu; [done|].
  destruct i as [|i]; simpl in *.
  - injection Hu as ->. destruct (Z.eqb_spec (argvIndex u) 0).
    + by exists u.
    + eexists. split; [reflexivity|]. split; [done|]. lia.
  - destruct (argvIndex w =? 0); simpl; by apply IH.
Qed.

Section PlanUsage.
Context `{Platform} `{Allocator}.

(** The usage entries of a successful plan: the entry of a constraint that
    is passed over is left as it was, and the entry of an accepted constraint
    has [omit] set: the library is told not to test the constraint itself. *)
Theorem plan_omits_accepted_constraints vtab info vt info' i c u0 :
  planner_input vtab info ->
  statement_vtab_best_index vtab info = Some (SQLITE_OK, vt, info') ->
  aConstraint info !! i = Some c ->
  aConstraintUsage info !! i = Some u0 ->
  exists u,
    aConstraintUsage info' !! i = Some u
    /\ (if passed_over (num_outputs vtab) c then u = u0
        else omit u = 1 /\ 1 <= argvIndex u).
Proof.
  intros Hin E Hc Hu0.
  pose proof (input_usage_zero _ _ Hin) as Hzero.
  pose proof (accepted_cols_nonneg (num_outputs vtab) (aConstraint info))
    as Hnn.
  rewrite Forall_forall in Hnn.
  assert (Hz0 : argvIndex u0 = 0).
  { rewrite Forall_forall in Hzero. apply Hzero.
    by eapply list_elem_of_lookup_2. }
  pose proof (lookup_direct_usage_entry (num_outputs vtab) _ _ i c u0 Hc Hu0)
    as Hd.
  destruct (usage_of_constraint vtab info vt info' i c Hin E Hc) as [u Hu].
  exists u. split; [done|].
  destruct (passed_over (num_outputs vtab) c) eqn:Hpo.
  - destruct (best_index_ok vtab info vt info' Hin E)
      as (_ & [(_ & Hus & _)|(_ & Hus & _)]); rewrite Hus in Hu.
    + congruence.
    + destruct (lookup_renumber _ 0 i u0 Hd) as (u' & Hu' & _ & Hsame).
      rewrite Hu in Hu'. injection Hu' as ->. by apply Hsame.
  - destruct (argument_of_constraint vtab info vt info' i c u Hin E Hc Hpo Hu)
      as (Hpos & _).
    split; [|done].
    destruct (best_index_ok vtab info vt info' Hin E)
      as (_ & [(_ & Hus & _)|(_ & Hus & _)]); rewrite Hus in Hu.
    + rewrite Hd in Hu. by injection Hu as <-.
    + destruct (lookup_renumber _ 0 i _ Hd) as (u' & Hu' & Ho & _).
      rewrite Hu in Hu'. injection Hu' as ->. by rewrite Ho.
Qed.

End PlanUsage.

Section RepeatedColumn.
Context {sqlite3_value : Type}.
Context `{Platform} `{Allocator} `{Engine sqlite3_value}.

(** Two constraints on the same hidden column.  Both are accepted, marked
    [omit] and numbered as two arguments, so the plan has a payload and
    both values are passed to filter.  Filter binds the arguments in their
    order, and after its binds the column's parameter holds the value of
    the last constraint on it.  When the plan has no more arguments than
    the statement has parameters, the filter call returns with these binds
    made; when it has more, as it always has on a statement with one
    parameter, and the step gives a row or is done, the assertion
    [num_inputs >= argc] fails. *)
Theorem repeated_column_binds_last_value vtab info vt info'
    (cur : statement_cursor sqlite3_value) rhs argv i j ci cj vi vj :
  planner_input vtab info ->
  statement_vtab_best_index vtab info = Some (SQLITE_OK, vt, info') ->
  let no := num_outputs vtab in
  let cols := accepted_cols no (aConstraint info) in
  let bound := bind_calls ((fun c => c + 1) <$> cols) argv ++ cleared cur in
  passes_arguments (aConstraintUsage info') rhs argv ->
  (forall s p v, 1 <= p <= num_inputs vtab -> v ∈ argv ->
     sqlite3_bind_value s p v = SQLITE_OK) ->
  (i < j)%nat ->
  aConstraint info !! i = Some ci -> passed_over no ci = false ->
  aConstraint info !! j = Some cj -> passed_over no cj = false ->
  iColumn ci = iColumn cj ->
  (forall k c, (j < k)%nat -> aConstraint info !! k = Some c ->
     passed_over no c = false -> iColumn c <> iColumn cj) ->
  rhs !! i = Some vi -> rhs !! j = Some vj ->
  exists ui uj,
    is_Some (idxStr info')
    /\ aConstraintUsage info' !! i = Some ui /\ omit ui = 1
    /\ aConstraintUsage info' !! j = Some uj /\ omit uj = 1
    /\ 1 <= argvIndex ui < argvIndex uj
    /\ argv !! Z.to_nat (argvIndex ui - 1) = Some vi
    /\ argv !! Z.to_nat (argvIndex uj - 1) = Some vj
    /\ bind_arguments (idxStr info') 0 argv (cleared cur)
       = Some (Fallthrough, bound)
    /\ bindings bound !! (iColumn cj - no + 1) = Some vj
    /\ (pVtab cur = vtab ->
        (Z.of_nat (length cols) <= num_inputs vtab ->
         Z.of_nat (length (param_argv cur)) = num_inputs vtab ->
         exists ret cur',
           statement_vtab_filter cur (idxStr info') argv = Some (ret, cur')
           /\ stmt cur' = Call_step :: bound)
        /\ (num_inputs vtab < Z.of_nat (length cols) ->
            sqlite3_step bound = SQLITE_ROW
            \/ sqlite3_step bound = SQLITE_DONE ->
            statement_vtab_filter cur (idxStr info') argv = None)).
Proof.
  intros Hin E no cols bound Hpass Hok Hij Hci Hpi Hcj Hpj Hsame
    Hlast Hvi Hvj.
  pose proof (input_inputs _ _ Hin) as Hni.
  pose proof (input_usage_length _ _ Hin) as Hlen.
  pose proof (passes_arguments_length vtab info vt info' rhs argv Hin E Hpass)
    as Hn.
  destruct (accepted_count_bounds vtab info Hin) as [Hcount _].
  pose proof (accepted_cols_nonneg no (aConstraint info)) as Hnn.
  pose proof (accepted_cols_bound _ _ _ (input_columns _ _ Hin)) as Hlt.
  fold no cols in Hn, Hcount, Hnn, Hlt. rewrite Forall_forall in Hnn, Hlt.
  destruct Hpass as [_ Hargs].
  destruct (plan_positions_target vtab info vt info' Hin E)
    as (Hps_len & Hps_target & _).
  fold no cols in Hps_len, Hps_target.
  destruct (lookup_lt_is_Some_2 (aConstraintUsage info) i) as [ui0 Hui0].
  { rewrite Hlen. by eapply lookup_lt_Some. }
  destruct (lookup_lt_is_Some_2 (aConstraintUsage info) j) as [uj0 Huj0].
  { rewrite Hlen. by eapply lookup_lt_Some. }
  destruct (usage_of_constraint vtab info vt info' i ci Hin E Hci) as [ui Hui].
  destruct (usage_of_constraint vtab info vt info' j cj Hin E Hcj) as [uj Huj].
  destruct (argument_of_constraint vtab info vt info' i ci ui Hin E Hci Hpi
              Hui) as (Hposi & Hidxi & _).
  destruct (argument_of_constraint vtab info vt info' j cj uj Hin E Hcj Hpj
              Huj) as (Hposj & Hidxj & Hpsj).
  fold no cols in Hpsj.
  (* the plan has a payload: the two arguments have different indices *)
  assert (Hranks : rank no (aConstraint info) i < rank no (aConstraint info) j).
  { assert (Hle := rank_mono no (aConstraint info) (S i) j ltac:(lia)).
    unfold rank.
    unfold rank in Hle. rewrite (take_S_r _ i ci) in Hle by done.
    rewrite accepted_cols_app, length_app in Hle. simpl in Hle.
    rewrite Hpi in Hle. simpl in Hle. lia. }
  assert (Hsome : is_Some (idxStr info')).
  { destruct (best_index_ok vtab info vt info' Hin E)
      as (_ & [(Hcont & _ & _)|(_ & _ & Hsome)]); [|done].
    exfalso. fold no cols in Hcont.
    pose proof (lookup_accepted_rank no _ i ci Hci Hpi) as Hri.
    pose proof (lookup_accepted_rank no _ j cj Hcj Hpj) as Hrj.
    fold cols in Hri, Hrj. rewrite Hsame in Hri.
    destruct Hcont as [Hnil|Hcont]; [by rewrite Hnil in Hri|].
    assert (Hnd : NoDup cols).
    { rewrite (contiguous_seqZ cols Hcont). apply NoDup_seqZ. }
    pose proof (NoDup_lookup _ _ _ _ Hnd Hri Hrj) as Heq.
    unfold rank in *. lia. }
  destruct Hsome as [payload Hpay]. rewrite Hpay in Hidxi, Hidxj.
  rewrite Hpay in Hps_len, Hps_target, Hpsj. unfold plan_positions in *.
  set (ps := (fun c => c + 1) <$> cols) in *.
  assert (Hrange : forall p, p ∈ ps -> 1 <= p <= num_inputs vtab).
  { intros p Hp. apply list_elem_of_fmap in Hp as (x & -> & Hx).
    specialize (Hnn x Hx). specialize (Hlt x Hx). simpl in Hlt. lia. }
  assert (Hacc : binds_accepted (cleared cur) ps argv).
  { apply binds_accepted_all. intros s' p v Hp Hv.
    apply Hok; [by apply Hrange|done]. }
  assert (Ebind : bind_arguments (Some payload) 0 argv (cleared cur)
                  = Some (Fallthrough, bound)).
  { apply bind_arguments_accepted; [congruence|done|lia| |done].
    intros r p Hp. rewrite Z.add_0_l. by apply Hps_target. }
  assert (Hb : bindings bound
               = foldl (fun m pv => <[pv.1 := pv.2]> m) ∅ (zip ps argv)).
  { unfold bound. by rewrite bindings_bind_calls. }
  (* the usage entries *)
  assert (Homit : omit ui = 1 /\ omit uj = 1).
  { pose proof (lookup_direct_usage_entry no _ _ i ci ui0 Hci Hui0) as Hdi.
    pose proof (lookup_direct_usage_entry no _ _ j cj uj0 Hcj Huj0) as Hdj.
    rewrite Hpi in Hdi. rewrite Hpj in Hdj.
    destruct (best_index_ok vtab info vt info' Hin E)
      as (_ & [(_ & _ & Hnull)|(_ & Hus & _)]); [congruence|].
    fold no in Hus. rewrite Hus in Hui, Huj.
    destruct (lookup_renumber _ 0 i _ Hdi) as (u1 & Hu1 & Ho1 & _).
    destruct (lookup_renumber _ 0 j _ Hdj) as (u2 & Hu2 & Ho2 & _).
    rewrite Hui in Hu1. rewrite Huj in Hu2.
    injection Hu1 as ->. injection Hu2 as ->. by rewrite Ho1, Ho2. }
  destruct Homit as [Hoi Hoj].
  exists ui, uj. rewrite Hpay.
  split; [by eexists|].
  split; [done|]. split; [done|]. split; [done|]. split; [done|].
  split; [unfold no in Hranks; lia|].
  split; [apply (Hargs i ui vi); [done|lia|done]|].
  split; [apply (Hargs j uj vj); [done|lia|done]|].
  split; [exact Ebind|]. split.
  { rewrite Hb.
    apply (foldl_insert_last ps argv ∅ (Z.to_nat (argvIndex uj - 1)));
      [done|apply (Hargs j uj vj); [done|lia|done]|].
    intros r Hr Hpr. unfold ps in Hpr.
    rewrite list_lookup_fmap in Hpr.
    destruct (cols !! r) as [x|] eqn:Hx; [|done]. injection Hpr as Hxe.
    destruct (accepted_cols_lookup_inv no _ r x Hx)
      as (k & c & Hc & Hpc & Hcol & Hrk).
    destruct (decide (j < k)%nat) as [Hjk|Hjk].
    - apply (Hlast k c Hjk Hc Hpc). lia.
    - assert (Hle := rank_mono no (aConstraint info) k j ltac:(lia)).
      unfold no in *. lia. }
  intros Hvt. split.
  - intros Hfit Hcap.
    destruct (filter_accepted cur (Some payload) argv ps)
      as (cur' & Ef & _ & Hstmt & _).
    { rewrite Hvt, Hn. done. }
    { by rewrite Hvt. }
    { lia. }
    { congruence. }
    { done. }
    { done. }
    eexists _, cur'. split; [exact Ef|exact Hstmt].
  - intros Hmore Hstep. unfold statement_vtab_filter.
    fold (cleared cur). rewrite Ebind. cbn [mbind option_bind].
    assert (Ef : (sqlite3_step bound =? SQLITE_ROW)
                 || (sqlite3_step bound =? SQLITE_DONE) = true).
    { destruct Hstep as [-> | ->]; reflexivity. }
    rewrite Ef. cbn [negb]. rewrite Hvt.
    pose proof (lookup_accepted_rank no _ j cj Hcj Hpj) as Hrj.
    fold cols in Hrj. apply lookup_lt_Some in Hrj.
    destruct (Z.eqb_spec (Z.of_nat (length argv)) 0); [lia|].
    destruct (Z.leb_spec (Z.of_nat (length argv)) (num_inputs vtab));
      [lia|done].
Qed.

End RepeatedColumn.

(** Hidden columns 2 and 0 of [sum_table] with a range constraint on the
    output column in between: the entry of the first constraint has [omit]
    set, and the entry of the range constraint is as it was. *)
Lemma plan_omits_accepted_constraints_witness :
  exists info' u u',
    statement_vtab_best_index (H := LP64) (H0 := plentiful) sum_table
      (fresh_index_info [equality 3; less_than 0; equality 1])
    = Some (SQLITE_OK, sum_table, info')
    /\ aConstraintUsage info' !! 0%nat = Some u
    /\ omit u = 1 /\ 1 <= argvIndex u
    /\ aConstraintUsage info' !! 1%nat = Some u'
    /\ u' = {| argvIndex := 0; omit := 0 |}.
Proof.
  assert (Hin : planner_input (H := LP64) sum_table
                  (fresh_index_info [equality 3; less_than 0; equality 1])).
  { concrete_input. }
  destruct (statement_vtab_best_index (H := LP64) (H0 := plentiful) sum_table
              (fresh_index_info [equality 3; less_than 0; equality 1]))
    as [[[ret vt] info']|] eqn:E; [|by vm_compute in E].
  assert (ret = SQLITE_OK /\ vt = sum_table) as [-> ->].
  { vm_compute in E. by injection E as <- <- _. }
  destruct (plan_omits_accepted_constraints (H := LP64) (H0 := plentiful)
              sum_table _ sum_table info' 0%nat (equality 3)
              {| argvIndex := 0; omit := 0 |} Hin E eq_refl eq_refl)
    as (u & Hu & Ho & Ha).
  destruct (plan_omits_accepted_constraints (H := LP64) (H0 := plentiful)
              sum_table _ sum_table info' 1%nat (less_than 0)
              {| argvIndex := 0; omit := 0 |} Hin E eq_refl eq_refl)
    as (u' & Hu' & Hsame).
  exists info', u, u'. split; [reflexivity|]. split; [exact Hu|].
  split; [exact Ho|]. split; [exact Ha|]. split; [exact Hu'|exact Hsame].
Defined.

(** [where a = 5 and a = 6] on hidden column 0.  On [sum_table], with three
    parameters, the filter call returns and parameter 1 ends bound to 6; on
    [echo_table], with one, the binds leave parameter 1 bound to 6 and the
    filter call fails its assertion. *)
Lemma repeated_column_binds_last_value_witness :
  (exists ret cur',
     statement_vtab_filter (H := LP64) opened_cursor (Some payload_0_0)
       [Int 5; Int 6]
     = Some (ret, cur')
     /\ bindings (stmt cur') !! 1 = Some (Int 6))
  /\ (exists bound,
        bind_arguments (H := LP64) (Some payload_0_0) 0 [Int 5; Int 6]
          (cleared echo_cursor)
        = Some (Fallthrough, bound)
        /\ bindings bound !! 1 = Some (Int 6)
        /\ statement_vtab_filter (H := LP64) echo_cursor (Some payload_0_0)
             [Int 5; Int 6]
           = None).
Proof.
  assert (Hargs : forall info' : sqlite3_index_info,
            aConstraintUsage info'
            = [ {| argvIndex := 1; omit := 1 |};
                {| argvIndex := 2; omit := 1 |} ] ->
            passes_arguments (aConstraintUsage info')
              [Int 5; Int 6] [Int 5; Int 6]).
  { intros info' Hus. rewrite Hus. split; [reflexivity|].
    intros [|[|i]] u v Hu Hnz Hv; simpl in Hu, Hv.
    - injection Hu as <-. injection Hv as <-. reflexivity.
    - injection Hu as <-. injection Hv as <-. reflexivity.
    - discriminate Hu. }
  assert (Hok : forall n, n <= 3 ->
            forall (s : list (stmt_call value)) p v,
              1 <= p <= n -> v ∈ [Int 5; Int 6] ->
              sqlite3_bind_value s p v = SQLITE_OK).
  { intros n Hn3 s p v Hp Hv. change (abs_sum_bind p v = SQLITE_OK).
    unfold abs_sum_bind.
    destruct (Z.leb_spec 1 p); [|lia].
    destruct (Z.leb_spec p 3); [|lia].
    rewrite !elem_of_cons, elem_of_nil in Hv.
    by destruct Hv as [->|[->|[]]]. }
  assert (Hlast : forall k c, (1 < k)%nat ->
            [equality 1; equality 1] !! k = Some c ->
            passed_over 1 c = false -> iColumn c <> 1).
  { intros [|[|k]] c Hk Hc; [lia|lia|discriminate Hc]. }
  split.
  - assert (Hin : planner_input (H := LP64) sum_table
                    (fresh_index_info [equality 1; equality 1])).
    { concrete_input. }
    destruct (statement_vtab_best_index (H := LP64) (H0 := plentiful)
                sum_table (fresh_index_info [equality 1; equality 1]))
      as [[[ret vt] info']|] eqn:E; [|by vm_compute in E].
    assert (ret = SQLITE_OK
            /\ aConstraintUsage info'
               = [ {| argvIndex := 1; omit := 1 |};
                   {| argvIndex := 2; omit := 1 |} ]
            /\ idxStr info' = Some payload_0_0)
      as (-> & Hus & Hpay).
    { vm_compute in E. by injection E as <- _ <-. }
    destruct (repeated_column_binds_last_value (H := LP64) (H0 := plentiful)
                sum_table _ vt info' opened_cursor
                [Int 5; Int 6] [Int 5; Int 6] 0%nat 1%nat
                (equality 1) (equality 1) (Int 5) (Int 6) Hin E
                (Hargs info' Hus) (Hok 3 ltac:(lia)) ltac:(lia)
                eq_refl eq_refl eq_refl eq_refl eq_refl Hlast
                eq_refl eq_refl)
      as (ui & uj & _ & _ & _ & _ & _ & _ & _ & _ & _ & Hb & Hf).
    destruct Hf as [Hf _]; [reflexivity|].
    destruct Hf as (ret & cur' & Ef & Hstmt); [by vm_compute|reflexivity|].
    rewrite Hpay in Ef. exists ret, cur'. split; [exact Ef|].
    rewrite Hstmt. exact Hb.
  - assert (Hin : planner_input (H := LP64) echo_table
                    (fresh_index_info [equality 1; equality 1])).
    { concrete_input. }
    destruct (statement_vtab_best_index (H := LP64) (H0 := plentiful)
                echo_table (fresh_index_info [equality 1; equality 1]))
      as [[[ret vt] info']|] eqn:E; [|by vm_compute in E].
    assert (ret = SQLITE_OK
            /\ aConstraintUsage info'
               = [ {| argvIndex := 1; omit := 1 |};
                   {| argvIndex := 2; omit := 1 |} ]
            /\ idxStr info' = Some payload_0_0)
      as (-> & Hus & Hpay).
    { vm_compute in E. by injection E as <- _ <-. }
    destruct (repeated_column_binds_last_value (H := LP64) (H0 := plentiful)
                echo_table _ vt info' echo_cursor
                [Int 5; Int 6] [Int 5; Int 6] 0%nat 1%nat
                (equality 1) (equality 1) (Int 5) (Int 6) Hin E
                (Hargs info' Hus) (Hok 1 ltac:(lia)) ltac:(lia)
                eq_refl eq_refl eq_refl eq_refl eq_refl Hlast
                eq_refl eq_refl)
      as (ui & uj & _ & _ & _ & _ & _ & _ & _ & _ & Hbind & Hb & Hf).
    destruct Hf as [_ Hf]; [reflexivity|].
    rewrite Hpay in Hbind, Hf.
    eexists. split; [exact Hbind|]. split; [exact Hb|].
    apply Hf; [by vm_compute|left; reflexivity].
Defined.

(** ** Opening a cursor *)

Section OpenFacts.
Context {sqlite3_value : Type}.
Context `{Platform} `{Connection} `{CursorMemory sqlite3_value}.
Context `{Engine sqlite3_value}.

(** A cursor that [statement_vtab_open] returns with [SQLITE_OK] has a
    statement on which no call has been made yet.  Its array has room for
    [num_inputs] arguments when [sqlite3_malloc] succeeded, and then a first
    filter call with at most [num_inputs] arguments retains them; when
    [sqlite3_malloc] failed, which open does not test, the same filter call
    copies its arguments through a null pointer. *)
Theorem open_then_filter vtab st garbage idxStr argv ps :
  0 <= num_inputs vtab ->
  sizeof_pointer * num_inputs vtab <= INT_MAX ->
  malloc_cursor = Some garbage ->
  sqlite3_prepare_v2 (sql vtab) (int_wrap (sql_len vtab))
  = (SQLITE_OK, Some st) ->
  argv <> [] ->
  Z.of_nat (length argv) <= num_inputs vtab ->
  length ps = length argv ->
  (forall j p, ps !! j = Some p -> target idxStr (Z.of_nat j) = Some p) ->
  let r := statement_vtab_open vtab in
  exists cur,
    opened_ret r = SQLITE_OK /\ opened r = Some cur
    /\ stmt cur = [] /\ pVtab cur = vtab
    /\ (binds_accepted (cleared cur) ps argv ->
        let bound := bind_calls ps argv ++ cleared cur in
        sqlite3_step bound = SQLITE_ROW \/ sqlite3_step bound = SQLITE_DONE ->
        match sqlite3_malloc (sizeof_pointer * num_inputs vtab) with
        | Some _ =>
            exists cur',
              statement_vtab_filter cur idxStr argv = Some (SQLITE_OK, cur')
              /\ bound_arguments cur' = argv
        | None => statement_vtab_filter cur idxStr argv = None
        end).
Proof.
  intros Hni Hsz Hcur Hprep Hne Hargc Hlen Ht r.
  pose proof sizeof_pointer_pos as Hp.
  pose proof INT_MAX_pos as Hmax.
  pose proof INT_MAX_le_SIZE_MAX as Hsm. fold INT_MAX in Hsm.
  assert (Hmin : INT_MIN <= 0) by (unfold INT_MIN, INT_MAX in *; lia).
  assert (Hle : num_inputs vtab <= INT_MAX) by nia.
  subst r. unfold statement_vtab_open. rewrite Hcur.
  destruct garbage as [g1 g2].
  rewrite Hprep. cbn [opened_ret opened].
  rewrite (size_wrap_small (num_inputs vtab)) by lia.
  rewrite size_wrap_small by nia. rewrite int_wrap_small by nia.
  eexists. split; [done|]. split; [reflexivity|]. split; [done|].
  split; [done|].
  intros Hacc Hstep.
  rewrite (filter_copies _ idxStr argv ps); try done.
  cbn [param_argv]. unfold copy_arguments.
  destruct (sqlite3_malloc (sizeof_pointer * num_inputs vtab)) as [l|] eqn:Hm.
  - apply sqlite3_malloc_length in Hm as [_ Hl].
    rewrite Z.mul_comm, Z.div_mul in Hl by lia.
    change (default [] (Some l)) with l.
    rewrite decide_True by lia. cbn [mbind option_bind].
    eexists. split; [reflexivity|]. unfold bound_arguments. simpl.
    rewrite Nat2Z.id. by rewrite take_app_length.
  - change (default [] None) with (@nil sqlite3_value).
    rewrite decide_False; [done|].
    destruct argv; [done|]. simpl. lia.
Qed.

(** What [statement_vtab_open] leaves behind.  Without memory for the
    cursor it returns [SQLITE_NOMEM], writes no cursor and holds nothing.
    Otherwise it returns the code of [sqlite3_prepare_v2], whatever
    [sqlite3_malloc] answered; the cursor has been stored in [*ppCursor],
    with the table's array when there is one, also when the compilation
    failed; its statement handle is a compiled statement exactly when
    [sqlite3_prepare_v2] gave one; and open has freed nothing: the cursor,
    the array that was allocated and the statement that was compiled are all
    still held, each once, when it returns an error too. *)
Theorem open_holds vtab :
  let r := statement_vtab_open vtab in
  let prepared := sqlite3_prepare_v2 (sql vtab) (int_wrap (sql_len vtab)) in
  let argv :=
    sqlite3_malloc
      (int_wrap (size_wrap (sizeof_pointer * size_wrap (num_inputs vtab)))) in
  (malloc_cursor = None ->
   r = {| opened_ret := SQLITE_NOMEM; opened := None;
          opened_compiled := false; opened_held := [] |})
  /\ (forall g, malloc_cursor = Some g ->
      opened_ret r = prepared.1
      /\ opened r
         = Some {| pVtab := vtab; stmt := []; rowid := g.1;
                   param_argc := g.2; param_argv := default [] argv |}
      /\ (opened_compiled r = true <-> is_Some prepared.2)
      /\ The_cursor ∈ opened_held r
      /\ (The_param_argv ∈ opened_held r <-> is_Some argv)
      /\ (The_cursor_stmt ∈ opened_held r <-> is_Some prepared.2)
      /\ NoDup (opened_held r)).
Proof.
  intros r prepared argv. subst r prepared argv. unfold statement_vtab_open.
  destruct malloc_cursor as [[g1 g2]|]; (split; [done|]); [|done].
  intros g [= <-].
  destruct (sqlite3_prepare_v2 _ _) as [ret [st|]];
    destruct (sqlite3_malloc _) as [l|]; cbn;
    (split; [done|]); (split; [done|]);
    rewrite !elem_of_cons, !elem_of_nil;
    (split; [split; try done; try (by eauto); by intros [? [=]]|]);
    (split; [tauto|]);
    (split; [split; try (by eauto); try tauto; try (by intros [? [=]]);
             try (by intros [[=]|[[=]|[]]]); by intros [[=]|[]]|]);
    (split; [split; try (by eauto); try tauto; try (by intros [? [=]]);
             try (by intros [[=]|[[=]|[]]]); by intros [[=]|[]]|]);
    repeat (apply NoDup_cons; split;
            [rewrite ?elem_of_cons, ?elem_of_nil; by intros [[=]|[[=]|[]]]
             || by intros [[=]|[]] || by intros []|]);
    apply NoDup_nil_2.
Qed.

End OpenFacts.

(** A cursor on [echo_table] over a connection that refuses the table's
    text: open returns the error, and has stored the cursor, with its array
    of one entry and without a statement; the cursor and the array are
    still held. *)
Lemma open_holds_witness :
  opened_ret (statement_vtab_open (H := LP64) (H0 := abs_sum_connection)
                (H1 := roomy) echo_table) = SQLITE_ERROR
  /\ opened (statement_vtab_open (H := LP64) (H0 := abs_sum_connection)
               (H1 := roomy) echo_table) = Some echo_cursor
  /\ opened_compiled (statement_vtab_open (H := LP64)
                        (H0 := abs_sum_connection) (H1 := roomy) echo_table)
     = false
  /\ The_cursor ∈ opened_held (statement_vtab_open (H := LP64)
                                 (H0 := abs_sum_connection) (H1 := roomy)
                                 echo_table)
  /\ The_param_argv ∈ opened_held (statement_vtab_open (H := LP64)
                                     (H0 := abs_sum_connection) (H1 := roomy)
                                     echo_table).
Proof.
  destruct (open_holds (H := LP64) (H0 := abs_sum_connection) (H1 := roomy)
              echo_table) as [_ Hstored].
  destruct (Hstored (0, 0) eq_refl)
    as (Hret & Hcur & Hcomp & Hc & Ha & _ & _).
  split; [exact Hret|]. split; [exact Hcur|]. split.
  { destruct (opened_compiled _); [|reflexivity].
    destruct Hcomp as [Hcomp _]. destruct (Hcomp eq_refl) as [st Hst].
    discriminate Hst. }
  split; [exact Hc|]. apply Ha. exists [Null]. reflexivity.
Defined.

(** A cursor on [sum_table] and its first scan with three arguments: with
    the array they are retained, without it the copy has no target. *)
Lemma open_then_filter_witness :
  (exists cur cur',
     opened (statement_vtab_open (H := LP64) (H0 := abs_sum_connection)
               (H1 := roomy) sum_table) = Some cur
     /\ statement_vtab_filter (H := LP64) cur None [Int 1; Int 2; Int 3]
        = Some (SQLITE_OK, cur')
     /\ bound_arguments cur' = [Int 1; Int 2; Int 3])
  /\ (exists cur,
        opened (statement_vtab_open (H := LP64) (H0 := abs_sum_connection)
                  (H1 := no_array) sum_table) = Some cur
        /\ opened_ret (statement_vtab_open (H := LP64)
                         (H0 := abs_sum_connection) (H1 := no_array)
                         sum_table) = SQLITE_OK
        /\ statement_vtab_filter (H := LP64) cur None [Int 1; Int 2; Int 3]
           = None).
Proof.
  split.
  - destruct (open_then_filter (H := LP64) (H0 := abs_sum_connection)
                (H1 := roomy) (H2 := abs_sum_engine) sum_table abs_sum_stmt
                (0, 0) None [Int 1; Int 2; Int 3] [1; 2; 3])
      as (cur & _ & Ho & Hs & _ & Hf).
    { by vm_compute. }
    { by vm_compute. }
    { reflexivity. }
    { reflexivity. }
    { done. }
    { by vm_compute. }
    { reflexivity. }
    { intros [|[|[|j]]] p Hp; simpl in Hp; try done; by injection Hp as <-. }
    destruct Hf as (cur' & Ef & Hb).
    { unfold cleared. rewrite Hs.
      split; [reflexivity|split; [reflexivity|split; [reflexivity|exact I]]]. }
    { unfold cleared. rewrite Hs. left. reflexivity. }
    exists cur, cur'. split; [exact Ho|]. split; [exact Ef|exact Hb].
  - destruct (open_then_filter (H := LP64) (H0 := abs_sum_connection)
                (H1 := no_array) (H2 := abs_sum_engine) sum_table abs_sum_stmt
                (0, 0) None [Int 1; Int 2; Int 3] [1; 2; 3])
      as (cur & Hr & Ho & Hs & _ & Hf).
    { by vm_compute. }
    { by vm_compute. }
    { reflexivity. }
    { reflexivity. }
    { done. }
    { by vm_compute. }
    { reflexivity. }
    { intros [|[|[|j]]] p Hp; simpl in Hp; try done; by injection Hp as <-. }
    exists cur. split; [exact Ho|]. split; [exact Hr|]. apply Hf.
    + unfold cleared. rewrite Hs.
      split; [reflexivity|split; [reflexivity|split; [reflexivity|exact I]]].
    + unfold cleared. rewrite Hs. left. reflexivity.
Defined.

(** ** The declared schema as a text *)

Lemma length_append (s1 s2 : string) :
  String.length (s1 +:+ s2) = (String.length s1 + String.length s2)%nat.
Proof.
  induction s1 as [|c s1 IH]; [done|]. rewrite append_cons. simpl.
  by rewrite IH.
Qed.

(** Overwriting the last character. *)
Lemma set_char_last (s : string) c d :
  set_char (s +:+ String c "") (String.length (s +:+ String c "") - 1) d
  = s +:+ String d "".
Proof.
  rewrite length_append. simpl.
  replace (String.length s + 1 - 1)%nat with (String.length s) by lia.
  induction s as [|a s IH]; [done|].
  rewrite !append_cons. simpl. by rewrite IH.
Qed.

Lemma render_column_text d : render_column d = column_text d +:+ ",".
Proof. unfold render_column, column_text. by rewrite !append_assoc. Qed.

Lemma render_columns_list ds :
  ds <> [] -> render_columns ds = column_list ds +:+ ",".
Proof.
  induction ds as [|d ds IH]; intros Hne; [done|].
  destruct ds as [|d' ds].
  - simpl. by rewrite append_empty_r, render_column_text.
  - cbn [render_columns] in *. rewrite IH by done.
    unfold column_list. cbn [fmap list_fmap String.concat].
    rewrite render_column_text. by rewrite !append_assoc.
Qed.

(** The declared statement as a text, when every result column has a name
    and the string builder does not fail.  With at least one column it is
    [CREATE TABLE x( ] followed by the columns, separated by commas and with
    no comma after the last, and the closing parenthesis: the character the
    code overwrites is the comma after the last column.  With no column at all
    it is [CREATE TABLE x()]: the overwritten character is the space after the
    opening parenthesis.  When the builder fails there is no text, and
    nothing is overwritten. *)
Theorem schema_text_is_comma_separated `{Builder} stmt :
  (forall i, 0 <= i < sqlite3_column_count stmt ->
     is_Some (sqlite3_column_name stmt i)) ->
  build_create_statement stmt
  = if builds stmt
    then Some (if decide (declared_columns stmt = []) then "CREATE TABLE x()"
               else "CREATE TABLE x( " +:+ column_list (declared_columns stmt)
                    +:+ ")")
    else None.
Proof.
  intros Hnames. rewrite build_create_statement_spec by done.
  destruct (builds stmt); [|done].
  f_equal. unfold render_schema. case_decide as Hd.
  - by rewrite Hd.
  - rewrite render_columns_list by done.
    rewrite <- append_assoc.
    change "," with (String "," "").
    by rewrite set_char_last, append_assoc.
Qed.

(** The statement of the columns [a], [b] and the parameters [:x], [:y],
    with a builder that does not fail and with one that has no room for the
    second column. *)
Lemma schema_text_is_comma_separated_witness :
  build_create_statement (H := sturdy) two_by_two
  = Some "CREATE TABLE x( 'a' ,'b' ,'x' hidden,'y' hidden)"
  /\ build_create_statement (H := cramped) two_by_two = None.
Proof.
  assert (Hnames : forall i, 0 <= i < sqlite3_column_count two_by_two ->
                     is_Some (sqlite3_column_name two_by_two i)).
  { intros i Hi. simpl in *.
    destruct (Z.eqb_spec i 0); [by eexists|].
    destruct (Z.eqb_spec i 1); [by eexists|lia]. }
  split.
  - rewrite (schema_text_is_comma_separated (H := sturdy) two_by_two Hnames).
    reflexivity.
  - rewrite (schema_text_is_comma_separated (H := cramped) two_by_two Hnames).
    reflexivity.
Defined.

(** ** Table creation: success and the errors of the library *)

Section CreateOutcomes.
Context `{Platform} `{Allocator} `{Connection} `{Builder}.

(** [statement_vtab_create] from the compilation of the statement on, for
    an argument that passed the two tests and whose text was copied. *)
Lemma create_compiles argv ppVtab arg text :
  (4 <= length argv)%nat -> argv !! 3%nat = Some arg ->
  parenthesized arg ->
  Z.of_nat (String.length arg) <= INT_MAX ->
  malloc_vtab = true ->
  sqlite3_mprintf (substring 1 (String.length arg - 2) arg) = Some text ->
  statement_vtab_create argv ppVtab
  = let sql_len := Z.of_nat (String.length arg) - 2 in
    let '(ret, prepared) := sqlite3_prepare_v2 text sql_len in
    let held := [The_mutex; The_sql; The_vtab] in
    let held := if prepared is None then held else The_stmt :: held in
    if negb (ret =? SQLITE_OK) then create_sqlite_error ret held
    else
    let held := release The_mutex held in
    let stmt := default null_stmt prepared in
    if negb (sqlite3_stmt_readonly stmt) then
      let err := sqlite3_mprintf "Statement must be read only." in
      create_error (if err is None then SQLITE_NOMEM else SQLITE_ERROR) err held
    else
    match build_create_statement stmt with
    | None => create_error SQLITE_NOMEM None held
    | Some create =>
        let held := The_mutex :: The_create :: held in
        let ret := sqlite3_declare_vtab create in
        if negb (ret =? SQLITE_OK) then create_sqlite_error ret held
        else
        {| created_ret := SQLITE_OK;
           created_vtab :=
             Some {| zErrMsg := None; sql := text; sql_len := sql_len;
                     num_inputs := sqlite3_bind_parameter_count stmt;
                     num_outputs := sqlite3_column_count stmt |};
           created_err := None;
           created_held :=
             release The_stmt (release The_create (release The_mutex held)) |}
    end.
Proof.
  intros Hn Harg Hp Hmax Hvt Htext.
  pose proof Hp as (Hlen & _ & _).
  apply parenthesized_test in Hp; [|done].
  unfold statement_vtab_create.
  destruct (Z.ltb_spec (Z.of_nat (length argv)) 4); [lia|].
  rewrite Harg.
  destruct (Z.ltb_spec (Z.of_nat (String.length arg)) 3); [lia|].
  rewrite Hp, Hvt. cbn [negb].
  pose proof INT_MAX_le_SIZE_MAX as Hsz. fold INT_MAX in Hsz.
  pose proof INT_MAX_pos as Hpos.
  assert (Hmin : INT_MIN <= 0) by (unfold INT_MIN, INT_MAX in *; lia).
  rewrite size_wrap_small by lia.
  replace (Z.to_nat (Z.of_nat (String.length arg) - 2))
    with (String.length arg - 2)%nat by lia.
  rewrite Htext, int_wrap_small by lia.
  cbv zeta. destruct (sqlite3_prepare_v2 _ _) as [ret prepared].
  reflexivity.
Qed.

(** What a creation that returns [SQLITE_OK] has done: the argument stands
    between parentheses; the text between them was compiled and is
    read-only; the schema built from the compiled statement was declared and
    accepted; the table holds that text, its length and the two counts of the
    statement; the statement, the schema text and the mutex have been
    released, and [statement_vtab_destroy] releases the rest. *)
Theorem create_success argv ppVtab arg :
  argv !! 3%nat = Some arg ->
  Z.of_nat (String.length arg) <= INT_MAX ->
  let r := statement_vtab_create argv ppVtab in
  created_ret r = SQLITE_OK ->
  parenthesized arg
  /\ exists text prepared create,
       let stmt := default null_stmt prepared in
       sqlite3_mprintf (substring 1 (String.length arg - 2) arg) = Some text
       /\ sqlite3_prepare_v2 text (Z.of_nat (String.length arg) - 2)
          = (SQLITE_OK, prepared)
       /\ sqlite3_stmt_readonly stmt = true
       /\ build_create_statement stmt = Some create
       /\ sqlite3_declare_vtab create = SQLITE_OK
       /\ created_vtab r
          = Some {| zErrMsg := None; sql := text;
                    sql_len := Z.of_nat (String.length arg) - 2;
                    num_inputs := sqlite3_bind_parameter_count stmt;
                    num_outputs := sqlite3_column_count stmt |}
       /\ created_err r = None
       /\ created_held r = [The_sql; The_vtab]
       /\ statement_vtab_destroy (created_held r) = (SQLITE_OK, []).
Proof.
  intros Harg Hmax r Hok.
  assert (Hn : (4 <= length argv)%nat).
  { apply lookup_lt_Some in Harg. lia. }
  assert (Hlen : (3 <= String.length arg)%nat).
  { destruct (decide (3 <= String.length arg)%nat) as [|Hs]; [done|].
    exfalso. subst r. unfold statement_vtab_create in Hok.
    destruct (Z.ltb_spec (Z.of_nat (length argv)) 4); [lia|].
    rewrite Harg in Hok.
    destruct (Z.ltb_spec (Z.of_nat (String.length arg)) 3); [|lia].
    unfold misuse in Hok. by destruct (sqlite3_mprintf _). }
  assert (Hp : parenthesized arg).
  { apply parenthesized_test; [done|].
    destruct (_ || _) eqn:Ep; [|done].
    exfalso. subst r. unfold statement_vtab_create in Hok.
    destruct (Z.ltb_spec (Z.of_nat (length argv)) 4); [lia|].
    rewrite Harg in Hok.
    destruct (Z.ltb_spec (Z.of_nat (String.length arg)) 3); [lia|].
    rewrite Ep in Hok. unfold misuse in Hok. by destruct (sqlite3_mprintf _). }
  split; [done|].
  assert (Hvt : malloc_vtab = true).
  { destruct malloc_vtab eqn:Ev; [done|].
    exfalso. subst r. unfold statement_vtab_create in Hok.
    destruct (Z.ltb_spec (Z.of_nat (length argv)) 4); [lia|].
    rewrite Harg in Hok.
    destruct (Z.ltb_spec (Z.of_nat (String.length arg)) 3); [lia|].
    apply parenthesized_test in Hp; [|done]. by rewrite Hp, Ev in Hok. }
  destruct (sqlite3_mprintf (substring 1 (String.length arg - 2) arg))
    as [text|] eqn:Htext.
  2:{ exfalso. subst r. unfold statement_vtab_create in Hok.
      destruct (Z.ltb_spec (Z.of_nat (length argv)) 4); [lia|].
      rewrite Harg in Hok.
      destruct (Z.ltb_spec (Z.of_nat (String.length arg)) 3); [lia|].
      apply parenthesized_test in Hp; [|done]. rewrite Hp, Hvt in Hok.
      cbn [negb] in Hok.
      pose proof INT_MAX_le_SIZE_MAX as Hsz. fold INT_MAX in Hsz.
      rewrite size_wrap_small in Hok by lia.
      replace (Z.to_nat (Z.of_nat (String.length arg) - 2))
        with (String.length arg - 2)%nat in Hok by lia.
      by rewrite Htext in Hok. }
  subst r.
  rewrite (create_compiles argv ppVtab arg text Hn Harg Hp Hmax Hvt Htext)
    in Hok |- *.
  cbv zeta in Hok |- *.
  destruct (sqlite3_prepare_v2 text _) as [ret prepared] eqn:Hprep.
  unfold create_sqlite_error, create_error in Hok.
  destruct (Z.eqb_spec ret SQLITE_OK) as [->|Hne]; cbn [negb] in Hok |- *.
  2:{ exfalso. by destruct (sqlite3_mprintf (sqlite3_errmsg ret)). }
  destruct (sqlite3_stmt_readonly (default null_stmt prepared)) eqn:Hro;
    cbn [negb] in Hok |- *.
  2:{ exfalso. by destruct (sqlite3_mprintf "Statement must be read only."). }
  destruct (build_create_statement (default null_stmt prepared))
    as [create|] eqn:Hb; [|done].
  destruct (Z.eqb_spec (sqlite3_declare_vtab create) SQLITE_OK) as [Hd|Hd];
    cbn [negb] in Hok |- *.
  2:{ exfalso.
      by destruct (sqlite3_mprintf
                     (sqlite3_errmsg (sqlite3_declare_vtab create))). }
  exists text, prepared, create. cbn [created_vtab created_err created_held].
  split; [done|]. split; [done|]. split; [done|]. split; [done|].
  split; [done|]. split; [done|]. split; [done|].
  destruct prepared; by vm_compute.
Qed.

(** Errors of the library are passed on.  When [sqlite3_prepare_v2]
    refuses the text, or [sqlite3_declare_vtab] the schema, creation returns
    that code with the message of the connection ([SQLITE_NOMEM] without a
    message when the message cannot be copied); when the schema text cannot
    be built it returns [SQLITE_NOMEM].  In each case [*ppVtab] is null and
    nothing stays allocated. *)
Theorem create_passes_on_library_errors argv ppVtab arg text :
  (4 <= length argv)%nat -> argv !! 3%nat = Some arg ->
  parenthesized arg ->
  Z.of_nat (String.length arg) <= INT_MAX ->
  malloc_vtab = true ->
  sqlite3_mprintf (substring 1 (String.length arg - 2) arg) = Some text ->
  let r := statement_vtab_create argv ppVtab in
  let sql_len := Z.of_nat (String.length arg) - 2 in
  let passed_on ret :=
    {| created_ret :=
         if sqlite3_mprintf (sqlite3_errmsg ret) is None then SQLITE_NOMEM
         else ret;
       created_vtab := None;
       created_err := sqlite3_mprintf (sqlite3_errmsg ret);
       created_held := [] |} in
  (forall ret prepared,
     sqlite3_prepare_v2 text sql_len = (ret, prepared) ->
     ret <> SQLITE_OK -> r = passed_on ret)
  /\ (forall prepared create,
        sqlite3_prepare_v2 text sql_len = (SQLITE_OK, prepared) ->
        sqlite3_stmt_readonly (default null_stmt prepared) = true ->
        build_create_statement (default null_stmt prepared) = Some create ->
        sqlite3_declare_vtab create <> SQLITE_OK ->
        r = passed_on (sqlite3_declare_vtab create))
  /\ (forall prepared,
        sqlite3_prepare_v2 text sql_len = (SQLITE_OK, prepared) ->
        sqlite3_stmt_readonly (default null_stmt prepared) = true ->
        build_create_statement (default null_stmt prepared) = None ->
        r = {| created_ret := SQLITE_NOMEM; created_vtab := None;
               created_err := None; created_held := [] |}).
Proof.
  intros Hn Harg Hp Hmax Hvt Htext r sql_len passed_on. subst r.
  rewrite (create_compiles argv ppVtab arg text Hn Harg Hp Hmax Hvt Htext).
  cbv zeta. fold sql_len. split; [|split].
  - intros ret prepared -> Hne. apply Z.eqb_neq in Hne. rewrite Hne.
    cbn [negb]. unfold passed_on, create_sqlite_error, create_error.
    destruct (sqlite3_mprintf (sqlite3_errmsg ret)); destruct prepared;
      by vm_compute.
  - intros prepared create -> Hro Hb Hne. cbn [negb Z.eqb SQLITE_OK].
    rewrite Hro, Hb. cbn [negb]. apply Z.eqb_neq in Hne. rewrite Hne.
    cbn [negb]. unfold passed_on, create_sqlite_error, create_error.
    destruct (sqlite3_mprintf (sqlite3_errmsg _)); destruct prepared;
      by vm_compute.
  - intros prepared -> Hro Hb. cbn [negb Z.eqb SQLITE_OK].
    rewrite Hro, Hb. cbn [negb]. unfold create_error.
    destruct prepared; by vm_compute.
Qed.

(** A text in which the library finds no statement (only white space or a
    comment) compiles with [SQLITE_OK] to a null statement handle.  Creation
    does not test the handle: the null handle counts as read-only with no
    column and no parameter.  When the string builder fails, creation returns
    [SQLITE_NOMEM] and declares nothing; when it does not, the schema
    [CREATE TABLE x()] is declared, and the answer to that declaration is the
    outcome. *)
Theorem create_without_statement argv ppVtab arg text :
  (4 <= length argv)%nat -> argv !! 3%nat = Some arg ->
  parenthesized arg ->
  Z.of_nat (String.length arg) <= INT_MAX ->
  malloc_vtab = true ->
  sqlite3_mprintf (substring 1 (String.length arg - 2) arg) = Some text ->
  sqlite3_prepare_v2 text (Z.of_nat (String.length arg) - 2)
  = (SQLITE_OK, None) ->
  let r := statement_vtab_create argv ppVtab in
  let ret := sqlite3_declare_vtab "CREATE TABLE x()" in
  (builds null_stmt = false ->
   r = {| created_ret := SQLITE_NOMEM; created_vtab := None;
          created_err := None; created_held := [] |})
  /\ (builds null_stmt = true -> ret = SQLITE_OK ->
      r = {| created_ret := SQLITE_OK;
             created_vtab :=
               Some {| zErrMsg := None; sql := text;
                       sql_len := Z.of_nat (String.length arg) - 2;
                       num_inputs := 0; num_outputs := 0 |};
             created_err := None;
             created_held := [The_sql; The_vtab] |})
  /\ (builds null_stmt = true -> ret <> SQLITE_OK ->
      created_ret r
      = (if sqlite3_mprintf (sqlite3_errmsg ret) is None then SQLITE_NOMEM
         else ret)
      /\ created_err r = sqlite3_mprintf (sqlite3_errmsg ret)
      /\ created_vtab r = None /\ created_held r = []).
Proof.
  intros Hn Harg Hp Hmax Hvt Htext Hprep r ret. subst r.
  rewrite (create_compiles argv ppVtab arg text Hn Harg Hp Hmax Hvt Htext).
  cbv zeta. rewrite Hprep.
  change (default null_stmt None) with null_stmt.
  rewrite (build_create_statement_spec null_stmt) by (simpl; lia).
  change (render_schema (declared_columns null_stmt))
    with "CREATE TABLE x()".
  cbn [negb Z.eqb SQLITE_OK null_stmt sqlite3_stmt_readonly
       sqlite3_bind_parameter_count sqlite3_column_count].
  subst ret. split; [|split].
  - intros ->. reflexivity.
  - intros -> Hret. rewrite Hret. reflexivity.
  - intros -> Hne. apply Z.eqb_neq in Hne. rewrite Hne. cbn [negb].
    unfold create_sqlite_error, create_error.
    by destruct (sqlite3_mprintf (sqlite3_errmsg _)).
Qed.

End CreateOutcomes.

(** The table over the statement of [sum_table], created and destroyed. *)
Lemma create_success_witness :
  let r := statement_vtab_create (H := LP64) (H0 := plentiful)
             (H1 := abs_sum_connection)
             ["statement"; "main"; "t"; "(select abs(:a) + :b + :c as r)"]
             None in
  parenthesized "(select abs(:a) + :b + :c as r)"
  /\ created_vtab r = Some sum_table
  /\ statement_vtab_destroy (created_held r) = (SQLITE_OK, []).
Proof.
  destruct (create_success (H := LP64) (H0 := plentiful)
              (H1 := abs_sum_connection)
              ["statement"; "main"; "t"; "(select abs(:a) + :b + :c as r)"]
              None "(select abs(:a) + :b + :c as r)")
    as (Hp & text & prepared & create & _ & _ & _ & _ & _ & _ & _ & _ & Hd).
  { reflexivity. }
  { by vm_compute. }
  { by vm_compute. }
  split; [exact Hp|]. split; [by vm_compute|exact Hd].
Defined.

(** A text the connection refuses. *)
Lemma create_passes_on_library_errors_witness :
  statement_vtab_create (H := LP64) (H0 := plentiful)
    (H1 := abs_sum_connection)
    ["statement"; "main"; "t"; "(selec 1)"] None
  = {| created_ret := SQLITE_ERROR; created_vtab := None;
       created_err := Some "syntax error"; created_held := [] |}.
Proof.
  destruct (create_passes_on_library_errors (H := LP64) (H0 := plentiful)
              (H1 := abs_sum_connection)
              ["statement"; "main"; "t"; "(selec 1)"] None
              "(selec 1)" "selec 1")
    as (Hprep & _ & _).
  { simpl. lia. }
  { reflexivity. }
  { split; [simpl; lia|split; reflexivity]. }
  { by vm_compute. }
  { reflexivity. }
  { reflexivity. }
  rewrite (Hprep SQLITE_ERROR None); [reflexivity|reflexivity|done].
Defined.

(** A single space between the parentheses: the schema without columns is
    declared, and its refusal is the outcome; without room in the builder
    for the opening text nothing is declared. *)
Lemma create_without_statement_witness :
  (let r := statement_vtab_create (H := LP64) (H0 := plentiful)
              (H1 := abs_sum_connection) (H2 := sturdy)
              ["statement"; "main"; "t"; "( )"] None in
   created_ret r = SQLITE_ERROR
   /\ created_err r = Some "syntax error"
   /\ created_vtab r = None /\ created_held r = [])
  /\ statement_vtab_create (H := LP64) (H0 := plentiful)
       (H1 := abs_sum_connection) (H2 := no_room)
       ["statement"; "main"; "t"; "( )"] None
     = {| created_ret := SQLITE_NOMEM; created_vtab := None;
          created_err := None; created_held := [] |}.
Proof.
  split.
  - destruct (create_without_statement (H := LP64) (H0 := plentiful)
                (H1 := abs_sum_connection) (H2 := sturdy)
                ["statement"; "main"; "t"; "( )"] None "( )" " ")
      as (_ & _ & Hrefused).
    { simpl. lia. }
    { reflexivity. }
    { split; [simpl; lia|split; reflexivity]. }
    { by vm_compute. }
    { reflexivity. }
    { reflexivity. }
    { reflexivity. }
    apply Hrefused; [reflexivity|by vm_compute].
  - destruct (create_without_statement (H := LP64) (H0 := plentiful)
                (H1 := abs_sum_connection) (H2 := no_room)
                ["statement"; "main"; "t"; "( )"] None "( )" " ")
      as (Hfail & _).
    { simpl. lia. }
    { reflexivity. }
    { split; [simpl; lia|split; reflexivity]. }
    { by vm_compute. }
    { reflexivity. }
    { reflexivity. }
    { reflexivity. }
    apply Hfail. reflexivity.
Defined.
